(** * Telco billings warehouse: a shallow embedding of the ETL pipeline

    The development follows the layout of the [exacaster_task] package:

    - [MD5]: the digest that PostgreSQL's [MD5()] computes (RFC 1321),
      used by the stored function [generate_event_uuid];
    - the data model: staged and permanent rows, the catalogue of the
      permanent store and the connection with its open transaction;
    - [common/sql_queries.py]: every statement, with the meaning the
      server gives it;
    - [pipelines/telco_billings_pipeline.py]: validation, load, quality
      checks, views and retention;
    - [main.py]: the orchestrator;
    - the properties of the specification. *)

From Stdlib Require Import ZArith String Ascii List Lia Bool DecimalString.
From stdpp Require Import base option list gmap strings.

Import ListNotations.
Local Open Scope Z_scope.
Local Open Scope string_scope.

(** ** The MD5 digest (RFC 1321)

    Words are 32-bit values held in [Z]; every addition is reduced with
    the mask, rotations are written with shifts. *)

Module MD5.

Definition mask32 : Z := 0xFFFFFFFF.

Definition add32 (a b : Z) : Z := Z.land (a + b) mask32.

Definition not32 (a : Z) : Z := Z.lxor a mask32.

Definition rotl32 (x n : Z) : Z :=
  Z.land (Z.lor (Z.shiftl x n) (Z.shiftr x (32 - n))) mask32.

(** [K.(i) = floor (2^32 * |sin (i + 1)|)]. *)
Definition K : list Z :=
  [ 0xd76aa478; 0xe8c7b756; 0x242070db; 0xc1bdceee;
    0xf57c0faf; 0x4787c62a; 0xa8304613; 0xfd469501;
    0x698098d8; 0x8b44f7af; 0xffff5bb1; 0x895cd7be;
    0x6b901122; 0xfd987193; 0xa679438e; 0x49b40821;
    0xf61e2562; 0xc040b340; 0x265e5a51; 0xe9b6c7aa;
    0xd62f105d; 0x02441453; 0xd8a1e681; 0xe7d3fbc8;
    0x21e1cde6; 0xc33707d6; 0xf4d50d87; 0x455a14ed;
    0xa9e3e905; 0xfcefa3f8; 0x676f02d9; 0x8d2a4c8a;
    0xfffa3942; 0x8771f681; 0x6d9d6122; 0xfde5380c;
    0xa4beea44; 0x4bdecfa9; 0xf6bb4b60; 0xbebfbc70;
    0x289b7ec6; 0xeaa127fa; 0xd4ef3085; 0x04881d05;
    0xd9d4d039; 0xe6db99e5; 0x1fa27cf8; 0xc4ac5665;
    0xf4292244; 0x432aff97; 0xab9423a7; 0xfc93a039;
    0x655b59c3; 0x8f0ccc92; 0xffeff47d; 0x85845dd1;
    0x6fa87e4f; 0xfe2ce6e0; 0xa3014314; 0x4e0811a1;
    0xf7537e82; 0xbd3af235; 0x2ad7d2bb; 0xeb86d391 ].

(** Per-round left rotations. *)
Definition R : list Z :=
  [ 7; 12; 17; 22; 7; 12; 17; 22; 7; 12; 17; 22; 7; 12; 17; 22;
    5;  9; 14; 20; 5;  9; 14; 20; 5;  9; 14; 20; 5;  9; 14; 20;
    4; 11; 16; 23; 4; 11; 16; 23; 4; 11; 16; 23; 4; 11; 16; 23;
    6; 10; 15; 21; 6; 10; 15; 21; 6; 10; 15; 21; 6; 10; 15; 21 ].

Definition state : Type := (Z * Z * Z * Z)%type.

Definition init : state := (0x67452301, 0xefcdab89, 0x98badcfe, 0x10325476).

(** The round function and the index of the message word it reads. *)
Definition mix (i : nat) (b c d : Z) : Z :=
  if (i <? 16)%nat then Z.lor (Z.land b c) (Z.land (not32 b) d)
  else if (i <? 32)%nat then Z.lor (Z.land d b) (Z.land (not32 d) c)
  else if (i <? 48)%nat then Z.lxor b (Z.lxor c d)
  else Z.lxor c (Z.lor b (not32 d)).

Definition word_index (i : nat) : nat :=
  if (i <? 16)%nat then i
  else if (i <? 32)%nat then ((5 * i + 1) mod 16)%nat
  else if (i <? 48)%nat then ((3 * i + 5) mod 16)%nat
  else ((7 * i) mod 16)%nat.

Definition step (M : list Z) (st : state) (i : nat) : state :=
  let '(a, b, c, d) := st in
  let f := add32 (add32 (add32 (mix i b c d) a) (nth i K 0))
                 (nth (word_index i) M 0) in
  (d, add32 b (rotl32 f (nth i R 0)), b, c).

(** Sixteen little-endian words of a 64-byte block. *)
Fixpoint words (n : nat) (bytes : list Z) : list Z :=
  match n with
  | O => []
  | S n' =>
      match bytes with
      | b0 :: b1 :: b2 :: b3 :: rest =>
          (b0 + Z.shiftl b1 8 + Z.shiftl b2 16 + Z.shiftl b3 24) :: words n' rest
      | _ => []
      end
  end.

Definition compress (st : state) (block : list Z) : state :=
  let M := words 16 block in
  let '(a, b, c, d) := st in
  let '(a', b', c', d') := fold_left (step M) (seq 0 64) st in
  (add32 a a', add32 b b', add32 c c', add32 d d').

Fixpoint absorb (nblocks : nat) (bytes : list Z) (st : state) : state :=
  match nblocks with
  | O => st
  | S n => absorb n (skipn 64 bytes) (compress st (firstn 64 bytes))
  end.

Definition le_bytes (width : nat) (w : Z) : list Z :=
  map (fun k => Z.land (Z.shiftr w (8 * Z.of_nat k)) 0xFF) (seq 0 width).

(** Message, the byte 0x80, zeros up to 56 modulo 64, the bit length on
    eight bytes. *)
Definition pad (msg : list Z) : list Z :=
  let len := Z.of_nat (List.length msg) in
  let zeros := Z.to_nat ((55 - len) mod 64) in
  msg ++ [0x80] ++ repeat 0 zeros ++ le_bytes 8 (Z.land (8 * len) 0xFFFFFFFFFFFFFFFF).

Definition hex_digit (n : Z) : ascii :=
  nth (Z.to_nat n)
      (list_ascii_of_string "0123456789abcdef") "0"%char.

Definition hex_byte (b : Z) : string :=
  String (hex_digit (Z.shiftr b 4)) (String (hex_digit (Z.land b 0xF)) EmptyString).

Definition hex_word (w : Z) : string :=
  hex_byte (Z.land w 0xFF) ++
  hex_byte (Z.land (Z.shiftr w 8) 0xFF) ++
  hex_byte (Z.land (Z.shiftr w 16) 0xFF) ++
  hex_byte (Z.land (Z.shiftr w 24) 0xFF).

Definition bytes_of_string (s : string) : list Z :=
  map (fun c => Z.of_N (N_of_ascii c)) (list_ascii_of_string s).

Definition digest (s : string) : state :=
  let padded := pad (bytes_of_string s) in
  absorb (List.length padded / 64) padded init.

(** The digest as PostgreSQL renders it: 32 lower-case hex digits. *)
Definition md5 (s : string) : string :=
  let '(a, b, c, d) := digest s in
  hex_word a ++ hex_word b ++ hex_word c ++ hex_word d.

End MD5.

(** ** Values and rows

    Column values are held the way the server stores them: [INTEGER]
    as [Z], [TIMESTAMP WITH TIME ZONE] as the microseconds of the
    instant, [NUMERIC(18,8)] as the value scaled by [10^8], [FLOAT8] as
    the 64 bits of the double, text as [string]. SQL [NULL] is [None]. *)

Definition int_text (z : Z) : string :=
  DecimalString.NilZero.string_of_int (Z.to_int z).

(** The columns of the staging table, in the order of the CSV file. *)
Record StagingRow : Type := {
  customer_id : option Z;
  event_start_time : option Z;
  event_type : option string;
  rate_plan_id : option Z;
  billing_flag_one : option Z;
  billing_flag_two : option Z;
  duration : option Z;
  charge : option Z;
  month : option string
}.

(** A row of [telco_billings_usage]: the staged columns and the primary
    key [event_uuid], which is never null. *)
Record UsageRow : Type := {
  staged : StagingRow;
  event_uuid : string
}.

(** What the server answers when it reads a field or renders a value. *)
Inductive parsed (T : Type) : Type :=
| Accepted (v : T)
| Rejected (sqlstate : string).
Arguments Accepted {T} v.
Arguments Rejected {T} sqlstate.

(** The parts of PostgreSQL that the repository relies on and does not
    define: the input functions of the column types as [COPY] applies
    them to one non-empty field written by [csv.writer] ([Rejected] when
    the server refuses the line), the text form of a timestamp and of a
    numeric (they depend on the session), interval subtraction (calendar
    arithmetic in the session's time zone) and the wording of server
    errors. *)
Class Server : Type := {
  int4_in : string -> parsed Z;
  timestamptz_in : string -> parsed Z;
  varchar_in : nat -> string -> parsed string;
  float8_in : string -> parsed Z;
  numeric_in : string -> parsed Z;
  timestamptz_out : Z -> string;
  numeric_out : Z -> string;
  minus_days : Z -> Z -> Z;
  minus_months : Z -> Z -> Z;
  server_message : string -> string -> string
}.

(** ** Exceptions and logging *)

(** The exceptions of a run, by the handler of [main.py] that catches
    them: [FileNotFoundError]; [ValueError] and its subclasses
    ([UnicodeDecodeError] among them); [psycopg2.Error]; and any other
    [Exception] ([csv.Error], [IsADirectoryError], [PermissionError],
    ...), with the name of its class. *)
Inductive exn : Type :=
| FileNotFoundError (msg : string)
| ValueError (msg : string)
| Psycopg2Error (pgcode : option string) (msg : string)
| OtherError (type_name msg : string).

(** [str(e)] *)
Definition str (e : exn) : string :=
  match e with
  | FileNotFoundError msg => msg
  | ValueError msg => msg
  | Psycopg2Error _ msg => msg
  | OtherError _ msg => msg
  end.

Inductive outcome (A : Type) : Type :=
| Ok (a : A)
| Raise (e : exn).
Arguments Ok {A} a.
Arguments Raise {A} e.

(** ** The database

    [telco_billings_usage] with its rows when it exists, whether
    [generate_event_uuid] is defined, the secondary indexes (name to
    indexed column) and the views of schema [public]. *)

(** A view: one of the two the pipeline defines, or any other, given
    by its columns (name and type, in order). *)
Inductive ViewDef : Type :=
| UsageDistribution
| MonthlyTrends
| OtherView (columns : list (string * string)).

Record Store : Type := {
  table : option (list UsageRow);
  uuid_function : bool;
  indexes : gmap string string;
  views : gmap string ViewDef
}.

(** Statements, as the pipeline sends them. *)
Inductive Stmt : Type :=
| CreateMainTable
| CreateUuidFunction
| CreateIndexIfNotExists (name column : string)
| CreateIndex (name column : string)
| SelectPgClass (relname : string)
| DropIndexIfExists (name : string)
| CreateTempTable (name : string)
| CopyFrom (name : string) (buffer : list (list string))
| SelectCount (name : string)
| InsertFromStaging (name : string)
| CheckMissingValues
| CheckFutureDates
| CreateView (name : string) (definition : ViewDef)
| DeleteOldData (months : Z).

(** The cursor after a statement: [rowcount] and what [fetchone()]
    returns. *)
Record Reply : Type := {
  rowcount : Z;
  fetchone : option (list (option Z))
}.

(** The process and its connection: the durable store, the store as the
    open transaction sees it, the session's temporary tables, whether
    the transaction is in the failed state, the failures the
    environment will inject (one entry per round trip to the server,
    [Some msg] makes that round trip fail), the statements sent so far,
    the value of [CURRENT_TIMESTAMP], the WARNING records of the
    pipeline's logger and the alerts raised. *)
Record World : Type := {
  committed : Store;
  working : Store;
  temp_tables : gmap string (list StagingRow);
  aborted : bool;
  faults : list (option string);
  trace : list Stmt;
  current_timestamp : Z;
  warnings : list string;
  alerts : list (string * list string)
}.

Definition set_db (st : Store) (tmp : gmap string (list StagingRow))
    (w : World) : World :=
  {| committed := committed w; working := st; temp_tables := tmp;
     aborted := aborted w; faults := faults w; trace := trace w;
     current_timestamp := current_timestamp w;
     warnings := warnings w; alerts := alerts w |}.

Definition set_committed (st : Store) (w : World) : World :=
  {| committed := st; working := working w; temp_tables := temp_tables w;
     aborted := aborted w; faults := faults w; trace := trace w;
     current_timestamp := current_timestamp w;
     warnings := warnings w; alerts := alerts w |}.

Definition set_aborted (b : bool) (w : World) : World :=
  {| committed := committed w; working := working w;
     temp_tables := temp_tables w;
     aborted := b; faults := faults w; trace := trace w;
     current_timestamp := current_timestamp w;
     warnings := warnings w; alerts := alerts w |}.

Definition set_faults (fs : list (option string)) (w : World) : World :=
  {| committed := committed w; working := working w;
     temp_tables := temp_tables w;
     aborted := aborted w; faults := fs; trace := trace w;
     current_timestamp := current_timestamp w;
     warnings := warnings w; alerts := alerts w |}.

Definition sent (s : Stmt) (w : World) : World :=
  {| committed := committed w; working := working w;
     temp_tables := temp_tables w;
     aborted := aborted w; faults := faults w; trace := trace w ++ [s];
     current_timestamp := current_timestamp w;
     warnings := warnings w; alerts := alerts w |}.

Definition warned (msg : string) (w : World) : World :=
  {| committed := committed w; working := working w;
     temp_tables := temp_tables w;
     aborted := aborted w; faults := faults w; trace := trace w;
     current_timestamp := current_timestamp w;
     warnings := warnings w ++ [msg]; alerts := alerts w |}.

Definition alerted (subject : string) (issues : list string)
    (w : World) : World :=
  {| committed := committed w; working := working w;
     temp_tables := temp_tables w;
     aborted := aborted w; faults := faults w; trace := trace w;
     current_timestamp := current_timestamp w;
     warnings := warnings w; alerts := alerts w ++ [(subject, issues)] |}.

(** What a path holds. [Unopenable e]: the path exists and [open]
    raises [e] (a directory, a file that may not be read).
    [Readable rows failure]: the file opens and [csv.reader] yields
    [rows] in order; asked for the next row it then reports the end of
    the file, or raises [failure] (a field over the size limit of the
    [csv] module, bytes that are not UTF-8, ...). A path that is not
    bound does not exist. *)
Inductive File : Type :=
| Unopenable (e : exn)
| Readable (rows : list (list string)) (failure : option exn).

Abbreviation FileSystem := (gmap string File).

(** ** Computations that may raise *)

Definition M (A : Type) : Type := World -> outcome A * World.

Definition ret {A} (a : A) : M A := fun w => (Ok a, w).

Definition raise {A} (e : exn) : M A := fun w => (Raise e, w).

Definition bind {A B} (m : M A) (k : A -> M B) : M B :=
  fun w =>
    match m w with
    | (Ok a, w') => k a w'
    | (Raise e, w') => (Raise e, w')
    end.

Notation "x <~ m ;; k" := (bind m (fun x => k))
  (at level 100, m at next level, right associativity).
Notation "m ;;; k" := (bind m (fun _ => k))
  (at level 100, right associativity).

(** [try: body / except Exception: handler; raise] *)
Definition except_reraise {A} (body : M A) (handler : World -> World) : M A :=
  fun w =>
    match body w with
    | (Ok a, w') => (Ok a, w')
    | (Raise e, w') => (Raise e, handler w')
    end.

Fixpoint for_each {A} (l : list A) (f : A -> M unit) : M unit :=
  match l with
  | [] => ret tt
  | x :: rest => f x ;;; for_each rest f
  end.

Definition logger_warning (msg : string) : M unit :=
  fun w => (Ok tt, warned msg w).

(** A call that returns or raises without touching the world. *)
Definition lift {A} (o : outcome A) : M A := fun w => (o, w).

(** ** SQL: three-valued comparisons and aggregates *)

Definition sql_lt (a b : option Z) : option bool :=
  match a, b with
  | Some x, Some y => Some (x <? y)%Z
  | _, _ => None
  end.

Definition sql_gt (a b : option Z) : option bool := sql_lt b a.

Definition sql_ge (a b : option Z) : option bool :=
  match a, b with
  | Some x, Some y => Some (y <=? x)%Z
  | _, _ => None
  end.

(** [AND]: false wins over unknown. *)
Definition sql_and (p q : option bool) : option bool :=
  match p, q with
  | Some false, _ | _, Some false => Some false
  | Some true, Some true => Some true
  | _, _ => None
  end.

(** A [WHERE] clause keeps a row only when the condition is true. *)
Definition sql_where (p : option bool) : bool :=
  match p with
  | Some true => true
  | _ => false
  end.

(** [SUM] over no row is null. *)
Definition sql_sum (l : list Z) : option Z :=
  match l with
  | [] => None
  | _ => Some (fold_right Z.add 0 l)
  end.

Definition sql_count {A} (l : list A) : Z := Z.of_nat (List.length l).

(** [CASE WHEN v IS NULL THEN 1 ELSE 0 END] *)
Definition case_when_null {A} (v : option A) : Z :=
  match v with
  | None => 1
  | Some _ => 0
  end.

(** [COALESCE(v, d)] *)
Definition coalesce {A} (v : option A) (d : A) : A :=
  match v with
  | Some x => x
  | None => d
  end.

(** ** [common/sql_queries.py] *)

Definition main_table_name : string := "telco_billings_usage".

Definition NON_PK_INDEXES_TO_CREATE : list (string * Stmt) :=
  [ ("idx_billing_customer_id",
     CreateIndexIfNotExists "idx_billing_customer_id" "customer_id");
    ("idx_billing_event_time",
     CreateIndexIfNotExists "idx_billing_event_time" "event_start_time");
    ("idx_billing_event_type",
     CreateIndexIfNotExists "idx_billing_event_type" "event_type");
    ("idx_billing_month",
     CreateIndexIfNotExists "idx_billing_month" "month") ].

Definition NON_PK_INDEXES_TO_RECREATE : list (string * Stmt) :=
  [ ("idx_billing_customer_id",
     CreateIndex "idx_billing_customer_id" "customer_id");
    ("idx_billing_event_time",
     CreateIndex "idx_billing_event_time" "event_start_time");
    ("idx_billing_event_type",
     CreateIndex "idx_billing_event_type" "event_type");
    ("idx_billing_month",
     CreateIndex "idx_billing_month" "month") ].

Definition SQL_CREATE_MAIN_TABLE : Stmt := CreateMainTable.
Definition SQL_GENERATE_UUID_FUNCTION : Stmt := CreateUuidFunction.
Definition SQL_CHECK_MISSING_VALUES : Stmt := CheckMissingValues.
Definition SQL_CHECK_FUTURE_DATES : Stmt := CheckFutureDates.
Definition SQL_CREATE_USAGE_DISTRIBUTION_VIEW : Stmt :=
  CreateView "analytics_usage_distribution" UsageDistribution.
Definition SQL_CREATE_MONTHLY_TRENDS_VIEW : Stmt :=
  CreateView "analytics_monthly_trends" MonthlyTrends.

Definition get_sql_delete_old_data (retention_period_months : Z) : Stmt :=
  DeleteOldData retention_period_months.

Section Pipeline.

Context `{Server}.

(** *** The stored function [generate_event_uuid]

    The body, as written between [BEGIN] and [END]: every argument is
    cast to text, a null is replaced by the empty string, the five
    pieces are joined with underscores and hashed. *)
Definition generate_event_uuid_body
    (p_customer_id p_event_time : option Z) (p_event_type : option string)
    (p_rate_plan_id p_charge : option Z) : string :=
  MD5.md5
    (coalesce (int_text <$> p_customer_id) "" ++ "_" ++
     coalesce (timestamptz_out <$> p_event_time) "" ++ "_" ++
     coalesce p_event_type "" ++ "_" ++
     coalesce (int_text <$> p_rate_plan_id) "" ++ "_" ++
     coalesce (numeric_out <$> p_charge) "").

(** The function is declared [STRICT]: with a null argument the server
    does not run the body and the result is null. *)
Definition generate_event_uuid
    (p_customer_id p_event_time : option Z) (p_event_type : option string)
    (p_rate_plan_id p_charge : option Z) : option string :=
  match p_customer_id, p_event_time, p_event_type, p_rate_plan_id, p_charge with
  | Some _, Some _, Some _, Some _, Some _ =>
      Some (generate_event_uuid_body p_customer_id p_event_time p_event_type
              p_rate_plan_id p_charge)
  | _, _, _, _, _ => None
  end.

Definition row_uuid (s : StagingRow) : option string :=
  generate_event_uuid (customer_id s) (event_start_time s) (event_type s)
    (rate_plan_id s) (charge s).

(** *** [COPY ... FROM STDIN] with [sep=','] and [null='']

    An empty field is null; any other field goes through the input
    function of its column. The first refused field fails the command. *)
Definition copy_field {T} (input : string -> parsed T) (cell : string)
    : parsed (option T) :=
  if String.eqb cell "" then Accepted None
  else match input cell with
       | Accepted v => Accepted (Some v)
       | Rejected c => Rejected c
       end.

Definition parsed_bind {A B} (p : parsed A) (k : A -> parsed B) : parsed B :=
  match p with
  | Accepted v => k v
  | Rejected c => Rejected c
  end.

Definition copy_row (cells : list string) : parsed StagingRow :=
  match cells with
  | [c1; c2; c3; c4; c5; c6; c7; c8; c9] =>
      parsed_bind (copy_field int4_in c1) (fun v1 =>
      parsed_bind (copy_field timestamptz_in c2) (fun v2 =>
      parsed_bind (copy_field (varchar_in 50) c3) (fun v3 =>
      parsed_bind (copy_field int4_in c4) (fun v4 =>
      parsed_bind (copy_field int4_in c5) (fun v5 =>
      parsed_bind (copy_field int4_in c6) (fun v6 =>
      parsed_bind (copy_field float8_in c7) (fun v7 =>
      parsed_bind (copy_field numeric_in c8) (fun v8 =>
      parsed_bind (copy_field (varchar_in 7) c9) (fun v9 =>
      Accepted {| customer_id := v1; event_start_time := v2;
                  event_type := v3; rate_plan_id := v4;
                  billing_flag_one := v5; billing_flag_two := v6;
                  duration := v7; charge := v8; month := v9 |})))))))))
  | _ => Rejected "22P04"
  end.

Fixpoint copy_rows (buffer : list (list string)) : parsed (list StagingRow) :=
  match buffer with
  | [] => Accepted []
  | cells :: rest =>
      parsed_bind (copy_row cells) (fun r =>
      parsed_bind (copy_rows rest) (fun rs => Accepted (r :: rs)))
  end.

(** *** [INSERT ... SELECT ... ON CONFLICT (event_uuid) DO NOTHING]

    Staged rows are taken in order; a row whose identity is null breaks
    the not-null constraint of the primary key and fails the statement;
    a row whose identity is already in the table (from before or from
    this statement) is skipped. The count is the number of rows
    inserted. *)
Definition uuid_present (u : string) (rows : list UsageRow) : bool :=
  existsb (String.eqb u) (map event_uuid rows).

Fixpoint insert_on_conflict_do_nothing (staging : list StagingRow)
    (rows : list UsageRow) (inserted : Z)
    : (string * string) + (list UsageRow * Z) :=
  match staging with
  | [] => inr (rows, inserted)
  | s :: rest =>
      match row_uuid s with
      | None => inl ("23502", "event_uuid")
      | Some u =>
          if uuid_present u rows
          then insert_on_conflict_do_nothing rest rows inserted
          else insert_on_conflict_do_nothing rest
                 (rows ++ [{| staged := s; event_uuid := u |}]) (inserted + 1)
      end
  end.

(** *** The two quality queries and the retention delete *)

Definition in_last_day (now : Z) (r : UsageRow) : bool :=
  sql_where
    (sql_and (sql_ge (event_start_time (staged r)) (Some (minus_days now 1)))
             (sql_lt (event_start_time (staged r)) (Some now))).

Definition check_missing_values (now : Z) (rows : list UsageRow)
    : list (option Z) :=
  let recent := List.filter (in_last_day now) rows in
  [ sql_sum (map (fun r => case_when_null (customer_id (staged r))) recent);
    sql_sum (map (fun r => case_when_null (event_start_time (staged r))) recent);
    sql_sum (map (fun r => case_when_null (event_type (staged r))) recent);
    Some (sql_count recent) ].

Definition in_future (now : Z) (r : UsageRow) : bool :=
  sql_where (sql_gt (event_start_time (staged r)) (Some now)).

Definition check_future_dates (now : Z) (rows : list UsageRow)
    : list (option Z) :=
  [ Some (sql_count (List.filter (in_future now) rows)) ].

Definition older_than (now months : Z) (r : UsageRow) : bool :=
  sql_where (sql_lt (event_start_time (staged r))
                    (Some (minus_months now months))).

(** *** What each statement does to the store *)

Definition set_table (rows : option (list UsageRow)) (st : Store) : Store :=
  {| table := rows; uuid_function := uuid_function st;
     indexes := indexes st; views := views st |}.

Definition set_uuid_function (b : bool) (st : Store) : Store :=
  {| table := table st; uuid_function := b;
     indexes := indexes st; views := views st |}.

Definition set_indexes (ix : gmap string string) (st : Store) : Store :=
  {| table := table st; uuid_function := uuid_function st;
     indexes := ix; views := views st |}.

Definition set_views (vs : gmap string ViewDef) (st : Store) : Store :=
  {| table := table st; uuid_function := uuid_function st;
     indexes := indexes st; views := vs |}.

(** A relation of that name in schema [public] (what the [pg_class]
    lookup of the loader finds). *)
Definition relation_exists (st : Store) (name : string) : bool :=
  match indexes st !! name, views st !! name with
  | Some _, _ | _, Some _ => true
  | None, None =>
      match table st with
      | Some _ => String.eqb name main_table_name
      | None => false
      end
  end.

Definition command (n : Z) : Reply := {| rowcount := n; fetchone := None |}.

Definition one_row (n : Z) (cols : list (option Z)) : Reply :=
  {| rowcount := n; fetchone := Some cols |}.

Definition undefined_table (name : string) : string * string := ("42P01", name).
Definition duplicate_table (name : string) : string * string := ("42P07", name).
Definition wrong_object_type (name : string) : string * string := ("42809", name).
Definition undefined_function (name : string) : string * string := ("42883", name).
Definition invalid_table_definition (name : string) : string * string :=
  ("42P16", name).

(** The columns of a view, as its [SELECT] list and the types of the
    table give them. *)
Definition view_columns (d : ViewDef) : list (string * string) :=
  match d with
  | UsageDistribution =>
      [ ("service_type", "character varying(50)");
        ("rate_plan_id", "integer");
        ("event_count", "bigint");
        ("total_duration", "double precision");
        ("total_charge", "numeric");
        ("customer_count", "bigint") ]
  | MonthlyTrends =>
      [ ("month", "character varying(7)");
        ("service_type", "character varying(50)");
        ("event_count", "bigint");
        ("customer_count", "bigint");
        ("total_duration", "double precision");
        ("total_charge", "numeric") ]
  | OtherView columns => columns
  end.

(** [CREATE OR REPLACE VIEW] on a view that exists: the new query must
    give the columns of the old one, same names and types in the same
    order; it may add columns after them. *)
Fixpoint columns_kept (old new : list (string * string)) : bool :=
  match old, new with
  | [], _ => true
  | a :: old', b :: new' =>
      String.eqb (fst a) (fst b) && String.eqb (snd a) (snd b) &&
      columns_kept old' new'
  | _ :: _, [] => false
  end.

Definition Db : Type := (Store * gmap string (list StagingRow))%type.

Definition run_statement (now : Z) (s : Stmt) (db : Db)
    : (string * string) + (Reply * Db) :=
  let '(st, tmp) := db in
  match s with
  | CreateMainTable =>
      if relation_exists st main_table_name then inr (command (-1), db)
      else inr (command (-1), (set_table (Some []) st, tmp))
  | CreateUuidFunction =>
      inr (command (-1), (set_uuid_function true st, tmp))
  | CreateIndexIfNotExists name column =>
      match table st with
      | None => inl (undefined_table main_table_name)
      | Some _ =>
          if relation_exists st name then inr (command (-1), db)
          else inr (command (-1),
                    (set_indexes (<[name := column]> (indexes st)) st, tmp))
      end
  | CreateIndex name column =>
      match table st with
      | None => inl (undefined_table main_table_name)
      | Some _ =>
          if relation_exists st name then inl (duplicate_table name)
          else inr (command (-1),
                    (set_indexes (<[name := column]> (indexes st)) st, tmp))
      end
  | SelectPgClass relname =>
      if relation_exists st relname
      then inr (one_row 1 [Some 1], db)
      else inr ({| rowcount := 0; fetchone := None |}, db)
  | DropIndexIfExists name =>
      match indexes st !! name with
      | Some _ => inr (command (-1), (set_indexes (delete name (indexes st)) st, tmp))
      | None =>
          if relation_exists st name then inl (wrong_object_type name)
          else inr (command (-1), db)
      end
  | CreateTempTable name =>
      match tmp !! name with
      | Some _ => inl (duplicate_table name)
      | None => inr (command (-1), (st, <[name := []]> tmp))
      end
  | CopyFrom name buffer =>
      match tmp !! name with
      | None => inl (undefined_table name)
      | Some old =>
          match copy_rows buffer with
          | Rejected c => inl (c, name)
          | Accepted rs =>
              inr (command (sql_count rs), (st, <[name := (old ++ rs)%list]> tmp))
          end
      end
  | SelectCount name =>
      match tmp !! name with
      | None => inl (undefined_table name)
      | Some rs => inr (one_row 1 [Some (sql_count rs)], db)
      end
  | InsertFromStaging name =>
      match table st, tmp !! name with
      | None, _ => inl (undefined_table main_table_name)
      | Some _, None => inl (undefined_table name)
      | Some rows, Some staging =>
          if uuid_function st then
            match insert_on_conflict_do_nothing staging rows 0 with
            | inl err => inl err
            | inr (rows', n) => inr (command n, (set_table (Some rows') st, tmp))
            end
          else inl (undefined_function "generate_event_uuid")
      end
  | CheckMissingValues =>
      match table st with
      | None => inl (undefined_table main_table_name)
      | Some rows => inr (one_row 1 (check_missing_values now rows), db)
      end
  | CheckFutureDates =>
      match table st with
      | None => inl (undefined_table main_table_name)
      | Some rows => inr (one_row 1 (check_future_dates now rows), db)
      end
  | CreateView name definition =>
      match table st with
      | None => inl (undefined_table main_table_name)
      | Some _ =>
          match views st !! name with
          | Some old =>
              if columns_kept (view_columns old) (view_columns definition)
              then inr (command (-1),
                        (set_views (<[name := definition]> (views st)) st, tmp))
              else inl (invalid_table_definition name)
          | None =>
              if relation_exists st name then inl (wrong_object_type name)
              else inr (command (-1),
                        (set_views (<[name := definition]> (views st)) st, tmp))
          end
      end
  | DeleteOldData months =>
      match table st with
      | None => inl (undefined_table main_table_name)
      | Some rows =>
          let kept := List.filter (fun r => negb (older_than now months r)) rows in
          inr (command (sql_count rows - sql_count kept),
               (set_table (Some kept) st, tmp))
      end
  end.

(** ** The connection ([core/database.py] and psycopg2) *)

Definition server_error (err : string * string) : exn :=
  Psycopg2Error (Some (fst err)) (server_message (fst err) (snd err)).

(** The next entry of the failure script, consumed. *)
Definition round_trip (w : World) : option string * World :=
  (match faults w with
   | [] => None
   | f :: _ => f
   end, set_faults (tl (faults w)) w).

(** [cursor.execute] and [cursor.copy_from]. A statement sent while the
    transaction is in the failed state is refused; a failure, injected
    or reported by the server, leaves the store as it was and puts the
    transaction in the failed state. *)
Definition execute (s : Stmt) : M Reply :=
  fun w =>
    let w0 := sent s w in
    if aborted w0 then (Raise (server_error ("25P02", "")), w0)
    else
      match round_trip w0 with
      | (Some msg, w1) => (Raise (Psycopg2Error None msg), set_aborted true w1)
      | (None, w1) =>
          match run_statement (current_timestamp w1) s
                  (working w1, temp_tables w1) with
          | inl err => (Raise (server_error err), set_aborted true w1)
          | inr (r, (st, tmp)) => (Ok r, set_db st tmp w1)
          end
      end.

(** [conn.rollback()]: back to the durable store; the temporary tables
    of the transaction go with it. *)
Definition rollback (w : World) : World :=
  set_aborted false (set_db (committed w) ∅ w).

(** [conn.commit()]: the working store becomes durable and the
    [ON COMMIT DROP] tables are dropped; committing a failed
    transaction rolls it back. *)
Definition commit : M unit :=
  fun w =>
    match round_trip w with
    | (Some msg, w1) => (Raise (Psycopg2Error None msg), set_aborted true w1)
    | (None, w1) =>
        if aborted w1 then (Ok tt, rollback w1)
        else (Ok tt, set_db (working w1) ∅ (set_committed (working w1) w1))
    end.

(** [psycopg2.connect]: a new session on the durable store. *)
Definition connect : M unit :=
  fun w =>
    match round_trip w with
    | (Some msg, w1) => (Raise (Psycopg2Error None msg), w1)
    | (None, w1) => (Ok tt, rollback w1)
    end.

(** [conn.close()]: what was not committed is lost. *)
Definition close (w : World) : World := rollback w.

(** [managed_db_connection], a context manager: connect, run the block,
    close on every path. *)
Definition managed_db_connection {A} (block : M A) : M A :=
  fun w =>
    match connect w with
    | (Raise e, w1) => (Raise e, w1)
    | (Ok _, w1) =>
        match block w1 with
        | (r, w2) => (r, close w2)
        end
    end.

Definition log_and_run_sql (sql_query : Stmt) : M unit :=
  execute sql_query ;;; ret tt.

(** ** [config_settings.py] *)

Definition EXPECTED_CSV_COLUMNS : nat := 9.

(** The two settings read from the environment. *)
Record Settings : Type := {
  ENABLE_RETENTION_POLICY : bool;
  RETENTION_PERIOD_MONTHS : Z
}.

(** ** [pipelines/telco_billings_pipeline.py] *)

Definition nat_text (n : nat) : string := int_text (Z.of_nat n).

Definition setup_pipeline_db_structure : M unit :=
  except_reraise
    (log_and_run_sql SQL_CREATE_MAIN_TABLE ;;;
     log_and_run_sql SQL_GENERATE_UUID_FUNCTION ;;;
     for_each NON_PK_INDEXES_TO_CREATE
       (fun entry => log_and_run_sql (snd entry)) ;;;
     commit)
    rollback.

Definition validation_message (file_path : string) (i : nat)
    (row : list string) : string :=
  "CSV Validation Error (Row " ++ nat_text (i + 1) ++ "): Expected " ++
  nat_text EXPECTED_CSV_COLUMNS ++ ", found " ++ nat_text (List.length row) ++
  " in '" ++ file_path ++ "'.".

(** The loop over [enumerate(csv_reader)], starting at index [i]: a
    row is fetched, then tested; the sixth row is fetched before the
    loop breaks, and an error raised by a fetch goes to the caller. *)
Fixpoint validate_rows (file_path : string) (i : nat)
    (rows : list (list string)) (failure : option exn) : outcome bool :=
  match rows with
  | [] =>
      match failure with
      | Some e => Raise e
      | None => Ok true
      end
  | row :: rest =>
      if (5 <=? i)%nat then Ok true
      else if negb (List.length row =? EXPECTED_CSV_COLUMNS)%nat
      then Raise (ValueError (validation_message file_path i row))
      else validate_rows file_path (S i) rest failure
  end.

Definition validate_csv_structure (fs : FileSystem) (file_path : string)
    : outcome bool :=
  match fs !! file_path with
  | None =>
      Raise (FileNotFoundError
               ("CSV Validation Error: File '" ++ file_path ++ "' not found."))
  | Some (Unopenable e) => Raise e
  | Some (Readable rows failure) => validate_rows file_path 0 rows failure
  end.

(** [open(file_path)] followed by [csv.reader]: the rows to come and
    the error, if any, that ends them. *)
Definition open_csv (fs : FileSystem) (file_path : string)
    : M (list (list string) * option exn) :=
  match fs !! file_path with
  | None =>
      raise (FileNotFoundError
               ("[Errno 2] No such file or directory: '" ++ file_path ++ "'"))
  | Some (Unopenable e) => raise e
  | Some (Readable rows failure) => ret (rows, failure)
  end.

Definition skip_message (file_path : string) (i : nat) : string :=
  "Skipping malformed row " ++ nat_text (i + 1) ++ " in '" ++ file_path ++ "'.".

(** The loop that fills the in-memory buffer: rows of the wrong width
    are logged and left out; an error raised by a fetch ends the loop
    and goes to the caller. *)
Fixpoint fill_buffer (file_path : string) (i : nat)
    (rows : list (list string)) (failure : option exn)
    : M (list (list string)) :=
  match rows with
  | [] =>
      match failure with
      | Some e => raise e
      | None => ret []
      end
  | row_parts :: rest =>
      if negb (List.length row_parts =? EXPECTED_CSV_COLUMNS)%nat
      then logger_warning (skip_message file_path i) ;;;
           fill_buffer file_path (S i) rest failure
      else buffer <~ fill_buffer file_path (S i) rest failure ;;
           ret (row_parts :: buffer)
  end.

Definition lower_ascii (c : ascii) : ascii :=
  let n := nat_of_ascii c in
  if ((65 <=? n) && (n <=? 90))%nat then ascii_of_nat (n + 32) else c.

Fixpoint lower (s : string) : string :=
  match s with
  | EmptyString => EmptyString
  | String c rest => String (lower_ascii c) (lower rest)
  end.

(** Truth value of what [fetchone()] returned. *)
Definition truthy (row : option (list (option Z))) : bool :=
  match row with
  | Some (_ :: _) => true
  | _ => false
  end.

Definition drop_existing_indexes : M unit :=
  for_each NON_PK_INDEXES_TO_CREATE (fun entry =>
    let index_name := fst entry in
    found <~ execute (SelectPgClass (lower index_name)) ;;
    if truthy (fetchone found)
    then log_and_run_sql (DropIndexIfExists index_name)
    else ret tt).

Definition recreate_indexes : M unit :=
  for_each NON_PK_INDEXES_TO_RECREATE
    (fun entry => log_and_run_sql (snd entry)).

(** [stamp] is [int(time.time())] at the call. The staged count read
    back with [SELECT COUNT( * )] only feeds INFO records. *)
Definition load_telco_data (fs : FileSystem) (file_path : string)
    (stamp : Z) : M Z :=
  let staging_table_name := "telco_staging_" ++ int_text stamp in
  except_reraise
    (execute (CreateTempTable staging_table_name) ;;;
     infile <~ open_csv fs file_path ;;
     buffer <~ fill_buffer file_path 0 (fst infile) (snd infile) ;;
     let processed_rows_for_copy := List.length buffer in
     if (processed_rows_for_copy =? 0)%nat then ret 0
     else
       execute (CopyFrom staging_table_name buffer) ;;;
       execute (SelectCount staging_table_name) ;;;
       drop_existing_indexes ;;;
       inserted <~ execute (InsertFromStaging staging_table_name) ;;
       let inserted_count := rowcount inserted in
       recreate_indexes ;;;
       commit ;;;
       ret inserted_count)
    rollback.

(** The cursor as the quality checker uses it: the two queries, each
    answering with the row [fetchone()] returns, if any. *)
Record QualityCursor : Type := {
  execute_missing_values : M (option (option Z * option Z * option Z * option Z));
  execute_future_dates : M (option (option Z))
}.

Definition missing_values_issue (m_cid m_time m_etype total_chk : Z) : string :=
  "Missing values (cust/time/type): " ++ int_text m_cid ++ "/" ++
  int_text m_time ++ "/" ++ int_text m_etype ++ " in " ++
  int_text total_chk ++ " recent rows.".

Definition future_dates_issue (future_count : Z) : string :=
  "Future-dated events: " ++ int_text future_count ++ ".".

(** ["; ".join(issues)] *)
Fixpoint join (sep : string) (l : list string) : string :=
  match l with
  | [] => ""
  | [x] => x
  | x :: rest => x ++ sep ++ join sep rest
  end.

(** The first check, from the state [(quality_good, issues)] it is
    entered with. *)
Definition check_missing (cur : QualityCursor) (state : bool * list string)
    : M (bool * list string) :=
  res_missing <~ execute_missing_values cur ;;
  match res_missing with
  | Some (c, t, e, n) =>
      let m_cid := coalesce c 0 in
      let m_time := coalesce t 0 in
      let m_etype := coalesce e 0 in
      let total_chk := coalesce n 0 in
      if (0 <? total_chk)%Z && ((0 <? m_cid)%Z || (0 <? m_time)%Z || (0 <? m_etype)%Z)
      then ret (false,
                (snd state ++ [missing_values_issue m_cid m_time m_etype total_chk])%list)
      else ret state
  | None =>
      logger_warning "DQ (Missing Values): Query returned no row." ;;;
      ret state
  end.

(** The second check. *)
Definition check_future (cur : QualityCursor) (state : bool * list string)
    : M (bool * list string) :=
  res_future <~ execute_future_dates cur ;;
  match res_future with
  | Some v =>
      let future_count := coalesce v 0 in
      if (0 <? future_count)%Z
      then ret (false, (snd state ++ [future_dates_issue future_count])%list)
      else ret state
  | None =>
      logger_warning "DQ (Future Dates): Query returned no row." ;;;
      ret state
  end.

Definition run_data_quality_checks (cur : QualityCursor)
    : M (bool * list string) :=
  fun w =>
    match
      (state1 <~ check_missing cur (true, []) ;;
       state2 <~ check_future cur state1 ;;
       match snd state2 with
       | [] => ret state2
       | issues =>
           logger_warning ("Telco Billings DQ Issues: " ++ join "; " issues) ;;;
           ret state2
       end) w
    with
    | (Ok r, w') => (Ok r, w')
    | (Raise e, w') => (Ok (false, ["DQ Exception: " ++ str e]), w')
    end.

Definition fetch4 (r : Reply)
    : option (option Z * option Z * option Z * option Z) :=
  match fetchone r with
  | Some [a; b; c; d] => Some (a, b, c, d)
  | _ => None
  end.

Definition fetch1 (r : Reply) : option (option Z) :=
  match fetchone r with
  | Some [a] => Some a
  | _ => None
  end.

(** The cursor of the PostgreSQL connection. *)
Definition psycopg2_cursor : QualityCursor :=
  {| execute_missing_values := r <~ execute SQL_CHECK_MISSING_VALUES ;; ret (fetch4 r);
     execute_future_dates := r <~ execute SQL_CHECK_FUTURE_DATES ;; ret (fetch1 r) |}.

Definition create_pipeline_analytics_views : M unit :=
  except_reraise
    (log_and_run_sql SQL_CREATE_USAGE_DISTRIBUTION_VIEW ;;;
     log_and_run_sql SQL_CREATE_MONTHLY_TRENDS_VIEW ;;;
     commit)
    rollback.

Definition apply_pipeline_data_retention (settings : Settings) : M unit :=
  if negb (ENABLE_RETENTION_POLICY settings) then ret tt
  else
    except_reraise
      (log_and_run_sql
         (get_sql_delete_old_data (RETENTION_PERIOD_MONTHS settings)) ;;;
       commit)
      rollback.

(** ** [common/utils.py] and [main.py] *)

Definition send_alert (subject : string) (issues_list : list string) : M unit :=
  fun w => (Ok tt, alerted subject issues_list w).

Definition pgcode_text (pgcode : option string) : string :=
  match pgcode with
  | Some c => c
  | None => "None"
  end.

(** The orchestrator. The result is the exit status of the process:
    [0] when the function returns, [1] after [sys.exit(1)]. *)
Definition run_etl_process (settings : Settings) (fs : FileSystem)
    (csv_file_path : string) (stamp : Z) (w : World) : Z * World :=
  let steps : M unit :=
    lift (validate_csv_structure fs csv_file_path) ;;;
    managed_db_connection
      (setup_pipeline_db_structure ;;;
       load_telco_data fs csv_file_path stamp ;;;
       dq <~ run_data_quality_checks psycopg2_cursor ;;
       (if negb (fst dq)
        then send_alert "Telco DWH ETL: Data Quality Issues Found" (snd dq)
        else ret tt) ;;;
       create_pipeline_analytics_views ;;;
       apply_pipeline_data_retention settings)
  in
  match steps w with
  | (Ok _, w') => (0, w')
  | (Raise (FileNotFoundError msg), w') =>
      (1, alerted "Telco ETL Critical Failure: Input File Missing" [msg] w')
  | (Raise (ValueError msg), w') =>
      (1, alerted "Telco ETL Critical Failure: Data Validation Error" [msg] w')
  | (Raise (Psycopg2Error pgcode _), w') =>
      (1, alerted "Telco ETL Critical Failure: Database Error"
            ["DB Error: " ++ pgcode_text pgcode ++ ". Check logs."] w')
  | (Raise (OtherError type_name _), w') =>
      (1, alerted "Telco ETL Critical Failure: Unexpected System Error"
            ["Error: " ++ type_name] w')
  end.

End Pipeline.

Arguments run_statement : simpl never.

(** ** A concrete server

    A session whose time zone is UTC and whose date style is ISO, used
    to run the pipeline on concrete files. Its input functions accept
    the canonical forms only: decimal integers, timestamps written
    [YYYY-MM-DD HH:MM:SS+00], numerics with at most eight decimals, and
    the doubles listed in [float8_in]. *)

Module Utc.

Definition digit_of (c : ascii) : option Z :=
  let n := nat_of_ascii c in
  if ((48 <=? n) && (n <=? 57))%nat then Some (Z.of_nat (n - 48)) else None.

Fixpoint digits_value (acc : Z) (s : string) : option Z :=
  match s with
  | EmptyString => Some acc
  | String c rest =>
      match digit_of c with
      | Some d => digits_value (10 * acc + d) rest
      | None => None
      end
  end.

Definition parse_nat (s : string) : option Z :=
  match s with
  | EmptyString => None
  | _ => digits_value 0 s
  end.

Definition parse_int (s : string) : option Z :=
  match s with
  | String "-" rest => Z.opp <$> parse_nat rest
  | _ => parse_nat s
  end.

Definition int4_in (s : string) : parsed Z :=
  match parse_int s with
  | None => Rejected "22P02"
  | Some v =>
      if ((-2147483648 <=? v) && (v <=? 2147483647))%Z then Accepted v
      else Rejected "22003"
  end.

Definition varchar_in (n : nat) (s : string) : parsed string :=
  if (String.length s <=? n)%nat then Accepted s else Rejected "22001".

(** The IEEE 754 bits of a few doubles. *)
Definition float8_in (s : string) : parsed Z :=
  if String.eqb s "0" then Accepted 0
  else if String.eqb s "1.5" then Accepted 0x3FF8000000000000
  else if String.eqb s "60" then Accepted 0x404E000000000000
  else if String.eqb s "120.5" then Accepted 0x405E200000000000
  else Rejected "22P02".

Fixpoint split_at_dot (s : string) : string * option string :=
  match s with
  | EmptyString => (EmptyString, None)
  | String "." rest => (EmptyString, Some rest)
  | String c rest =>
      let '(whole, frac) := split_at_dot rest in (String c whole, frac)
  end.

Definition pad_right (n : nat) (s : string) : string :=
  s ++ string_of_list_ascii (repeat "0"%char (n - String.length s)).

Definition pad_left (n : nat) (s : string) : string :=
  string_of_list_ascii (repeat "0"%char (n - String.length s)) ++ s.

(** A numeric of scale 8, as the value times [10^8]. *)
Definition numeric_in (s : string) : parsed Z :=
  let '(negative, body) :=
    match s with
    | String "-" rest => (true, rest)
    | _ => (false, s)
    end in
  let '(whole, frac) := split_at_dot body in
  let fraction := match frac with Some f => f | None => EmptyString end in
  if (8 <? String.length fraction)%nat then Rejected "22P02"
  else
    match parse_nat whole, digits_value 0 (pad_right 8 fraction) with
    | Some a, Some b =>
        let v := a * 100000000 + b in
        if (10000000000 <=? a)%Z then Rejected "22003"
        else Accepted (if negative then - v else v)
    | _, _ => Rejected "22P02"
    end.

Definition numeric_out (v : Z) : string :=
  (if (v <? 0)%Z then "-" else "") ++
  int_text (Z.abs v / 100000000) ++ "." ++
  pad_left 8 (int_text (Z.abs v mod 100000000)).

(** Days since 1970-01-01 of a date of the proleptic Gregorian
    calendar, and back. *)
Definition days_from_civil (y m d : Z) : Z :=
  let y' := if (m <=? 2)%Z then y - 1 else y in
  let era := y' / 400 in
  let yoe := y' - era * 400 in
  let mp := (m + 9) mod 12 in
  let doy := (153 * mp + 2) / 5 + d - 1 in
  let doe := yoe * 365 + yoe / 4 - yoe / 100 + doy in
  era * 146097 + doe - 719468.

Definition civil_from_days (z : Z) : Z * Z * Z :=
  let z' := z + 719468 in
  let era := z' / 146097 in
  let doe := z' - era * 146097 in
  let yoe := (doe - doe / 1460 + doe / 36524 - doe / 146096) / 365 in
  let doy := doe - (365 * yoe + yoe / 4 - yoe / 100) in
  let mp := (5 * doy + 2) / 153 in
  let d := doy - (153 * mp + 2) / 5 + 1 in
  let m := if (mp <? 10)%Z then mp + 3 else mp - 9 in
  (if (m <=? 2)%Z then yoe + era * 400 + 1 else yoe + era * 400, m, d).

Definition micros_per_day : Z := 86400000000.

Definition timestamptz_in (s : string) : parsed Z :=
  let field (from len : nat) := parse_nat (substring from len s) in
  let sep (at_ : nat) (c : string) := String.eqb (substring at_ 1 s) c in
  if negb ((String.length s =? 22)%nat && sep 4%nat "-" && sep 7%nat "-" &&
           sep 10%nat " " && sep 13%nat ":" && sep 16%nat ":" &&
           String.eqb (substring 19 3 s) "+00")
  then Rejected "22007"
  else
    match field 0%nat 4%nat, field 5%nat 2%nat, field 8%nat 2%nat,
          field 11%nat 2%nat, field 14%nat 2%nat, field 17%nat 2%nat with
    | Some y, Some mo, Some d, Some h, Some mi, Some sec =>
        if ((1 <=? mo) && (mo <=? 12) && (1 <=? d) &&
            (d <=? days_from_civil (if (mo =? 12)%Z then y + 1 else y)
                     (if (mo =? 12)%Z then 1 else mo + 1) 1
                   - days_from_civil y mo 1) &&
            (h <? 24) && (mi <? 60) && (sec <? 60) && (1 <=? y))%Z
        then Accepted (days_from_civil y mo d * micros_per_day
                       + ((h * 60 + mi) * 60 + sec) * 1000000)
        else Rejected "22008"
    | _, _, _, _, _, _ => Rejected "22007"
    end.

(** Whole seconds only are printed without a fraction; the instants
    used below are whole seconds. *)
Definition timestamptz_out (t : Z) : string :=
  let days := t / micros_per_day in
  let rest := t mod micros_per_day in
  let '(y, m, d) := civil_from_days days in
  let secs := rest / 1000000 in
  let micros := rest mod 1000000 in
  pad_left 4 (int_text y) ++ "-" ++ pad_left 2 (int_text m) ++ "-" ++
  pad_left 2 (int_text d) ++ " " ++
  pad_left 2 (int_text (secs / 3600)) ++ ":" ++
  pad_left 2 (int_text ((secs / 60) mod 60)) ++ ":" ++
  pad_left 2 (int_text (secs mod 60)) ++
  (if (micros =? 0)%Z then "" else "." ++ pad_left 6 (int_text micros)) ++
  "+00".

Definition minus_days (t n : Z) : Z := t - n * micros_per_day.

(** Month arithmetic keeps the time of day and clamps the day to the
    length of the target month. *)
Definition minus_months (t n : Z) : Z :=
  let days := t / micros_per_day in
  let rest := t mod micros_per_day in
  let '(y, m, d) := civil_from_days days in
  let months := y * 12 + (m - 1) - n in
  let y' := months / 12 in
  let m' := months mod 12 + 1 in
  let first := days_from_civil y' m' 1 in
  let next := days_from_civil (if (m' =? 12)%Z then y' + 1 else y')
                (if (m' =? 12)%Z then 1 else m' + 1) 1 in
  let d' := Z.min d (next - first) in
  (first + d' - 1) * micros_per_day + rest.

Definition server_message (sqlstate object : string) : string :=
  "SQLSTATE " ++ sqlstate ++ " (" ++ object ++ ")".

#[global] Instance server : Server :=
  Build_Server int4_in timestamptz_in varchar_in float8_in numeric_in
    timestamptz_out numeric_out minus_days minus_months server_message.

End Utc.


(** * The vocabulary of the statements *)

(** The state in which the second query runs, and the state the checker
    ends in: an absent row costs one warning. *)
Definition after_missing
    (res : option (option Z * option Z * option Z * option Z)) (w : World)
    : World :=
  match res with
  | Some _ => w
  | None => warned "DQ (Missing Values): Query returned no row." w
  end.

Definition after_future (res : option (option Z)) (w : World) : World :=
  match res with
  | Some _ => w
  | None => warned "DQ (Future Dates): Query returned no row." w
  end.

(** No anomaly in the answer of a query; an absent row counts as none. *)
Definition no_missing_anomaly
    (res : option (option Z * option Z * option Z * option Z)) : Prop :=
  match res with
  | None => True
  | Some (c, t, e, n) =>
      (coalesce n 0 <= 0)%Z \/
      ((coalesce c 0 <= 0)%Z /\ (coalesce t 0 <= 0)%Z /\ (coalesce e 0 <= 0)%Z)
  end.

Definition no_future_anomaly (res : option (option Z)) : Prop :=
  match res with
  | None => True
  | Some v => (coalesce v 0 <= 0)%Z
  end.

(** A connection on which nothing fails by itself: the transaction is
    not in the failed state and the script injects no failure. *)
Definition healthy (w : World) : Prop :=
  aborted w = false /\ Forall (fun f => f = None) (faults w).

(** The rows the delete removes: those with an event time strictly
    before the cut-off. *)
Definition strictly_older (cutoff : Z) (r : UsageRow) : Prop :=
  exists t, event_start_time (staged r) = Some t /\ (t < cutoff)%Z.

(** The rows the loader keeps and the warnings it logs for the others,
    [i] being the index of the first row. *)
Definition accepted_rows (rows : list (list string)) : list (list string) :=
  List.filter (fun r => (List.length r =? EXPECTED_CSV_COLUMNS)%nat) rows.

Fixpoint skip_warnings (file_path : string) (i : nat)
    (rows : list (list string)) : list string :=
  match rows with
  | [] => []
  | r :: rest =>
      if (List.length r =? EXPECTED_CSV_COLUMNS)%nat
      then skip_warnings file_path (S i) rest
      else skip_message file_path i :: skip_warnings file_path (S i) rest
  end.

(** The world with these warnings logged on top. *)
Definition log_all (msgs : list string) (w : World) : World :=
  fold_left (fun w0 msg => warned msg w0) msgs w.

(** A computation that neither reads nor writes the warnings. *)
Definition quiet {A} (m : M A) : Prop :=
  forall msg w, m (warned msg w) = (fst (m w), warned msg (snd (m w))).

(** The name the loader gives its staging table. *)
Definition staging_name (stamp : Z) : string :=
  "telco_staging_" ++ int_text stamp.

(** The four secondary indexes, as the recreate table defines them. *)
Definition standard_indexes (ix : gmap string string) : Prop :=
  forall name column,
    In (name, CreateIndex name column) NON_PK_INDEXES_TO_RECREATE ->
    ix !! name = Some column.

(** What a statement that succeeds does to the index catalogue. *)
Definition index_effect (s : Stmt) (st : Store) : gmap string string :=
  match s with
  | CreateIndexIfNotExists name column =>
      if relation_exists st name then indexes st
      else <[name := column]> (indexes st)
  | CreateIndex name column => <[name := column]> (indexes st)
  | DropIndexIfExists name => delete name (indexes st)
  | _ => indexes st
  end.

(** A computation that leaves the durable store alone. *)
Definition keeps_durable {A} (m : M A) : Prop :=
  forall w r w', m w = (r, w') -> committed w' = committed w.

(** A stage that failed: the durable store is as the stage found it and
    the transaction has been rolled back to it. *)
Definition undone (w w' : World) : Prop :=
  committed w' = committed w /\ working w' = committed w /\
  temp_tables w' = ∅ /\ aborted w' = false.

(** A stage that committed: what the connection sees is durable. *)
Definition made_durable (w' : World) : Prop :=
  committed w' = working w' /\ temp_tables w' = ∅.

(** A computation after which no failure is ahead if none was before. *)
Definition calm {A} (m : M A) : Prop :=
  forall w r w',
    m w = (r, w') ->
    Forall (fun f => f = None) (faults w) ->
    Forall (fun f => f = None) (faults w').

(** Two stores with the same table, functions and views; their index
    catalogues may differ. *)
Definition same_relations (st st' : Store) : Prop :=
  table st' = table st /\ views st' = views st /\
  uuid_function st' = uuid_function st.

Section Vocabulary.

Context `{Server}.

(** What the loader does once the buffer holds at least one row. *)
Definition merge_buffer (name : string) (buffer : list (list string)) : M Z :=
  execute (CopyFrom name buffer) ;;;
  execute (SelectCount name) ;;;
  drop_existing_indexes ;;;
  inserted <~ execute (InsertFromStaging name) ;;
  recreate_indexes ;;;
  commit ;;;
  ret (rowcount inserted).

Definition load_or_skip (name : string) (buffer : list (list string)) : M Z :=
  if (List.length buffer =? 0)%nat then ret 0%Z else merge_buffer name buffer.

(** The statements of each stage that writes, up to its commit. *)
Definition setup_statements : M unit :=
  log_and_run_sql SQL_CREATE_MAIN_TABLE ;;;
  log_and_run_sql SQL_GENERATE_UUID_FUNCTION ;;;
  for_each NON_PK_INDEXES_TO_CREATE
    (fun entry => log_and_run_sql (snd entry)).

Definition merge_statements (name : string) (buffer : list (list string))
    : M Reply :=
  execute (CopyFrom name buffer) ;;;
  execute (SelectCount name) ;;;
  drop_existing_indexes ;;;
  inserted <~ execute (InsertFromStaging name) ;;
  recreate_indexes ;;;
  ret inserted.

Definition views_statements : M unit :=
  log_and_run_sql SQL_CREATE_USAGE_DISTRIBUTION_VIEW ;;;
  log_and_run_sql SQL_CREATE_MONTHLY_TRENDS_VIEW.

Definition retention_statements (settings : Settings) : M unit :=
  log_and_run_sql
    (get_sql_delete_old_data (RETENTION_PERIOD_MONTHS settings)).

(** A stage that committed its work: started in [w], the statements
    [body] all succeeded, with result [a], and the store they left is,
    in [w'], both the durable store and the store of the transaction;
    the temporary tables are gone. *)
Definition committed_work {A} (body : M A) (a : A) (w w' : World) : Prop :=
  exists w1,
    body w = (Ok a, w1) /\ aborted w1 = false /\
    committed w' = working w1 /\ working w' = working w1 /\
    temp_tables w' = ∅ /\ aborted w' = false.

(** The validation, the connection and every stage of a run returned
    normally, and [final] is the world of the last stage once the
    connection is closed. *)
Definition all_stages_returned (settings : Settings) (fs : FileSystem)
    (path : string) (stamp : Z) (w final : World) : Prop :=
  exists b wc ws n wl dq wq wv wr,
    validate_csv_structure fs path = Ok b /\
    connect w = (Ok tt, wc) /\
    setup_pipeline_db_structure wc = (Ok tt, ws) /\
    load_telco_data fs path stamp ws = (Ok n, wl) /\
    run_data_quality_checks psycopg2_cursor wl = (Ok dq, wq) /\
    create_pipeline_analytics_views
      (if negb (fst dq)
       then alerted "Telco DWH ETL: Data Quality Issues Found" (snd dq) wq
       else wq) = (Ok tt, wv) /\
    apply_pipeline_data_retention settings wv = (Ok tt, wr) /\
    final = close wr.

End Vocabulary.

(** * Concrete inputs *)

Definition empty_store : Store :=
  {| table := None; uuid_function := false; indexes := ∅; views := ∅ |}.

(** A database with nothing in it, at time [now], with a script of
    failures. *)
Definition fresh_world (now : Z) (script : list (option string)) : World :=
  {| committed := empty_store; working := empty_store; temp_tables := ∅;
     aborted := false; faults := script; trace := [];
     current_timestamp := now; warnings := []; alerts := [] |}.

Definition call_row : list string :=
  ["1"; "2024-01-01 10:00:00+00"; "call"; "5"; "0"; "0"; "1.5"; "0.5"; "2024-01"].

Definition sms_row : list string :=
  ["2"; "2024-01-01 11:00:00+00"; "sms"; "5"; "0"; "0"; "0"; "0.1"; "2024-01"].

(** The same as [sms_row] with no customer. *)
Definition anonymous_row : list string :=
  [""; "2024-01-01 11:00:00+00"; "sms"; "5"; "0"; "0"; "0"; "0.1"; "2024-01"].

Definition short_row : list string :=
  ["3"; "2024-01-01 12:00:00+00"; "data"; "5"; "0"; "0"; "60"; "2024-01"].

Definition usage_csv : string := "/app/data/usage_sample.csv".

Definition retention_on : Settings :=
  {| ENABLE_RETENTION_POLICY := true; RETENTION_PERIOD_MONTHS := 6 |}.

Definition retention_off : Settings :=
  {| ENABLE_RETENTION_POLICY := false; RETENTION_PERIOD_MONTHS := 6 |}.

(** 2024-07-01 00:00:00+00 *)
Definition july_first : Z := 1719792000000000.

(** A script in which the first 27 round trips go through (the
    connection, seven for the DDL setup, seventeen for the load of a
    file whose rows are all accepted, the two quality queries) and the
    next one, the first view statement, fails. *)
Definition fails_at_views : list (option string) :=
  (repeat None 27 ++ [Some "server closed the connection unexpectedly"])%list.

Definition call_usage : UsageRow :=
  {| staged := {| customer_id := Some 1;
                  event_start_time := Some 1704103200000000;
                  event_type := Some "call"; rate_plan_id := Some 5;
                  billing_flag_one := Some 0; billing_flag_two := Some 0;
                  duration := Some 0x3FF8000000000000;
                  charge := Some 50000000; month := Some "2024-01" |};
     event_uuid := "9024bc4ccdb05a2319ab737db48b5bdf" |}.

Definition sms_usage : UsageRow :=
  {| staged := {| customer_id := Some 2;
                  event_start_time := Some 1704106800000000;
                  event_type := Some "sms"; rate_plan_id := Some 5;
                  billing_flag_one := Some 0; billing_flag_two := Some 0;
                  duration := Some 0;
                  charge := Some 10000000; month := Some "2024-01" |};
     event_uuid := "c4cfe2389aed6c3b7aacf85a259342b7" |}.

(** The world after the DDL setup on an empty database. *)
Definition after_setup : World :=
  snd (setup_pipeline_db_structure (fresh_world july_first [])).

(** The world after a first load of the two-row file. *)
Definition after_first_load : World :=
  snd (load_telco_data {[ usage_csv := Readable [call_row; sms_row] None ]}
         usage_csv 1719792000 after_setup).

(** A cursor whose first query raises, and one that returns no row. *)
Definition broken_cursor : QualityCursor :=
  {| execute_missing_values :=
       raise (Psycopg2Error None "connection already closed");
     execute_future_dates := ret (Some (Some 0%Z)) |}.

Definition silent_cursor : QualityCursor :=
  {| execute_missing_values := ret None;
     execute_future_dates := ret None |}.

(** Three rows around the cut-off of a six-month retention run on
    2024-07-01 00:00:00+00, which is 2024-01-01 00:00:00+00: one
    microsecond older, exactly on it, and without event time. *)
Definition usage_at (t : option Z) (uuid : string) : UsageRow :=
  {| staged := {| customer_id := Some 1; event_start_time := t;
                  event_type := Some "call"; rate_plan_id := Some 5;
                  billing_flag_one := Some 0; billing_flag_two := Some 0;
                  duration := Some 0; charge := Some 0;
                  month := Some "2024-01" |};
     event_uuid := uuid |}.

Definition old_usage : UsageRow :=
  usage_at (Some 1704067199999999) "00000000000000000000000000000001".
Definition edge_usage : UsageRow :=
  usage_at (Some 1704067200000000) "00000000000000000000000000000002".
Definition timeless_usage : UsageRow :=
  usage_at None "00000000000000000000000000000003".

Definition world_with (rows : list UsageRow) : World :=
  let st := {| table := Some rows; uuid_function := true;
               indexes := ∅; views := ∅ |} in
  {| committed := st; working := st; temp_tables := ∅;
     aborted := false; faults := []; trace := [];
     current_timestamp := july_first; warnings := []; alerts := [] |}.

(** A table with one recent row that has no customer: the issue
    reported counts one missing customer and no missing time. *)
Definition nameless_recent : UsageRow :=
  {| staged := {| customer_id := None;
                  event_start_time := Some (july_first - 1);
                  event_type := Some "call"; rate_plan_id := Some 5;
                  billing_flag_one := Some 0; billing_flag_two := Some 0;
                  duration := Some 0; charge := Some 0;
                  month := Some "2024-06" |};
     event_uuid := "00000000000000000000000000000004" |}.

(** * Further vocabulary *)

(** The cells of a row that feed the identity: customer, event time,
    event type, rate plan and charge, by position in the file. *)
Definition business_columns : list nat := [0; 1; 2; 3; 7]%nat.

(** A row of the file with an empty business cell. *)
Definition lacks_business_field (cells : list string) : Prop :=
  exists i, In i business_columns /\ cells !! i = Some "".

(** The five business fields of a staged row are present. *)
Definition complete (s : StagingRow) : Prop :=
  is_Some (customer_id s) /\ is_Some (event_start_time s) /\
  is_Some (event_type s) /\ is_Some (rate_plan_id s) /\ is_Some (charge s).

(** A view of this definition can be created under the name: no view
    has the name, or the one that has it can be replaced. *)
Definition replaceable (st : Store) (name : string) (definition : ViewDef)
    : Prop :=
  forall old,
    views st !! name = Some old ->
    columns_kept (view_columns old) (view_columns definition) = true.

(** [st'] holds everything [st] holds: the rows of the table if it
    exists, the function if it is defined, the same views, every index,
    and no index beyond those of [st] and the four of the creation
    table. *)
Definition only_adds (st st' : Store) : Prop :=
  (forall rows, table st = Some rows -> table st' = Some rows) /\
  (uuid_function st = true -> uuid_function st' = true) /\
  views st' = views st /\
  (forall name column,
      indexes st !! name = Some column -> indexes st' !! name = Some column) /\
  (forall name column,
      indexes st' !! name = Some column ->
      indexes st !! name = Some column \/
      In (name, CreateIndexIfNotExists name column) NON_PK_INDEXES_TO_CREATE).

(** * Further concrete inputs *)

(** The same as [sms_row] with a customer that is not a number. *)
Definition garbled_row : list string :=
  ["abc"; "2024-01-01 11:00:00+00"; "sms"; "5"; "0"; "0"; "0"; "0.1"; "2024-01"].

(** The error [csv.reader] raises on a field over its size limit; the
    class is [_csv.Error], whose name is [Error]. *)
Definition field_limit_error : exn :=
  OtherError "Error" "field larger than field limit (131072)".

(** Five well-formed rows followed by a line that [csv.reader] cannot
    yield. *)
Definition five_rows_then_error : File :=
  Readable [call_row; sms_row; call_row; sms_row; call_row]
           (Some field_limit_error).

(** A short row and a well-formed row followed by such a line, and a
    file that holds such a line only. *)
Definition two_rows_then_error : File :=
  Readable [short_row; call_row] (Some field_limit_error).

Definition only_error : File := Readable [] (Some field_limit_error).

(** The error of [open] on a path that is a directory. *)
Definition is_a_directory : exn :=
  OtherError "IsADirectoryError" "[Errno 21] Is a directory: '/app/data'".

(** A database with an empty table and the monthly-trends view under
    the name of the usage-distribution view. *)
Definition world_with_swapped_view : World :=
  let st := {| table := Some []; uuid_function := true; indexes := ∅;
               views := {[ "analytics_usage_distribution" := MonthlyTrends ]} |} in
  {| committed := st; working := st; temp_tables := ∅;
     aborted := false; faults := []; trace := [];
     current_timestamp := july_first; warnings := []; alerts := [] |}.

Section Keys.

Context `{Server}.

(** No identity occurs twice, and every row carries the identity the
    stored function gives to its five business fields. *)
Definition well_keyed (rows : list UsageRow) : Prop :=
  NoDup (map event_uuid rows) /\
  forall r, In r rows -> row_uuid (staged r) = Some (event_uuid r).

Definition keyed_store (st : Store) : Prop :=
  forall rows, table st = Some rows -> well_keyed rows.

(** The table is well keyed, in the durable store and as the open
    transaction sees it. *)
Definition keyed (w : World) : Prop :=
  keyed_store (committed w) /\ keyed_store (working w).

Definition keeps_keys {A} (m : M A) : Prop :=
  forall w r w', m w = (r, w') -> keyed w -> keyed w'.

End Keys.

Section Windows.

Context `{Server}.

(** A row whose event time lies in the last day before [now], and a
    row whose event time lies after [now]. *)
Definition recent (now : Z) (r : UsageRow) : Prop :=
  exists t, event_start_time (staged r) = Some t /\
            (minus_days now 1 <= t)%Z /\ (t < now)%Z.

Definition future_dated (now : Z) (r : UsageRow) : Prop :=
  exists t, event_start_time (staged r) = Some t /\ (now < t)%Z.

(** The test of the first check, on the answer of the first query. *)
Definition missing_flag (now : Z) (rows : list UsageRow) : bool :=
  let recent_rows := List.filter (in_last_day now) rows in
  (0 <? sql_count recent_rows)%Z &&
  ((0 <? coalesce (sql_sum (map (fun r => case_when_null (customer_id (staged r)))
                                recent_rows)) 0)%Z ||
   (0 <? coalesce (sql_sum (map (fun r => case_when_null (event_start_time (staged r)))
                                recent_rows)) 0)%Z ||
   (0 <? coalesce (sql_sum (map (fun r => case_when_null (event_type (staged r)))
                                recent_rows)) 0)%Z).

End Windows.

(** A store on which the DDL setup has nothing to create: the table
    exists, the identity function is defined and each of the four index
    names designates a relation. *)
Definition set_up (st : Store) : Prop :=
  is_Some (table st) /\ uuid_function st = true /\
  forall name column,
    In (name, CreateIndexIfNotExists name column) NON_PK_INDEXES_TO_CREATE ->
    relation_exists st name = true.

(** A computation that raises no alert. *)
Definition silent {A} (m : M A) : Prop :=
  forall w r w', m w = (r, w') -> alerts w' = alerts w.

(** The subjects of the alerts of a run. *)
Definition quality_subject : string :=
  "Telco DWH ETL: Data Quality Issues Found".

Definition critical_subjects : list string :=
  [ "Telco ETL Critical Failure: Input File Missing";
    "Telco ETL Critical Failure: Data Validation Error";
    "Telco ETL Critical Failure: Database Error";
    "Telco ETL Critical Failure: Unexpected System Error" ].

(** The index catalogue once the loader has dropped and recreated the
    four secondary indexes. *)
Definition rebuilt (ix : gmap string string) : gmap string string :=
  <["idx_billing_month" := "month"]>
    (<["idx_billing_event_type" := "event_type"]>
       (<["idx_billing_event_time" := "event_start_time"]>
          (<["idx_billing_customer_id" := "customer_id"]>
             (delete "idx_billing_month"
                (delete "idx_billing_event_type"
                   (delete "idx_billing_event_time"
                      (delete "idx_billing_customer_id" ix))))))).

(** A store on which the pipeline can work: the name of the table is
    free when the table does not exist, no view has the name of one of
    the four indexes, no index has the name of one of the two views,
    and a view that has one of these two names can be replaced by the
    pipeline's. *)
Definition tidy (st : Store) : Prop :=
  (table st = None -> relation_exists st main_table_name = false) /\
  (forall name column,
      In (name, CreateIndex name column) NON_PK_INDEXES_TO_RECREATE ->
      views st !! name = None) /\
  indexes st !! "analytics_usage_distribution" = None /\
  indexes st !! "analytics_monthly_trends" = None /\
  replaceable st "analytics_usage_distribution" UsageDistribution /\
  replaceable st "analytics_monthly_trends" MonthlyTrends.

(** A script in which the first 25 round trips go through (the
    connection, seven for the DDL setup, seventeen for the load of a
    file whose rows are all accepted) and the next one, the first
    quality query, fails. *)
Definition fails_at_quality : list (option string) :=
  (repeat None 25 ++
   [Some "canceling statement due to statement timeout"])%list.

(** * Properties *)

(** ** The digest *)

Example md5_empty : MD5.md5 "" = "d41d8cd98f00b204e9800998ecf8427e".
Proof. vm_compute. reflexivity. Qed.

Example md5_abc : MD5.md5 "abc" = "900150983cd24fb0d6963f7d28e17f72".
Proof. vm_compute. reflexivity. Qed.

Example md5_two_blocks :
  MD5.md5 "xxxxxxxxxxxxxxxxxxxxxxxxxxxxxxxxxxxxxxxxxxxxxxxxxxxxxxxx"
  = "668a72d5ba17f08e62dabcafad6db14b".
Proof. vm_compute. reflexivity. Qed.

Lemma hex_word_length (w : Z) : String.length (MD5.hex_word w) = 8%nat.
Proof. reflexivity. Qed.

Lemma md5_length (s : string) : String.length (MD5.md5 s) = 32%nat.
Proof.
  unfold MD5.md5. destruct (MD5.digest s) as [[[a b] c] d].
  reflexivity.
Qed.

(** ** How the primitives act on the world *)

Section Primitives.

Context `{Server}.

Lemma bind_ok {A B} (m : M A) (k : A -> M B) w b w' :
  bind m k w = (Ok b, w') ->
  exists a w1, m w = (Ok a, w1) /\ k a w1 = (Ok b, w').
Proof.
  unfold bind. destruct (m w) as [[a|e] w1]; [eauto | discriminate].
Qed.

Lemma bind_raise {A B} (m : M A) (k : A -> M B) w e w' :
  bind m k w = (Raise e, w') ->
  m w = (Raise e, w') \/ exists a w1, m w = (Ok a, w1) /\ k a w1 = (Raise e, w').
Proof.
  unfold bind. destruct (m w) as [[a|e0] w1]; [eauto | left; congruence].
Qed.

(** A statement that succeeds ran on the working store; nothing else
    moved but the script and the trace. *)
Lemma execute_ok s w r w' :
  execute s w = (Ok r, w') ->
  exists st tmp,
    run_statement (current_timestamp w) s (working w, temp_tables w)
      = inr (r, (st, tmp)) /\
    working w' = st /\ temp_tables w' = tmp /\
    committed w' = committed w /\
    aborted w = false /\ aborted w' = false /\
    faults w' = tl (faults w) /\
    trace w' = (trace w ++ [s])%list /\
    current_timestamp w' = current_timestamp w /\
    warnings w' = warnings w /\ alerts w' = alerts w.
Proof.
  unfold execute, round_trip. simpl.
  destruct (aborted w) eqn:Hab; [discriminate |].
  destruct (match faults w with [] => None | f :: _ => f end);
    [discriminate |].
  simpl.
  destruct (run_statement _ s _) as [err | [r0 [st tmp]]]; [discriminate |].
  intros [= <- <-]. exists st, tmp. simpl. rewrite Hab. tauto.
Qed.

(** A statement that fails leaves both stores as they were. *)
Lemma execute_raise s w e w' :
  execute s w = (Raise e, w') ->
  working w' = working w /\ temp_tables w' = temp_tables w /\
  committed w' = committed w /\
  trace w' = (trace w ++ [s])%list /\
  current_timestamp w' = current_timestamp w /\
  warnings w' = warnings w /\ alerts w' = alerts w.
Proof.
  unfold execute, round_trip. simpl.
  destruct (aborted w) eqn:Hab.
  - intros [= <- <-]. simpl. tauto.
  - destruct (match faults w with [] => None | f :: _ => f end).
    + intros [= <- <-]. simpl. tauto.
    + simpl.
      destruct (run_statement _ s _) as [err | [r0 [st tmp]]];
        [| discriminate].
      intros [= <- <-]. simpl. tauto.
Qed.

(** The trace grows by the statement, whatever the outcome. *)
Lemma execute_trace s w r w' :
  execute s w = (r, w') -> trace w' = (trace w ++ [s])%list.
Proof.
  destruct r as [a|e]; intros Hx.
  - apply execute_ok in Hx as (st & tmp & Hx). tauto.
  - apply execute_raise in Hx. tauto.
Qed.

Lemma execute_committed s w r w' :
  execute s w = (r, w') -> committed w' = committed w.
Proof.
  destruct r as [a|e]; intros Hx.
  - apply execute_ok in Hx as (st & tmp & Hx). tauto.
  - apply execute_raise in Hx. tauto.
Qed.

Lemma commit_ok w u w' :
  commit w = (Ok u, w') ->
  committed w' = working w' /\ temp_tables w' = ∅ /\ aborted w' = false /\
  (aborted w = false -> working w' = working w) /\
  trace w' = trace w /\ warnings w' = warnings w /\
  current_timestamp w' = current_timestamp w /\
  faults w' = tl (faults w).
Proof.
  unfold commit, round_trip.
  destruct (match faults w with [] => None | f :: _ => f end);
    [discriminate |].
  simpl. destruct (aborted w) eqn:Hab; intros [= <- <-]; simpl;
    repeat split; intros; try reflexivity; try discriminate; assumption.
Qed.

Lemma commit_raise w e w' :
  commit w = (Raise e, w') ->
  committed w' = committed w /\ trace w' = trace w /\
  warnings w' = warnings w.
Proof.
  unfold commit, round_trip.
  destruct (match faults w with [] => None | f :: _ => f end).
  - intros [= <- <-]. simpl. tauto.
  - simpl. destruct (aborted w); discriminate.
Qed.

Lemma rollback_spec w :
  committed (rollback w) = committed w /\
  working (rollback w) = committed w /\
  temp_tables (rollback w) = ∅ /\ aborted (rollback w) = false /\
  trace (rollback w) = trace w /\ warnings (rollback w) = warnings w /\
  faults (rollback w) = faults w.
Proof. unfold rollback. simpl. tauto. Qed.

End Primitives.

(** ** The identity function *)

Section Identity.

Context `{Server}.

Lemma generate_event_uuid_body_length a b c d e :
  String.length (generate_event_uuid_body a b c d e) = 32%nat.
Proof. unfold generate_event_uuid_body. apply md5_length. Qed.

(** With its five arguments present the function returns the digest of
    their text forms joined by underscores, 32 characters long. *)
Lemma generate_event_uuid_present cid t etype plan amount :
  generate_event_uuid (Some cid) (Some t) (Some etype) (Some plan) (Some amount)
  = Some (MD5.md5 (int_text cid ++ "_" ++ timestamptz_out t ++ "_" ++ etype
                   ++ "_" ++ int_text plan ++ "_" ++ numeric_out amount)).
Proof. reflexivity. Qed.

Lemma generate_event_uuid_some a b c d e u :
  generate_event_uuid a b c d e = Some u ->
  String.length u = 32%nat /\
  is_Some a /\ is_Some b /\ is_Some c /\ is_Some d /\ is_Some e.
Proof.
  unfold generate_event_uuid.
  destruct a, b, c, d, e; try discriminate.
  intros [= <-]. split; [apply generate_event_uuid_body_length |].
  repeat split; eauto.
Qed.

(** C2 (the code departs from the claim). The claim asks that a call to
    the identity function with an absent field still returns the
    32-character digest, the absent field counting as the empty string.
    The body of the function is written that way, and on any arguments
    it yields 32 characters; but the function is declared [STRICT], so
    as soon as one of the five arguments is null the body is not run
    and the result is null. *)
Theorem generate_event_uuid_null_argument :
  forall (a b : option Z) (c : option string) (d e : option Z),
    generate_event_uuid None b c d e = None /\
    generate_event_uuid a None c d e = None /\
    generate_event_uuid a b None d e = None /\
    generate_event_uuid a b c None e = None /\
    generate_event_uuid a b c d None = None /\
    String.length (generate_event_uuid_body a b c d e) = 32%nat /\
    generate_event_uuid_body None b c d e
    = MD5.md5 ("" ++ "_" ++ coalesce (timestamptz_out <$> b) "" ++ "_" ++
               coalesce c "" ++ "_" ++ coalesce (int_text <$> d) "" ++ "_" ++
               coalesce (numeric_out <$> e) "").
Proof.
  intros a b c d e. unfold generate_event_uuid.
  repeat split;
    try apply generate_event_uuid_body_length;
    destruct a, b, c, d, e; reflexivity.
Qed.

End Identity.

(** ** The quality checker *)

Section Quality.

Context `{Server}.

(** A row inside the window of the missing-values query has an event
    time: a null time makes both comparisons unknown. *)
Lemma in_last_day_has_time now r :
  in_last_day now r = true ->
  exists t, event_start_time (staged r) = Some t.
Proof.
  unfold in_last_day. destruct (event_start_time (staged r)) as [t|].
  - eauto.
  - discriminate.
Qed.

Lemma sum_of_zeros {A} (f : A -> Z) (l : list A) :
  (forall x, In x l -> f x = 0%Z) ->
  fold_right Z.add 0%Z (map f l) = 0%Z.
Proof.
  induction l as [|x l IH]; intros Hz; simpl.
  - reflexivity.
  - rewrite (Hz x) by (left; reflexivity).
    rewrite IH by (intros y Hy; apply Hz; right; exact Hy).
    reflexivity.
Qed.

Lemma sql_sum_of_zeros {A} (f : A -> Z) (l : list A) :
  (forall x, In x l -> f x = 0%Z) ->
  coalesce (sql_sum (map f l)) 0%Z = 0%Z.
Proof.
  intros Hz. destruct l as [|x l]; [reflexivity |].
  unfold sql_sum. change (map f (x :: l)) with (f x :: map f l).
  cbv iota. unfold coalesce.
  change (f x :: map f l) with (map f (x :: l)).
  apply sum_of_zeros. exact Hz.
Qed.

Lemma missing_time_zero now rows :
  coalesce
    (sql_sum (map (fun r => case_when_null (event_start_time (staged r)))
                  (List.filter (in_last_day now) rows))) 0%Z = 0%Z.
Proof.
  apply sql_sum_of_zeros. intros r Hr.
  apply filter_In in Hr as [_ Hr].
  apply in_last_day_has_time in Hr as [t ->]. reflexivity.
Qed.

(** What the cursor of the connection answers to the first query. *)
Lemma execute_missing_values_ok w res w' :
  execute_missing_values psycopg2_cursor w = (Ok res, w') ->
  exists rows,
    table (working w) = Some rows /\
    res = fetch4 (one_row 1 (check_missing_values (current_timestamp w) rows)).
Proof.
  unfold psycopg2_cursor, execute_missing_values. intros Hx.
  apply bind_ok in Hx as (r & w1 & Hx & Hret).
  injection Hret as <- <-.
  apply execute_ok in Hx as (st & tmp & Hrun & _).
  unfold run_statement, SQL_CHECK_MISSING_VALUES in Hrun.
  destruct (table (working w)) as [rows|]; [| discriminate].
  injection Hrun as <- _ _. eauto.
Qed.

(** C10. Whatever the permanent table holds and whatever the time of
    the query, the count of missing event times that the checker works
    with is zero: the query sums over the rows whose event time lies in
    the last day, none of which has a null event time (the sum is zero,
    or null when the window is empty, which the checker reads as zero).
    So every missing-values issue the checker reports carries 0 as its
    event-time count and is due to a missing customer or event type. *)
Theorem missing_event_time_never_flagged :
  forall (now : Z) (rows : list UsageRow),
    (exists c t e n,
        check_missing_values now rows = [c; t; e; Some n] /\
        (t = None \/ t = Some 0%Z) /\ coalesce t 0%Z = 0%Z) /\
    (forall (w : World) (state : bool * list string) r w',
        check_missing psycopg2_cursor state w = (Ok r, w') ->
        r = state \/
        exists m_cid m_etype total_chk,
          r = (false,
               (snd state ++ [missing_values_issue m_cid 0 m_etype total_chk])%list)
          /\ (0 < total_chk)%Z /\ ((0 < m_cid)%Z \/ (0 < m_etype)%Z)).
Proof.
  intros now rows. split.
  - unfold check_missing_values. do 4 eexists. split; [reflexivity |].
    pose proof (missing_time_zero now rows) as Hz.
    split; [| exact Hz].
    destruct (sql_sum _) as [v|]; [right | left; reflexivity].
    simpl in Hz. congruence.
  - intros w state r w' Hx. unfold check_missing in Hx.
    apply bind_ok in Hx as (res & w1 & Hq & Hk).
    apply execute_missing_values_ok in Hq as (rows' & _ & ->).
    unfold fetch4, one_row, check_missing_values in Hk. cbn [fetchone] in Hk.
    rewrite missing_time_zero in Hk.
    match type of Hk with
    | (if ?c then _ else _) _ = _ => destruct c eqn:Hc
    end.
    + injection Hk as <- _. right. do 3 eexists. split; [reflexivity |].
      apply andb_true_iff in Hc as [Hn Hc].
      apply orb_true_iff in Hc as [Hc | Hc].
      * apply orb_true_iff in Hc as [Hc | Hc]; [| discriminate].
        split; [apply Z.ltb_lt, Hn | left; apply Z.ltb_lt, Hc].
      * split; [apply Z.ltb_lt, Hn | right; apply Z.ltb_lt, Hc].
    + injection Hk as <- _. left. reflexivity.
Qed.

End Quality.

(** ** The checker never raises *)

Section QualityOutcome.

Lemma check_missing_quiet cur state w res w1 :
  execute_missing_values cur w = (Ok res, w1) ->
  no_missing_anomaly res ->
  check_missing cur state w = (Ok state, after_missing res w1).
Proof.
  intros Hq Hno. unfold check_missing, bind. rewrite Hq.
  destruct res as [[[[c t] e] n]|]; [| reflexivity].
  simpl in Hno. simpl.
  destruct (0 <? coalesce n 0)%Z eqn:Hn; [| reflexivity].
  apply Z.ltb_lt in Hn.
  destruct Hno as [Hno | (Hc & Ht & He)]; [lia |].
  apply Z.ltb_ge in Hc, Ht, He. rewrite Hc, Ht, He. reflexivity.
Qed.

Lemma check_future_quiet cur state w res w1 :
  execute_future_dates cur w = (Ok res, w1) ->
  no_future_anomaly res ->
  check_future cur state w = (Ok state, after_future res w1).
Proof.
  intros Hq Hno. unfold check_future, bind. rewrite Hq.
  destruct res as [v|]; [| reflexivity].
  simpl in Hno. simpl. apply Z.ltb_ge in Hno. rewrite Hno. reflexivity.
Qed.

(** The first check raises only if its query does, and then in the
    state the query left. *)
Lemma check_missing_total cur state w :
  (exists e w1, execute_missing_values cur w = (Raise e, w1) /\
                check_missing cur state w = (Raise e, w1)) \/
  (exists res w1 r, execute_missing_values cur w = (Ok res, w1) /\
                    check_missing cur state w = (Ok r, after_missing res w1)).
Proof.
  unfold check_missing, bind.
  destruct (execute_missing_values cur w) as [[res|e] w1].
  - right. exists res, w1.
    destruct res as [[[[c t] e] n]|]; simpl.
    + match goal with
      | |- context [if ?c then _ else _] => destruct c
      end; eauto.
    + eauto.
  - left. eauto.
Qed.

Lemma check_future_total cur state w :
  (exists e w1, execute_future_dates cur w = (Raise e, w1) /\
                check_future cur state w = (Raise e, w1)) \/
  (exists res w1 r, execute_future_dates cur w = (Ok res, w1) /\
                    check_future cur state w = (Ok r, after_future res w1)).
Proof.
  unfold check_future, bind.
  destruct (execute_future_dates cur w) as [[res|e] w1].
  - right. exists res, w1.
    destruct res as [v|]; simpl.
    + destruct (0 <? coalesce v 0)%Z; eauto.
    + eauto.
  - left. eauto.
Qed.

(** C7. The checker returns on every behaviour of the cursor. An
    exception raised by the first query, or by the second one, becomes
    the result [(False, ["DQ Exception: " + text])]; when neither query
    raises and neither answer shows an anomaly (an absent row showing
    none) the result is [(True, [])]. *)
Theorem run_data_quality_checks_outcome :
  forall (cur : QualityCursor) (w : World),
    (exists r w', run_data_quality_checks cur w = (Ok r, w')) /\
    (forall e w1,
        execute_missing_values cur w = (Raise e, w1) ->
        run_data_quality_checks cur w
        = (Ok (false, ["DQ Exception: " ++ str e]), w1)) /\
    (forall res w1 e w2,
        execute_missing_values cur w = (Ok res, w1) ->
        execute_future_dates cur (after_missing res w1) = (Raise e, w2) ->
        run_data_quality_checks cur w
        = (Ok (false, ["DQ Exception: " ++ str e]), w2)) /\
    (forall res w1 res' w2,
        execute_missing_values cur w = (Ok res, w1) ->
        execute_future_dates cur (after_missing res w1) = (Ok res', w2) ->
        no_missing_anomaly res -> no_future_anomaly res' ->
        run_data_quality_checks cur w
        = (Ok (true, []), after_future res' w2)).
Proof.
  intros cur w. repeat split.
  - unfold run_data_quality_checks.
    match goal with
    | |- exists r w', match ?m with _ => _ end = _ =>
        destruct m as [[r|e] w']
    end; eauto.
  - intros e w1 Hq. unfold run_data_quality_checks, bind.
    destruct (check_missing_total cur (true, []) w)
      as [(e' & w1' & Hq' & ->) | (res & w1' & r & Hq' & _)];
      [| congruence].
    rewrite Hq in Hq'. injection Hq' as <- <-. reflexivity.
  - intros res w1 e w2 Hq Hq2. unfold run_data_quality_checks, bind.
    destruct (check_missing_total cur (true, []) w)
      as [(e' & w1' & Hq' & _) | (res0 & w1' & r & Hq' & ->)];
      [congruence |].
    rewrite Hq in Hq'. injection Hq' as <- <-.
    destruct (check_future_total cur r (after_missing res w1))
      as [(e' & w2' & Hq2' & ->) | (res2 & w2' & r2 & Hq2' & _)];
      [| congruence].
    rewrite Hq2 in Hq2'. injection Hq2' as <- <-. reflexivity.
  - intros res w1 res' w2 Hq Hq2 Hno Hno'.
    unfold run_data_quality_checks, bind.
    rewrite (check_missing_quiet cur (true, []) w res w1 Hq Hno).
    rewrite (check_future_quiet cur (true, []) _ res' w2 Hq2 Hno').
    reflexivity.
Qed.

End QualityOutcome.

(** ** The validator *)

Section Validator.

(** At most six rows are fetched. *)
Lemma validate_rows_prefix path (rows : list (list string)) failure :
  forall i,
    (i <= 5)%nat ->
    validate_rows path i rows failure
    = validate_rows path i (firstn (6 - i) rows) failure.
Proof.
  induction rows as [|row rest IH]; intros i Hle.
  - destruct (6 - i)%nat; reflexivity.
  - destruct (6 - i)%nat as [|k] eqn:Hk; [lia |].
    cbn [firstn validate_rows].
    destruct (5 <=? i)%nat eqn:Hi; [reflexivity |].
    apply Nat.leb_gt in Hi.
    destruct (negb _); [reflexivity |].
    rewrite IH by lia. replace (6 - S i)%nat with k by lia. reflexivity.
Qed.

(** When no fetch fails, only the first five rows count. *)
Lemma validate_rows_sample path (rows : list (list string)) :
  forall i,
    validate_rows path i rows None
    = validate_rows path i (firstn (5 - i) rows) None.
Proof.
  induction rows as [|row rest IH]; intros i.
  - destruct (5 - i)%nat; reflexivity.
  - cbn [validate_rows]. destruct (5 <=? i)%nat eqn:Hi.
    + apply Nat.leb_le in Hi.
      replace (5 - i)%nat with 0%nat by lia. reflexivity.
    + pose proof (proj1 (Nat.leb_gt _ _) Hi) as Hlt.
      destruct (5 - i)%nat as [|k] eqn:Hk; [lia |].
      cbn [firstn validate_rows]. rewrite Hi.
      destruct (negb _); [reflexivity |].
      rewrite IH. replace (5 - S i)%nat with k by lia. reflexivity.
Qed.

Lemma validate_rows_mismatch path (rows : list (list string)) failure :
  forall i k row,
    (i + k < 5)%nat ->
    rows !! k = Some row ->
    List.length row <> EXPECTED_CSV_COLUMNS ->
    (forall j r, (j < k)%nat -> rows !! j = Some r ->
                 List.length r = EXPECTED_CSV_COLUMNS) ->
    validate_rows path i rows failure
    = Raise (ValueError (validation_message path (i + k) row)).
Proof.
  induction rows as [|row0 rest IH]; intros i k row Hlt Hk Hbad Hgood.
  - discriminate.
  - cbn [validate_rows].
    destruct (5 <=? i)%nat eqn:Hi; [apply Nat.leb_le in Hi; lia |].
    destruct k as [|k].
    + injection Hk as ->.
      apply Nat.eqb_neq in Hbad. rewrite Hbad. simpl.
      rewrite Nat.add_0_r. reflexivity.
    + rewrite (proj2 (Nat.eqb_eq _ _) (Hgood 0%nat row0 ltac:(lia) eq_refl)).
      simpl. replace (i + S k)%nat with (S i + k)%nat by lia.
      apply IH; [lia | exact Hk | exact Hbad |].
      intros j r Hj Hr. apply (Hgood (S j) r); [lia | exact Hr].
Qed.

(** A fetch that fails among the first six, after rows that are all
    well-formed. *)
Lemma validate_rows_read_error path (rows : list (list string)) e :
  forall i,
    (i + List.length rows <= 5)%nat ->
    (forall r, In r rows -> List.length r = EXPECTED_CSV_COLUMNS) ->
    validate_rows path i rows (Some e) = Raise e.
Proof.
  induction rows as [|row0 rest IH]; intros i Hlen Hgood; [reflexivity |].
  cbn [validate_rows List.length] in *.
  destruct (5 <=? i)%nat eqn:Hi; [apply Nat.leb_le in Hi; lia |].
  rewrite (proj2 (Nat.eqb_eq _ _) (Hgood row0 (or_introl eq_refl))). simpl.
  apply IH; [lia |]. intros r Hr. apply Hgood. right. exact Hr.
Qed.

Lemma validate_rows_ok path (rows : list (list string)) failure :
  forall i,
    (i <= 5)%nat ->
    validate_rows path i rows failure = Ok true <->
    (forall j r, (i + j < 5)%nat -> rows !! j = Some r ->
                 List.length r = EXPECTED_CSV_COLUMNS) /\
    (failure = None \/ (5 < i + List.length rows)%nat).
Proof.
  induction rows as [|row0 rest IH]; intros i Hle.
  - cbn [validate_rows List.length]. split.
    + destruct failure; [discriminate |]. intros _.
      split; [intros j r _ Hr; discriminate | left; reflexivity].
    + intros [_ [-> | Hlt]]; [reflexivity | lia].
  - cbn [validate_rows List.length]. destruct (5 <=? i)%nat eqn:Hi.
    + apply Nat.leb_le in Hi. split; [| reflexivity].
      intros _. split; [intros j r Hj; lia | right; lia].
    + apply Nat.leb_gt in Hi.
      destruct (List.length row0 =? EXPECTED_CSV_COLUMNS)%nat eqn:Hw; simpl.
      * apply Nat.eqb_eq in Hw. rewrite IH by lia. split.
        -- intros [Hall Hend]. split.
           ++ intros [|j] r Hj Hr.
              ** injection Hr as <-. exact Hw.
              ** apply (Hall j r); [lia | exact Hr].
           ++ destruct Hend as [-> | Hlt]; [left; reflexivity | right; lia].
        -- intros [Hall Hend]. split.
           ++ intros j r Hj Hr. apply (Hall (S j) r); [lia | exact Hr].
           ++ destruct Hend as [-> | Hlt]; [left; reflexivity | right; lia].
      * apply Nat.eqb_neq in Hw. split; [discriminate |].
        intros [Hall _]. exfalso. apply Hw.
        apply (Hall 0%nat row0); [lia | reflexivity].
Qed.

(** What the loop raises: its own [ValueError], or the error of a
    fetch. *)
Lemma validate_rows_raises path rows failure :
  forall i e,
    validate_rows path i rows failure = Raise e ->
    (exists k row, rows !! k = Some row /\
                   (i + k < 5)%nat /\
                   List.length row <> EXPECTED_CSV_COLUMNS /\
                   e = ValueError (validation_message path (i + k) row)) \/
    failure = Some e.
Proof.
  induction rows as [|row rest IH]; intros i e; cbn [validate_rows].
  - destruct failure as [e'|]; [| discriminate].
    intros [= <-]. right. reflexivity.
  - destruct (5 <=? i)%nat eqn:Hi; [discriminate |].
    apply Nat.leb_gt in Hi.
    destruct (List.length row =? EXPECTED_CSV_COLUMNS)%nat eqn:Hwidth;
      cbn [negb].
    + intros Hrest.
      destruct (IH _ _ Hrest) as [(k & r & Hk & Hlt & Hbad & ->) | ->];
        [left | right; reflexivity].
      exists (S k), r. split; [exact Hk |]. split; [lia |].
      split; [exact Hbad |].
      replace (i + S k)%nat with (S i + k)%nat by lia. reflexivity.
    + intros [= <-]. left. exists 0%nat, row.
      apply Nat.eqb_neq in Hwidth.
      rewrite Nat.add_0_r. auto.
Qed.

(** C5, as the code has it. A path that does not exist is refused with
    [FileNotFoundError]; a path that exists and cannot be opened, with
    the error of [open]. For a file that opens, the validator fetches
    at most six rows and tests the first five: the verdict is the one of
    the file cut after six rows, and, when no fetch fails, the one of the
    file cut after five. The first row among the first five whose width
    is not 9 stops the validation with a [ValueError] whose text gives
    the row number (from 1), the expected width and the width found; a
    fetch that fails among the first six, after well-formed rows, stops
    it with the error of the fetch; the validator answers [True]
    exactly when the first five rows all have width 9 and no fetch has
    failed, which is certain only once a sixth row has been read or the
    end of the file reached. In particular a file whose first row is
    well-formed and whose second row has 8 fields is refused as row 2,
    expected 9, found 8. *)
Theorem validate_csv_structure_spec :
  forall (fs : FileSystem) (path : string),
    (fs !! path = None ->
     validate_csv_structure fs path
     = Raise (FileNotFoundError
                ("CSV Validation Error: File '" ++ path ++ "' not found."))) /\
    (forall e,
        fs !! path = Some (Unopenable e) ->
        validate_csv_structure fs path = Raise e) /\
    (forall rows failure,
        fs !! path = Some (Readable rows failure) ->
        validate_csv_structure fs path
        = validate_csv_structure
            (<[path := Readable (firstn 6 rows) failure]> fs) path /\
        (failure = None ->
         validate_csv_structure fs path
         = validate_csv_structure
             (<[path := Readable (firstn 5 rows) None]> fs) path) /\
        (forall i row,
            (i < 5)%nat ->
            rows !! i = Some row ->
            List.length row <> 9%nat ->
            (forall j r, (j < i)%nat -> rows !! j = Some r ->
                         List.length r = 9%nat) ->
            validate_csv_structure fs path
            = Raise (ValueError
                       ("CSV Validation Error (Row " ++ nat_text (i + 1) ++
                        "): Expected 9, found " ++ nat_text (List.length row) ++
                        " in '" ++ path ++ "'."))) /\
        (forall e,
            failure = Some e ->
            (List.length rows <= 5)%nat ->
            (forall r, In r rows -> List.length r = 9%nat) ->
            validate_csv_structure fs path = Raise e) /\
        (validate_csv_structure fs path = Ok true <->
         (forall j r, (j < 5)%nat -> rows !! j = Some r ->
                      List.length r = 9%nat) /\
         (failure = None \/ (5 < List.length rows)%nat))) /\
    (forall r1 r2 rest failure,
        fs !! path = Some (Readable (r1 :: r2 :: rest) failure) ->
        List.length r1 = 9%nat ->
        List.length r2 = 8%nat ->
        validate_csv_structure fs path
        = Raise (ValueError
                   ("CSV Validation Error (Row 2): Expected 9, found 8 in '"
                    ++ path ++ "'."))).
Proof.
  intros fs path. split; [| split; [| split]].
  - intros Hnone. unfold validate_csv_structure. rewrite Hnone. reflexivity.
  - intros e Hfile. unfold validate_csv_structure. rewrite Hfile. reflexivity.
  - intros rows failure Hfile. unfold validate_csv_structure.
    rewrite Hfile, !lookup_insert_eq. split; [| split; [| split; [| split]]].
    + rewrite (validate_rows_prefix path rows failure 0) by lia.
      rewrite (validate_rows_prefix path (firstn 6 rows) failure 0) by lia.
      change (6 - 0)%nat with 6%nat. rewrite firstn_firstn. reflexivity.
    + intros ->.
      rewrite (validate_rows_sample path rows 0).
      rewrite (validate_rows_sample path (firstn 5 rows) 0).
      change (5 - 0)%nat with 5%nat. rewrite firstn_firstn. reflexivity.
    + intros i row Hi Hrow Hbad Hgood.
      apply (validate_rows_mismatch path rows failure 0 i row); assumption.
    + intros e -> Hlen Hgood.
      apply (validate_rows_read_error path rows e 0); assumption.
    + apply (validate_rows_ok path rows failure 0). lia.
  - intros r1 r2 rest failure Hfile H1 H2. unfold validate_csv_structure.
    rewrite Hfile. cbn [validate_rows]. unfold validation_message.
    rewrite H1, H2. reflexivity.
Qed.

End Validator.

(** ** Retention *)

Section Retention.

Context `{Server}.

Lemma healthy_round_trip w :
  healthy w ->
  round_trip w = (None, set_faults (tl (faults w)) w) /\
  healthy (set_faults (tl (faults w)) w).
Proof.
  intros [Hab Hf]. unfold round_trip, healthy. simpl.
  destruct (faults w) as [|f rest]; simpl.
  - auto.
  - inversion Hf; subst. auto.
Qed.

(** On a healthy connection a statement does what the server makes of
    it. *)
Lemma execute_healthy s w :
  healthy w ->
  execute s w
  = match run_statement (current_timestamp w) s (working w, temp_tables w) with
    | inl err =>
        (Raise (server_error err),
         set_aborted true (set_faults (tl (faults w)) (sent s w)))
    | inr (r, (st, tmp)) =>
        (Ok r, set_db st tmp (set_faults (tl (faults w)) (sent s w)))
    end.
Proof.
  intros [Hab Hf]. unfold execute, round_trip. simpl. rewrite Hab.
  destruct (faults w) as [|f rest]; simpl.
  - reflexivity.
  - inversion Hf; subst. reflexivity.
Qed.

Lemma healthy_after_statement s st tmp w :
  healthy w ->
  healthy (set_db st tmp (set_faults (tl (faults w)) (sent s w))).
Proof.
  intros [Hab Hf]. split; simpl; [exact Hab |].
  destruct (faults w); simpl; [constructor | inversion Hf; assumption].
Qed.

Lemma commit_healthy w :
  healthy w ->
  commit w
  = (Ok tt,
     set_db (working w) ∅
       (set_committed (working w) (set_faults (tl (faults w)) w))).
Proof.
  intros [Hab Hf]. unfold commit, round_trip. simpl. rewrite Hab.
  destruct (faults w) as [|f rest]; simpl.
  - reflexivity.
  - inversion Hf; subst. reflexivity.
Qed.

Lemma older_than_spec now months r :
  older_than now months r = true <->
  strictly_older (minus_months now months) r.
Proof.
  unfold older_than, strictly_older, sql_where, sql_lt.
  destruct (event_start_time (staged r)) as [t|].
  - destruct (t <? minus_months now months)%Z eqn:Hlt.
    + apply Z.ltb_lt in Hlt. split; [eauto | reflexivity].
    + apply Z.ltb_ge in Hlt. split; [discriminate |].
      intros (t' & [= <-] & Hlt'). lia.
  - split; [discriminate | intros (t' & Hn & _); discriminate].
Qed.

(** C8. With the policy disabled the enforcer returns at once: the world
    is untouched, no statement is sent. With the policy enabled and a
    period of [M] months, on a healthy connection it returns after one
    [DELETE] and a commit, and the table, in the transaction and in the
    durable store, holds exactly the former rows that are not strictly
    older than the current time minus [M] months, in their order; a row
    whose event time equals that instant is kept, and so is a row
    without event time. *)
Theorem apply_pipeline_data_retention_spec :
  forall (settings : Settings) (w : World),
    (ENABLE_RETENTION_POLICY settings = false ->
     apply_pipeline_data_retention settings w = (Ok tt, w)) /\
    (ENABLE_RETENTION_POLICY settings = true ->
     forall rows,
       table (working w) = Some rows ->
       healthy w ->
       let months := RETENTION_PERIOD_MONTHS settings in
       let cutoff := minus_months (current_timestamp w) months in
       exists w' kept,
         apply_pipeline_data_retention settings w = (Ok tt, w') /\
         table (working w') = Some kept /\
         table (committed w') = Some kept /\
         trace w' = (trace w ++ [DeleteOldData months])%list /\
         kept = List.filter
                  (fun r => negb (older_than (current_timestamp w) months r))
                  rows /\
         (forall r, In r kept <-> In r rows /\ ~ strictly_older cutoff r) /\
         (forall r, In r rows ->
                    event_start_time (staged r) = Some cutoff \/
                    event_start_time (staged r) = None ->
                    In r kept)).
Proof.
  intros settings w. split.
  - intros Hoff. unfold apply_pipeline_data_retention. rewrite Hoff.
    reflexivity.
  - intros Hon rows Htable Hw months cutoff.
    set (kept := List.filter
                   (fun r => negb (older_than (current_timestamp w) months r))
                   rows).
    assert (Hkept : forall r, In r kept <-> In r rows /\ ~ strictly_older cutoff r).
    { intros r. unfold kept. rewrite filter_In, negb_true_iff.
      rewrite <- not_true_iff_false, older_than_spec. reflexivity. }
    unfold apply_pipeline_data_retention. rewrite Hon. cbn [negb].
    unfold except_reraise, log_and_run_sql, bind, get_sql_delete_old_data.
    rewrite (execute_healthy _ w Hw).
    unfold run_statement. rewrite Htable. fold months. fold kept.
    cbn [ret].
    rewrite commit_healthy by (apply healthy_after_statement; exact Hw).
    eexists. exists kept. split; [reflexivity |].
    cbn. do 4 (split; [reflexivity |]). split; [exact Hkept |].
    intros r Hin Hedge. apply Hkept. split; [exact Hin |].
    intros (t & Ht & Hlt).
    destruct Hedge as [He | He]; rewrite He in Ht; [| discriminate].
    injection Ht as <-. lia.
Qed.

End Retention.

(** ** The loader: reading the file *)

Section Reading.

Context `{Server}.

(** The loop gives the rows of the expected width, unless a fetch
    fails; either way it has logged one warning for each row of another
    width. *)
Lemma fill_buffer_spec path (rows : list (list string)) failure :
  forall i w,
    fill_buffer path i rows failure w
    = (match failure with
       | None => Ok (accepted_rows rows)
       | Some e => Raise e
       end,
       log_all (skip_warnings path i rows) w).
Proof.
  induction rows as [|row rest IH]; intros i w.
  - destruct failure; reflexivity.
  - cbn [fill_buffer skip_warnings accepted_rows List.filter].
    destruct (List.length row =? EXPECTED_CSV_COLUMNS)%nat; cbn [negb].
    + unfold bind. rewrite IH. destruct failure; reflexivity.
    + unfold bind, logger_warning. rewrite IH. reflexivity.
Qed.

Lemma accepted_rows_idempotent rows :
  accepted_rows (accepted_rows rows) = accepted_rows rows.
Proof.
  unfold accepted_rows. induction rows as [|row rest IH]; [reflexivity |].
  cbn [List.filter].
  destruct (List.length row =? EXPECTED_CSV_COLUMNS)%nat eqn:Hw.
  - cbn [List.filter]. rewrite Hw, IH. reflexivity.
  - exact IH.
Qed.

Lemma skip_warnings_accepted path rows :
  forall i, skip_warnings path i (accepted_rows rows) = [].
Proof.
  unfold accepted_rows. induction rows as [|row rest IH]; intros i;
    [reflexivity |].
  cbn [List.filter].
  destruct (List.length row =? EXPECTED_CSV_COLUMNS)%nat eqn:Hw.
  - cbn [skip_warnings]. rewrite Hw. apply IH.
  - apply IH.
Qed.

Lemma skip_warnings_In path (rows : list (list string)) :
  forall i msg,
    In msg (skip_warnings path i rows) <->
    exists k row, rows !! k = Some row /\
                  List.length row <> EXPECTED_CSV_COLUMNS /\
                  msg = skip_message path (i + k).
Proof.
  induction rows as [|row rest IH]; intros i msg.
  - simpl. split; [tauto | intros (k & r & Hk & _); discriminate].
  - cbn [skip_warnings].
    destruct (List.length row =? EXPECTED_CSV_COLUMNS)%nat eqn:Hw.
    + apply Nat.eqb_eq in Hw. rewrite IH. split.
      * intros (k & r & Hk & Hbad & ->). exists (S k), r.
        repeat split; [exact Hk | exact Hbad | f_equal; lia].
      * intros ([|k] & r & Hk & Hbad & ->).
        -- injection Hk as <-. contradiction.
        -- exists k, r. repeat split; [exact Hk | exact Hbad | f_equal; lia].
    + apply Nat.eqb_neq in Hw. cbn [In]. rewrite IH. split.
      * intros [<- | (k & r & Hk & Hbad & ->)].
        -- exists 0%nat, row. rewrite Nat.add_0_r. auto.
        -- exists (S k), r.
           repeat split; [exact Hk | exact Hbad | f_equal; lia].
      * intros ([|k] & r & Hk & Hbad & ->).
        -- left. rewrite Nat.add_0_r. reflexivity.
        -- right. exists k, r.
           repeat split; [exact Hk | exact Hbad | f_equal; lia].
Qed.

Lemma log_all_warnings msgs :
  forall w, warnings (log_all msgs w) = (warnings w ++ msgs)%list.
Proof.
  induction msgs as [|m rest IH]; intros w; simpl.
  - rewrite app_nil_r. reflexivity.
  - unfold log_all in IH. rewrite IH. simpl. rewrite <- app_assoc. reflexivity.
Qed.

Lemma log_all_frame msgs :
  forall w,
    trace (log_all msgs w) = trace w /\
    committed (log_all msgs w) = committed w /\
    working (log_all msgs w) = working w.
Proof.
  induction msgs as [|m rest IH]; intros w; [simpl; tauto |].
  change (log_all (m :: rest) w) with (log_all rest (warned m w)).
  destruct (IH (warned m w)) as (-> & -> & ->). simpl. tauto.
Qed.

Lemma quiet_log_all {A} (m : M A) msgs :
  quiet m ->
  forall w, m (log_all msgs w) = (fst (m w), log_all msgs (snd (m w))).
Proof.
  intros Hq. induction msgs as [|msg rest IH]; intros w.
  - simpl. destruct (m w); reflexivity.
  - simpl. unfold log_all in IH. rewrite IH, Hq. reflexivity.
Qed.

Lemma quiet_ret {A} (a : A) : quiet (ret a).
Proof. intros msg w. reflexivity. Qed.

Lemma quiet_bind {A B} (m : M A) (k : A -> M B) :
  quiet m -> (forall a, quiet (k a)) -> quiet (bind m k).
Proof.
  intros Hm Hk msg w. unfold bind. rewrite Hm.
  destruct (m w) as [[a|e] w1]; simpl.
  - apply Hk.
  - reflexivity.
Qed.

Lemma quiet_execute s : quiet (execute s).
Proof.
  intros msg w. unfold execute, round_trip. simpl.
  destruct (aborted w); [reflexivity |].
  destruct (match faults w with [] => None | f :: _ => f end);
    [reflexivity |].
  simpl.
  destruct (run_statement _ s _) as [err | [r [st tmp]]]; reflexivity.
Qed.

Lemma quiet_commit : quiet commit.
Proof.
  intros msg w. unfold commit, round_trip. simpl.
  destruct (match faults w with [] => None | f :: _ => f end);
    [reflexivity |].
  simpl. destruct (aborted w); reflexivity.
Qed.

Lemma quiet_log_and_run_sql s : quiet (log_and_run_sql s).
Proof.
  unfold log_and_run_sql. apply quiet_bind.
  - apply quiet_execute.
  - intros _. apply quiet_ret.
Qed.

Lemma quiet_for_each {A} (l : list A) (f : A -> M unit) :
  (forall x, quiet (f x)) -> quiet (for_each l f).
Proof.
  intros Hf. induction l as [|x rest IH]; simpl.
  - apply quiet_ret.
  - apply quiet_bind; [apply Hf | intros _; exact IH].
Qed.

Lemma quiet_drop_existing_indexes : quiet drop_existing_indexes.
Proof.
  unfold drop_existing_indexes. apply quiet_for_each. intros entry.
  apply quiet_bind; [apply quiet_execute |].
  intros found. destruct (truthy (fetchone found));
    [apply quiet_log_and_run_sql | apply quiet_ret].
Qed.

Lemma quiet_recreate_indexes : quiet recreate_indexes.
Proof.
  unfold recreate_indexes. apply quiet_for_each. intros entry.
  apply quiet_log_and_run_sql.
Qed.

End Reading.

(** ** The loader: malformed rows and empty loads *)

Section Loading.

Context `{Server}.

Lemma load_telco_data_unfold fs path stamp :
  load_telco_data fs path stamp
  = except_reraise
      (execute (CreateTempTable (staging_name stamp)) ;;;
       infile <~ open_csv fs path ;;
       buffer <~ fill_buffer path 0 (fst infile) (snd infile) ;;
       load_or_skip (staging_name stamp) buffer)
      rollback.
Proof. reflexivity. Qed.

(** The load of a file that is read to its end, in terms of its
    accepted rows. *)
Lemma load_telco_data_file fs path stamp rows w :
  fs !! path = Some (Readable rows None) ->
  load_telco_data fs path stamp w
  = match execute (CreateTempTable (staging_name stamp)) w with
    | (Raise e, w1) => (Raise e, rollback w1)
    | (Ok _, w1) =>
        match load_or_skip (staging_name stamp) (accepted_rows rows)
                (log_all (skip_warnings path 0 rows) w1) with
        | (Ok n, w2) => (Ok n, w2)
        | (Raise e, w2) => (Raise e, rollback w2)
        end
    end.
Proof.
  intros Hfile. rewrite load_telco_data_unfold.
  unfold except_reraise, bind, open_csv. rewrite Hfile.
  destruct (execute _ w) as [[r|e] w1]; [| reflexivity].
  unfold ret. cbn [fst snd]. rewrite fill_buffer_spec. reflexivity.
Qed.

(** The load of a file whose reading fails: the warnings for the rows
    read are logged, then the error goes to the handler. *)
Lemma load_telco_data_read_error fs path stamp rows e w :
  fs !! path = Some (Readable rows (Some e)) ->
  load_telco_data fs path stamp w
  = match execute (CreateTempTable (staging_name stamp)) w with
    | (Raise e', w1) => (Raise e', rollback w1)
    | (Ok _, w1) =>
        (Raise e, rollback (log_all (skip_warnings path 0 rows) w1))
    end.
Proof.
  intros Hfile. rewrite load_telco_data_unfold.
  unfold except_reraise, bind, open_csv. rewrite Hfile.
  destruct (execute _ w) as [[r|e'] w1]; [| reflexivity].
  unfold ret. cbn [fst snd]. rewrite fill_buffer_spec. reflexivity.
Qed.

(** A load that returns has read its file to the end. *)
Lemma load_telco_data_read_to_end fs path stamp rows failure w n w1 :
  fs !! path = Some (Readable rows failure) ->
  load_telco_data fs path stamp w = (Ok n, w1) ->
  failure = None.
Proof.
  intros Hfile Hload. destruct failure as [e|]; [| reflexivity].
  rewrite (load_telco_data_read_error fs path stamp rows e w Hfile) in Hload.
  destruct (execute _ w) as [[r|e'] w']; discriminate.
Qed.

Lemma quiet_load_or_skip name buffer : quiet (load_or_skip name buffer).
Proof.
  unfold load_or_skip. destruct (List.length buffer =? 0)%nat;
    [apply quiet_ret |].
  unfold merge_buffer.
  repeat first
    [ apply quiet_execute | apply quiet_commit | apply quiet_ret
    | apply quiet_drop_existing_indexes | apply quiet_recreate_indexes
    | apply quiet_bind; [| intros ?] ].
Qed.

Lemma rollback_log_all msgs :
  forall w, rollback (log_all msgs w) = log_all msgs (rollback w).
Proof.
  induction msgs as [|m rest IH]; intros w; simpl; [reflexivity |].
  unfold log_all in IH. rewrite IH. reflexivity.
Qed.

(** Loading a file gives the outcome of loading the same file without
    its rows of the wrong width, in a world that differs only by the
    warnings logged, one per such row (the warnings are logged once the
    staging table has been created, which is when the file is read). *)
Lemma load_skips_malformed_rows fs path stamp w rows failure :
  fs !! path = Some (Readable rows failure) ->
  let clean := <[path := Readable (accepted_rows rows) failure]> fs in
  let logged :=
    match fst (execute (CreateTempTable (staging_name stamp)) w) with
    | Ok _ => skip_warnings path 0 rows
    | Raise _ => []
    end in
  load_telco_data fs path stamp w
  = (fst (load_telco_data clean path stamp w),
     log_all logged (snd (load_telco_data clean path stamp w))).
Proof.
  intros Hfile clean logged. subst logged.
  destruct failure as [e|].
  - rewrite (load_telco_data_read_error fs path stamp rows e w Hfile).
    rewrite (load_telco_data_read_error clean path stamp (accepted_rows rows)
               e w) by apply lookup_insert_eq.
    destruct (execute _ w) as [[r|e'] w1]; [| reflexivity].
    rewrite skip_warnings_accepted. cbn [fst snd log_all fold_left].
    rewrite rollback_log_all. reflexivity.
  - rewrite (load_telco_data_file fs path stamp rows w Hfile).
    rewrite (load_telco_data_file clean path stamp (accepted_rows rows) w)
      by apply lookup_insert_eq.
    destruct (execute _ w) as [[r|e] w1]; [| reflexivity].
    rewrite accepted_rows_idempotent, skip_warnings_accepted.
    cbn [fst log_all fold_left].
    rewrite (quiet_log_all _ _ (quiet_load_or_skip _ _)).
    destruct (load_or_skip _ _ w1) as [[n|e] w2]; cbn [fst snd].
    + reflexivity.
    + rewrite rollback_log_all. reflexivity.
Qed.

(** C9, as the code has it. When no row of the file is accepted the
    loader sends a single statement, the creation of its staging table:
    no index is looked up or dropped, nothing is merged, and the durable
    store is as before. If that statement succeeds, as it does on a
    healthy connection where the staging name is free, then, when the
    file has been read to its end, the loader returns 0 and the working
    store (the permanent rows and the indexes) is as before; when the
    reading of the file has failed, the loader raises the error of the
    read instead of returning 0, and rolls back. *)
Theorem empty_load_touches_nothing :
  forall (fs : FileSystem) (path : string) (stamp : Z) (w : World)
         (rows : list (list string)) (failure : option exn),
    fs !! path = Some (Readable rows failure) ->
    accepted_rows rows = [] ->
    let name := staging_name stamp in
    let out := load_telco_data fs path stamp w in
    let outcome :=
      match failure with
      | None => fst out = Ok 0%Z /\ working (snd out) = working w
      | Some e => fst out = Raise e /\ undone w (snd out)
      end in
    trace (snd out) = (trace w ++ [CreateTempTable name])%list /\
    committed (snd out) = committed w /\
    (forall r w1, execute (CreateTempTable name) w = (Ok r, w1) -> outcome) /\
    (healthy w -> temp_tables w !! name = None -> outcome).
Proof.
  intros fs path stamp w rows failure Hfile Hnone name out outcome.
  assert (Hout : out
                 = match execute (CreateTempTable name) w with
                   | (Raise e, w1) => (Raise e, rollback w1)
                   | (Ok _, w1) =>
                       match failure with
                       | None =>
                           (Ok 0%Z, log_all (skip_warnings path 0 rows) w1)
                       | Some e =>
                           (Raise e,
                            rollback (log_all (skip_warnings path 0 rows) w1))
                       end
                   end).
  { subst out. destruct failure as [e|].
    - rewrite (load_telco_data_read_error fs path stamp rows e w Hfile).
      reflexivity.
    - rewrite (load_telco_data_file fs path stamp rows w Hfile).
      fold name. rewrite Hnone.
      destruct (execute _ w) as [[r|e] w1]; reflexivity. }
  assert (Hok : forall r w1, execute (CreateTempTable name) w = (Ok r, w1) ->
                             outcome).
  { intros r w1 Hx. subst outcome. rewrite Hout, Hx.
    destruct (log_all_frame (skip_warnings path 0 rows) w1)
      as (_ & Hc & Hwk).
    destruct failure as [e|]; cbn [fst snd].
    - split; [reflexivity |].
      destruct (rollback_spec (log_all (skip_warnings path 0 rows) w1))
        as (R1 & R2 & R3 & R4 & _).
      unfold undone.
      rewrite R1, R2, R3, R4, Hc, (execute_committed _ _ _ _ Hx). auto.
    - split; [reflexivity |]. rewrite Hwk.
      apply execute_ok in Hx as (st & tmp & Hrun & <- & _).
      unfold run_statement in Hrun.
      destruct (temp_tables w !! name); [discriminate |].
      injection Hrun as _ <- _. reflexivity. }
  split; [| split; [| split; [exact Hok |]]].
  - rewrite Hout. destruct (execute _ w) as [[r|e] w1] eqn:Hx.
    + destruct (log_all_frame (skip_warnings path 0 rows) w1) as (Ht & _).
      destruct failure as [e|]; cbn [snd].
      * destruct (rollback_spec (log_all (skip_warnings path 0 rows) w1))
          as (_ & _ & _ & _ & -> & _).
        rewrite Ht. apply (execute_trace _ _ _ _ Hx).
      * rewrite Ht. apply (execute_trace _ _ _ _ Hx).
    + cbn [snd]. destruct (rollback_spec w1) as (_ & _ & _ & _ & -> & _).
      apply (execute_trace _ _ _ _ Hx).
  - rewrite Hout. destruct (execute _ w) as [[r|e] w1] eqn:Hx.
    + destruct (log_all_frame (skip_warnings path 0 rows) w1) as (_ & Hc & _).
      destruct failure as [e|]; cbn [snd].
      * destruct (rollback_spec (log_all (skip_warnings path 0 rows) w1))
          as (-> & _).
        rewrite Hc. apply (execute_committed _ _ _ _ Hx).
      * rewrite Hc. apply (execute_committed _ _ _ _ Hx).
    + cbn [snd]. destruct (rollback_spec w1) as (-> & _).
      apply (execute_committed _ _ _ _ Hx).
  - intros Hw Hfree.
    pose proof (execute_healthy (CreateTempTable name) w Hw) as Hx.
    unfold run_statement in Hx. rewrite Hfree in Hx.
    apply (Hok _ _ Hx).
Qed.

End Loading.

(** ** The loader: indexes *)

Section Indexes.

Context `{Server}.

Lemma run_statement_indexes now s st tmp r st' tmp' :
  run_statement now s (st, tmp) = inr (r, (st', tmp')) ->
  indexes st' = index_effect s st.
Proof.
  unfold run_statement, index_effect.
  destruct s; intros Hrun;
    repeat match type of Hrun with
      | context [match ?x with _ => _ end] => destruct x eqn:?
      end;
    try discriminate; injection Hrun as <- <- <-; try reflexivity.
  symmetry. apply delete_id. assumption.
Qed.

Lemma execute_indexes s w r w' :
  execute s w = (Ok r, w') ->
  indexes (working w') = index_effect s (working w).
Proof.
  intros Hx. apply execute_ok in Hx as (st & tmp & Hrun & <- & _).
  apply (run_statement_indexes _ _ _ _ _ _ _ Hrun).
Qed.

(** One turn of the drop loop leaves no index of that name. *)
Lemma drop_step name w u w' :
  lower name = name ->
  (found <~ execute (SelectPgClass (lower name)) ;;
   if truthy (fetchone found)
   then log_and_run_sql (DropIndexIfExists name)
   else ret tt) w = (Ok u, w') ->
  indexes (working w') = delete name (indexes (working w)).
Proof.
  intros -> Hx. apply bind_ok in Hx as (found & w1 & Hsel & Hk).
  apply execute_ok in Hsel as (st & tmp & Hrun & Hst & _).
  unfold run_statement in Hrun.
  destruct (relation_exists (working w) name) eqn:Hrel;
    injection Hrun as <- <- _; cbn [fetchone one_row truthy] in Hk.
  - unfold log_and_run_sql in Hk.
    apply bind_ok in Hk as (r & w2 & Hdrop & Hret).
    injection Hret as _ <-.
    apply execute_indexes in Hdrop. rewrite Hdrop, Hst. reflexivity.
  - injection Hk as _ <-. rewrite Hst.
    symmetry. apply delete_id.
    unfold relation_exists in Hrel.
    destruct (indexes (working w) !! name); [discriminate | reflexivity].
Qed.

Lemma drop_existing_indexes_ok w u w' :
  drop_existing_indexes w = (Ok u, w') ->
  indexes (working w')
  = delete "idx_billing_month"
      (delete "idx_billing_event_type"
         (delete "idx_billing_event_time"
            (delete "idx_billing_customer_id" (indexes (working w))))).
Proof.
  unfold drop_existing_indexes, NON_PK_INDEXES_TO_CREATE.
  cbn [for_each fst]. intros Hx.
  apply bind_ok in Hx as (u1 & w1 & H1 & Hx).
  apply bind_ok in Hx as (u2 & w2 & H2 & Hx).
  apply bind_ok in Hx as (u3 & w3 & H3 & Hx).
  apply bind_ok in Hx as (u4 & w4 & H4 & Hx).
  injection Hx as _ <-.
  apply drop_step in H1, H2, H3, H4; try reflexivity.
  rewrite H4, H3, H2, H1. reflexivity.
Qed.

Lemma recreate_indexes_ok w u w' :
  recreate_indexes w = (Ok u, w') ->
  indexes (working w')
  = <["idx_billing_month" := "month"]>
      (<["idx_billing_event_type" := "event_type"]>
         (<["idx_billing_event_time" := "event_start_time"]>
            (<["idx_billing_customer_id" := "customer_id"]>
               (indexes (working w))))) /\
  aborted w' = false.
Proof.
  unfold recreate_indexes, NON_PK_INDEXES_TO_RECREATE, log_and_run_sql.
  cbn [for_each snd]. intros Hx.
  apply bind_ok in Hx as (u1 & w1 & H1 & Hx).
  apply bind_ok in Hx as (u2 & w2 & H2 & Hx).
  apply bind_ok in Hx as (u3 & w3 & H3 & Hx).
  apply bind_ok in Hx as (u4 & w4 & H4 & Hx).
  injection Hx as _ <-.
  apply bind_ok in H1 as (r1 & v1 & H1 & [= _ <-]).
  apply bind_ok in H2 as (r2 & v2 & H2 & [= _ <-]).
  apply bind_ok in H3 as (r3 & v3 & H3 & [= _ <-]).
  apply bind_ok in H4 as (r4 & v4 & H4 & [= _ <-]).
  split.
  - apply execute_indexes in H1, H2, H3, H4. cbn [index_effect] in *.
    rewrite H4, H3, H2, H1. reflexivity.
  - apply execute_ok in H4 as (st & tmp & _ & _ & _ & _ & _ & Hab & _).
    exact Hab.
Qed.

Lemma restored_indexes (ix : gmap string string) :
  standard_indexes ix ->
  <["idx_billing_month" := "month"]>
    (<["idx_billing_event_type" := "event_type"]>
       (<["idx_billing_event_time" := "event_start_time"]>
          (<["idx_billing_customer_id" := "customer_id"]>
             (delete "idx_billing_month"
                (delete "idx_billing_event_type"
                   (delete "idx_billing_event_time"
                      (delete "idx_billing_customer_id" ix)))))))
  = ix.
Proof.
  intros Hstd. apply map_eq. intros i.
  repeat (rewrite lookup_insert; case_decide;
          [subst i; symmetry; apply Hstd; simpl; tauto |]).
  repeat (rewrite lookup_delete_ne by assumption). reflexivity.
Qed.

Lemma recreated_are_standard (ix : gmap string string) :
  standard_indexes
    (<["idx_billing_month" := "month"]>
       (<["idx_billing_event_type" := "event_type"]>
          (<["idx_billing_event_time" := "event_start_time"]>
             (<["idx_billing_customer_id" := "customer_id"]> ix)))).
Proof.
  intros name column Hin.
  destruct Hin as [Hin | [Hin | [Hin | [Hin | []]]]];
    inversion Hin; subst; clear;
    repeat (rewrite lookup_insert; case_decide;
            [first [reflexivity | discriminate] | try congruence]).
Qed.

(** The merge, when it returns: the catalogue holds the former indexes
    with the four standard ones dropped and created again, and the
    whole is committed. *)
Lemma merge_buffer_ok name buffer w n w' :
  merge_buffer name buffer w = (Ok n, w') ->
  indexes (working w')
  = <["idx_billing_month" := "month"]>
      (<["idx_billing_event_type" := "event_type"]>
         (<["idx_billing_event_time" := "event_start_time"]>
            (<["idx_billing_customer_id" := "customer_id"]>
               (delete "idx_billing_month"
                  (delete "idx_billing_event_type"
                     (delete "idx_billing_event_time"
                        (delete "idx_billing_customer_id"
                           (indexes (working w)))))))))
  /\ committed w' = working w'.
Proof.
  unfold merge_buffer. intros Hx.
  apply bind_ok in Hx as (r1 & w1 & Hcopy & Hx).
  apply bind_ok in Hx as (r2 & w2 & Hcount & Hx).
  apply bind_ok in Hx as (u3 & w3 & Hdrop & Hx).
  apply bind_ok in Hx as (r4 & w4 & Hins & Hx).
  apply bind_ok in Hx as (u5 & w5 & Hrec & Hx).
  apply bind_ok in Hx as (u6 & w6 & Hcommit & Hx).
  injection Hx as _ <-.
  apply execute_indexes in Hcopy, Hcount, Hins. cbn [index_effect] in *.
  apply drop_existing_indexes_ok in Hdrop.
  apply recreate_indexes_ok in Hrec as [Hrec Hab].
  apply commit_ok in Hcommit as (Hdur & _ & _ & Hsame & _).
  split; [| exact Hdur].
  rewrite (Hsame Hab), Hrec, Hins, Hdrop, Hcount, Hcopy. reflexivity.
Qed.

(** C4. Take a load that returns. If the four secondary indexes were in
    the catalogue with their standard definitions when it began, the
    catalogue of indexes is the same when it ends, whatever the number
    of rows inserted (zero included). And whenever at least one row was
    accepted, the four indexes exist with their standard definitions at
    the end, whatever the catalogue held before, and the result is
    committed: every index dropped before the merge is created again
    after it. *)
Theorem indexes_restored_after_load :
  forall (fs : FileSystem) (path : string) (stamp : Z) (w : World)
         (n : Z) (w' : World),
    load_telco_data fs path stamp w = (Ok n, w') ->
    (standard_indexes (indexes (working w)) ->
     indexes (working w') = indexes (working w)) /\
    (forall rows failure,
        fs !! path = Some (Readable rows failure) ->
        accepted_rows rows <> [] ->
        standard_indexes (indexes (working w')) /\
        committed w' = working w').
Proof.
  intros fs path stamp w n w' Hload.
  destruct (fs !! path) as [[e0|rows failure]|] eqn:Hfile.
  - rewrite load_telco_data_unfold in Hload.
    unfold except_reraise, bind, open_csv in Hload. rewrite Hfile in Hload.
    destruct (execute _ w) as [[r|e] w1]; discriminate.
  - pose proof (load_telco_data_read_to_end _ _ _ _ _ _ _ _ Hfile Hload)
      as ->.
    rewrite (load_telco_data_file fs path stamp rows w Hfile) in Hload.
    destruct (execute _ w) as [[r|e] w1] eqn:Htemp; [| discriminate].
    apply execute_indexes in Htemp. cbn [index_effect] in Htemp.
    destruct (load_or_skip _ _ _) as [[n'|e] w2] eqn:Hrest; [| discriminate].
    injection Hload as <- <-.
    destruct (log_all_frame (skip_warnings path 0 rows) w1)
      as (_ & _ & Hwork).
    unfold load_or_skip in Hrest.
    destruct (List.length (accepted_rows rows) =? 0)%nat eqn:Hlen.
    + injection Hrest as _ <-. split.
      * intros _. rewrite Hwork. exact Htemp.
      * intros rows' failure' [= <- _] Hne. apply Nat.eqb_eq in Hlen.
        destruct (accepted_rows rows); [contradiction | discriminate].
    + apply merge_buffer_ok in Hrest as [Hix Hdur].
      rewrite Hwork, Htemp in Hix. split.
      * intros Hstd. rewrite Hix. apply restored_indexes. exact Hstd.
      * intros rows' failure' _ _. split; [| exact Hdur].
        rewrite Hix. apply recreated_are_standard.
  - rewrite load_telco_data_unfold in Hload.
    unfold except_reraise, bind, open_csv in Hload. rewrite Hfile in Hload.
    destruct (execute _ w) as [[r|e] w1]; discriminate.
Qed.

End Indexes.

(** ** The run as a whole *)

Section Run.

Context `{Server}.

(** A run ends with status 1, or with status 0 when the validation,
    the connection and every stage have returned normally. *)
Lemma run_etl_process_returns settings fs path stamp w :
  let out := run_etl_process settings fs path stamp w in
  fst out = 1%Z \/
  (fst out = 0%Z /\ all_stages_returned settings fs path stamp w (snd out)).
Proof.
  unfold run_etl_process, bind, lift, managed_db_connection.
  destruct (validate_csv_structure fs path) as [b|e] eqn:Hv;
    [| destruct e; simpl; left; reflexivity].
  destruct (connect w) as [[[]|e] wc] eqn:Hc;
    [| destruct e; simpl; left; reflexivity].
  destruct (setup_pipeline_db_structure wc) as [[[]|e] ws] eqn:Hs;
    [| destruct e; simpl; left; reflexivity].
  destruct (load_telco_data fs path stamp ws) as [[n|e] wl] eqn:Hl;
    [| destruct e; simpl; left; reflexivity].
  destruct (run_data_quality_checks psycopg2_cursor wl) as [[dq|e] wq] eqn:Hq;
    [| destruct e; simpl; left; reflexivity].
  assert (Halert :
            (if negb (fst dq)
             then send_alert "Telco DWH ETL: Data Quality Issues Found" (snd dq)
             else ret tt) wq
            = (Ok tt,
               if negb (fst dq)
               then alerted "Telco DWH ETL: Data Quality Issues Found" (snd dq) wq
               else wq)).
  { destruct (negb (fst dq)); reflexivity. }
  rewrite Halert.
  destruct (create_pipeline_analytics_views _) as [[[]|e] wv] eqn:Hvw;
    [| destruct e; simpl; left; reflexivity].
  destruct (apply_pipeline_data_retention settings wv) as [[[]|e] wr] eqn:Hr;
    [| destruct e; simpl; left; reflexivity].
  simpl. right. split; [reflexivity |].
  exists b, wc, ws, n, wl, dq, wq, wv, wr. repeat split; assumption.
Qed.

End Run.

(** ** Transactions: what each stage makes durable *)

Section Transactions.

Context `{Server}.

Lemma keeps_ret {A} (a : A) : keeps_durable (ret a).
Proof. intros w r w' [= _ <-]. reflexivity. Qed.

Lemma keeps_raise {A} (e : exn) : keeps_durable (@raise A e).
Proof. intros w r w' [= _ <-]. reflexivity. Qed.

Lemma keeps_bind {A B} (m : M A) (k : A -> M B) :
  keeps_durable m -> (forall a, keeps_durable (k a)) ->
  keeps_durable (bind m k).
Proof.
  intros Hm Hk w r w'. unfold bind.
  destruct (m w) as [[a|e] w1] eqn:Hmw; intros Hr.
  - rewrite (Hk a _ _ _ Hr). apply (Hm _ _ _ Hmw).
  - injection Hr as _ <-. apply (Hm _ _ _ Hmw).
Qed.

Lemma keeps_execute s : keeps_durable (execute s).
Proof. intros w r w'. apply execute_committed. Qed.

Lemma keeps_log_and_run_sql s : keeps_durable (log_and_run_sql s).
Proof.
  apply keeps_bind; [apply keeps_execute | intros _; apply keeps_ret].
Qed.

Lemma keeps_for_each {A} (l : list A) (f : A -> M unit) :
  (forall x, keeps_durable (f x)) -> keeps_durable (for_each l f).
Proof.
  intros Hf. induction l as [|x rest IH]; simpl.
  - apply keeps_ret.
  - apply keeps_bind; [apply Hf | intros _; exact IH].
Qed.

Lemma keeps_logger_warning msg : keeps_durable (logger_warning msg).
Proof. intros w r w' [= _ <-]. reflexivity. Qed.

Lemma keeps_open_csv fs path : keeps_durable (open_csv fs path).
Proof.
  unfold open_csv. destruct (fs !! path) as [[e|rows failure]|];
    [apply keeps_raise | apply keeps_ret | apply keeps_raise].
Qed.

Lemma keeps_fill_buffer path rows failure :
  forall i, keeps_durable (fill_buffer path i rows failure).
Proof.
  induction rows as [|row rest IH]; intros i; cbn [fill_buffer].
  - destruct failure; [apply keeps_raise | apply keeps_ret].
  - destruct (negb _).
    + apply keeps_bind; [apply keeps_logger_warning | intros _; apply IH].
    + apply keeps_bind; [apply IH | intros buffer; apply keeps_ret].
Qed.

Lemma keeps_drop_existing_indexes : keeps_durable drop_existing_indexes.
Proof.
  apply keeps_for_each. intros entry.
  apply keeps_bind; [apply keeps_execute |].
  intros found. destruct (truthy (fetchone found));
    [apply keeps_log_and_run_sql | apply keeps_ret].
Qed.

Lemma keeps_recreate_indexes : keeps_durable recreate_indexes.
Proof. apply keeps_for_each. intros entry. apply keeps_log_and_run_sql. Qed.

Lemma undone_rollback w w1 :
  committed w1 = committed w -> undone w (rollback w1).
Proof.
  intros Hc. destruct (rollback_spec w1) as (H1 & H2 & H3 & H4 & _).
  unfold undone. rewrite H1, H2, H3, H4, Hc. auto.
Qed.

(** The shape of three stages: work that leaves the durable store
    alone, then a commit, the whole under a handler that rolls back. *)
Lemma commit_or_undo {A} (m : M A) w r w' :
  keeps_durable m ->
  except_reraise (m ;;; commit) rollback w = (r, w') ->
  match r with
  | Ok _ => made_durable w'
  | Raise _ => undone w w'
  end.
Proof.
  intros Hm. unfold except_reraise, bind.
  destruct (m w) as [[a|e] w1] eqn:Hmw.
  - destruct (commit w1) as [[u|e] w2] eqn:Hc; intros [= <- <-].
    + apply commit_ok in Hc. split; tauto.
    + apply undone_rollback. apply commit_raise in Hc as (-> & _).
      apply (Hm _ _ _ Hmw).
  - intros [= <- <-]. apply undone_rollback. apply (Hm _ _ _ Hmw).
Qed.

Lemma setup_pipeline_db_structure_durable w r w' :
  setup_pipeline_db_structure w = (r, w') ->
  match r with
  | Ok _ => made_durable w'
  | Raise _ => undone w w'
  end.
Proof.
  unfold setup_pipeline_db_structure. intros Hx.
  apply (commit_or_undo
           (log_and_run_sql SQL_CREATE_MAIN_TABLE ;;;
            log_and_run_sql SQL_GENERATE_UUID_FUNCTION ;;;
            for_each NON_PK_INDEXES_TO_CREATE
              (fun entry => log_and_run_sql (snd entry)))).
  - repeat first
      [ apply keeps_log_and_run_sql
      | apply keeps_for_each; intros ?
      | apply keeps_bind; [| intros ?] ].
  - unfold except_reraise, bind in *.
    destruct (log_and_run_sql SQL_CREATE_MAIN_TABLE w) as [[u1|e1] w1];
      [| exact Hx].
    destruct (log_and_run_sql SQL_GENERATE_UUID_FUNCTION w1) as [[u2|e2] w2];
      [| exact Hx].
    exact Hx.
Qed.

Lemma create_pipeline_analytics_views_durable w r w' :
  create_pipeline_analytics_views w = (r, w') ->
  match r with
  | Ok _ => made_durable w'
  | Raise _ => undone w w'
  end.
Proof.
  unfold create_pipeline_analytics_views. intros Hx.
  apply (commit_or_undo
           (log_and_run_sql SQL_CREATE_USAGE_DISTRIBUTION_VIEW ;;;
            log_and_run_sql SQL_CREATE_MONTHLY_TRENDS_VIEW)).
  - apply keeps_bind; [| intros ?]; apply keeps_log_and_run_sql.
  - unfold except_reraise, bind in *.
    destruct (log_and_run_sql SQL_CREATE_USAGE_DISTRIBUTION_VIEW w)
      as [[u1|e1] w1]; exact Hx.
Qed.

Lemma apply_pipeline_data_retention_durable settings w r w' :
  apply_pipeline_data_retention settings w = (r, w') ->
  if ENABLE_RETENTION_POLICY settings
  then match r with
       | Ok _ => made_durable w'
       | Raise _ => undone w w'
       end
  else r = Ok tt /\ w' = w.
Proof.
  unfold apply_pipeline_data_retention.
  destruct (ENABLE_RETENTION_POLICY settings); cbn [negb].
  - apply commit_or_undo. apply keeps_log_and_run_sql.
  - intros [= <- <-]. auto.
Qed.

Lemma merge_buffer_durable name buffer w r w' :
  merge_buffer name buffer w = (r, w') ->
  match r with
  | Ok _ => made_durable w'
  | Raise _ => committed w' = committed w
  end.
Proof.
  unfold merge_buffer. intros Hx.
  set (work :=
         execute (CopyFrom name buffer) ;;;
         execute (SelectCount name) ;;;
         drop_existing_indexes ;;;
         inserted <~ execute (InsertFromStaging name) ;;
         recreate_indexes ;;; ret inserted).
  assert (Hwork : keeps_durable work).
  { unfold work.
    repeat first
      [ apply keeps_execute | apply keeps_ret
      | apply keeps_drop_existing_indexes | apply keeps_recreate_indexes
      | apply keeps_bind; [| intros ?] ]. }
  assert (Hsame : merge_buffer name buffer w
                  = (inserted <~ work ;; commit ;;; ret (rowcount inserted)) w).
  { unfold merge_buffer, work, bind, ret.
    destruct (execute (CopyFrom name buffer) w) as [[r1|e1] w1]; [| reflexivity].
    destruct (execute (SelectCount name) w1) as [[r2|e2] w2]; [| reflexivity].
    destruct (drop_existing_indexes w2) as [[u3|e3] w3]; [| reflexivity].
    destruct (execute (InsertFromStaging name) w3) as [[r4|e4] w4];
      [| reflexivity].
    destruct (recreate_indexes w4) as [[u5|e5] w5]; reflexivity. }
  unfold merge_buffer in Hsame. rewrite Hsame in Hx. clear Hsame.
  unfold bind in Hx. destruct (work w) as [[inserted|e] w1] eqn:Hw.
  - destruct (commit w1) as [[u|e] w2] eqn:Hc.
    + injection Hx as <- <-. apply commit_ok in Hc. split; tauto.
    + injection Hx as <- <-. apply commit_raise in Hc as (-> & _).
      apply (Hwork _ _ _ Hw).
  - injection Hx as <- <-. apply (Hwork _ _ _ Hw).
Qed.

Lemma load_telco_data_durable fs path stamp w r w' :
  load_telco_data fs path stamp w = (r, w') ->
  match r with
  | Ok n => made_durable w' \/ (n = 0%Z /\ committed w' = committed w)
  | Raise _ => undone w w'
  end.
Proof.
  rewrite load_telco_data_unfold. unfold except_reraise, bind.
  destruct (execute _ w) as [[r1|e1] w1] eqn:Htemp.
  - apply execute_committed in Htemp.
    destruct (open_csv fs path w1) as [[infile|e2] w2] eqn:Hopen.
    + apply keeps_open_csv in Hopen.
      destruct (fill_buffer path 0 (fst infile) (snd infile) w2)
        as [[buffer|e3] w3] eqn:Hfill.
      * apply keeps_fill_buffer in Hfill.
        assert (Hc3 : committed w3 = committed w) by congruence.
        unfold load_or_skip.
        destruct (List.length buffer =? 0)%nat.
        -- intros [= <- <-]. right. auto.
        -- destruct (merge_buffer _ buffer w3) as [[n|e4] w4] eqn:Hm;
             intros [= <- <-]; apply merge_buffer_durable in Hm.
           ++ left. exact Hm.
           ++ apply undone_rollback. congruence.
      * apply keeps_fill_buffer in Hfill.
        intros [= <- <-]. apply undone_rollback. congruence.
    + apply keeps_open_csv in Hopen.
      intros [= <- <-]. apply undone_rollback. congruence.
  - apply execute_committed in Htemp.
    intros [= <- <-]. apply undone_rollback. exact Htemp.
Qed.

Lemma run_data_quality_checks_durable w r w' :
  run_data_quality_checks psycopg2_cursor w = (r, w') ->
  committed w' = committed w.
Proof.
  unfold run_data_quality_checks.
  match goal with
  | |- match ?m w with _ => _ end = _ -> _ =>
      assert (Hk : keeps_durable m)
  end.
  { unfold check_missing, check_future, psycopg2_cursor,
      execute_missing_values, execute_future_dates.
    repeat first
      [ apply keeps_execute | apply keeps_ret | apply keeps_logger_warning
      | apply keeps_bind; [| intros ?]
      | match goal with
        | |- keeps_durable (match ?x with _ => _ end) => destruct x
        | |- keeps_durable (if ?x then _ else _) => destruct x
        end ]. }
  match goal with
  | |- match ?m w with _ => _ end = _ -> _ =>
      destruct (m w) as [[a|e] w1] eqn:Hm
  end; intros [= _ <-]; apply (Hk _ _ _ Hm).
Qed.

Lemma log_and_run_sql_ok s w u w' :
  log_and_run_sql s w = (Ok u, w') -> aborted w' = false.
Proof.
  unfold log_and_run_sql. intros Hx.
  apply bind_ok in Hx as (r & w1 & Hx & Hret). injection Hret as _ <-.
  apply execute_ok in Hx as (st & tmp & Hx). tauto.
Qed.

Lemma for_each_ok {A} (l : list A) (f : A -> M unit) :
  (forall x w u w', f x w = (Ok u, w') -> aborted w' = false) ->
  forall w u w',
    for_each l f w = (Ok u, w') -> aborted w = false -> aborted w' = false.
Proof.
  intros Hf. induction l as [|x rest IH]; intros w u w' Hx Hw.
  - injection Hx as _ <-. exact Hw.
  - cbn [for_each] in Hx. apply bind_ok in Hx as (u1 & w1 & H1 & Hx).
    apply (IH _ _ _ Hx). apply (Hf _ _ _ _ H1).
Qed.

Lemma setup_statements_ok w u w' :
  setup_statements w = (Ok u, w') -> aborted w' = false.
Proof.
  unfold setup_statements. intros Hx.
  apply bind_ok in Hx as (u1 & w1 & H1 & Hx).
  apply bind_ok in Hx as (u2 & w2 & H2 & Hx).
  apply (for_each_ok _ _ (fun x => log_and_run_sql_ok (snd x)) _ _ _ Hx).
  apply (log_and_run_sql_ok _ _ _ _ H2).
Qed.

Lemma views_statements_ok w u w' :
  views_statements w = (Ok u, w') -> aborted w' = false.
Proof.
  unfold views_statements. intros Hx.
  apply bind_ok in Hx as (u1 & w1 & H1 & Hx).
  apply (log_and_run_sql_ok _ _ _ _ Hx).
Qed.

Lemma merge_statements_ok name buffer w inserted w' :
  merge_statements name buffer w = (Ok inserted, w') -> aborted w' = false.
Proof.
  unfold merge_statements. intros Hx.
  apply bind_ok in Hx as (r1 & w1 & _ & Hx).
  apply bind_ok in Hx as (r2 & w2 & _ & Hx).
  apply bind_ok in Hx as (u3 & w3 & _ & Hx).
  apply bind_ok in Hx as (r4 & w4 & _ & Hx).
  apply bind_ok in Hx as (u5 & w5 & Hrec & Hx).
  injection Hx as _ <-. apply (recreate_indexes_ok _ _ _ Hrec).
Qed.

Lemma keeps_setup_statements : keeps_durable setup_statements.
Proof.
  unfold setup_statements.
  repeat first
    [ apply keeps_log_and_run_sql
    | apply keeps_for_each; intros ?
    | apply keeps_bind; [| intros ?] ].
Qed.

Lemma keeps_views_statements : keeps_durable views_statements.
Proof.
  unfold views_statements.
  apply keeps_bind; [| intros ?]; apply keeps_log_and_run_sql.
Qed.

Lemma keeps_merge_statements name buffer :
  keeps_durable (merge_statements name buffer).
Proof.
  unfold merge_statements.
  repeat first
    [ apply keeps_execute | apply keeps_ret
    | apply keeps_drop_existing_indexes | apply keeps_recreate_indexes
    | apply keeps_bind; [| intros ?] ].
Qed.

(** The shape of a stage that writes: statements that leave the durable
    store alone, then the commit, the whole under a handler that rolls
    back. *)
Lemma commit_or_rollback {A B} (body : M A) (f : A -> B) w r w' :
  keeps_durable body ->
  (forall a w1, body w = (Ok a, w1) -> aborted w1 = false) ->
  except_reraise (a <~ body ;; commit ;;; ret (f a)) rollback w = (r, w') ->
  match r with
  | Ok b => exists a, committed_work body a w w' /\ b = f a
  | Raise _ => undone w w'
  end.
Proof.
  intros Hkeeps Hok. unfold except_reraise, bind, ret.
  destruct (body w) as [[a|e] w1] eqn:Hbody.
  - destruct (commit w1) as [[u|e] w2] eqn:Hc; intros [= <- <-].
    + exists a. split; [| reflexivity]. exists w1.
      pose proof (Hok _ _ eq_refl) as Hab.
      apply commit_ok in Hc as (Hdur & Htmp & Hab' & Hsame & _).
      rewrite Hdur, (Hsame Hab). repeat split; assumption.
    + apply undone_rollback. apply commit_raise in Hc as (-> & _).
      apply (Hkeeps _ _ _ Hbody).
  - intros [= <- <-]. apply undone_rollback. apply (Hkeeps _ _ _ Hbody).
Qed.

Lemma setup_pipeline_db_structure_shape w :
  setup_pipeline_db_structure w
  = except_reraise (a <~ setup_statements ;; commit ;;; ret a) rollback w.
Proof.
  unfold setup_pipeline_db_structure, setup_statements, except_reraise,
    bind, ret.
  destruct (log_and_run_sql SQL_CREATE_MAIN_TABLE w) as [[u1|e1] w1];
    [| reflexivity].
  destruct (log_and_run_sql SQL_GENERATE_UUID_FUNCTION w1) as [[u2|e2] w2];
    [| reflexivity].
  destruct (for_each _ _ w2) as [[[]|e3] w3]; [| reflexivity].
  destruct (commit w3) as [[[]|e4] w4]; reflexivity.
Qed.

Lemma create_pipeline_analytics_views_shape w :
  create_pipeline_analytics_views w
  = except_reraise (a <~ views_statements ;; commit ;;; ret a) rollback w.
Proof.
  unfold create_pipeline_analytics_views, views_statements, except_reraise,
    bind, ret.
  destruct (log_and_run_sql SQL_CREATE_USAGE_DISTRIBUTION_VIEW w)
    as [[u1|e1] w1]; [| reflexivity].
  destruct (log_and_run_sql SQL_CREATE_MONTHLY_TRENDS_VIEW w1)
    as [[[]|e2] w2]; [| reflexivity].
  destruct (commit w2) as [[[]|e4] w4]; reflexivity.
Qed.

Lemma retention_shape settings w :
  except_reraise (retention_statements settings ;;; commit) rollback w
  = except_reraise (a <~ retention_statements settings ;; commit ;;; ret a)
      rollback w.
Proof.
  unfold except_reraise, bind, ret.
  destruct (retention_statements settings w) as [[[]|e1] w1];
    [| reflexivity].
  destruct (commit w1) as [[[]|e4] w4]; reflexivity.
Qed.

Lemma merge_buffer_shape name buffer w :
  merge_buffer name buffer w
  = (inserted <~ merge_statements name buffer ;;
     commit ;;; ret (rowcount inserted)) w.
Proof.
  unfold merge_buffer, merge_statements, bind, ret.
  destruct (execute (CopyFrom name buffer) w) as [[r1|e1] w1]; [| reflexivity].
  destruct (execute (SelectCount name) w1) as [[r2|e2] w2]; [| reflexivity].
  destruct (drop_existing_indexes w2) as [[u3|e3] w3]; [| reflexivity].
  destruct (execute (InsertFromStaging name) w3) as [[r4|e4] w4];
    [| reflexivity].
  destruct (recreate_indexes w4) as [[u5|e5] w5]; reflexivity.
Qed.

Lemma setup_pipeline_db_structure_commits w r w' :
  setup_pipeline_db_structure w = (r, w') ->
  match r with
  | Ok _ => committed_work setup_statements tt w w'
  | Raise _ => undone w w'
  end.
Proof.
  rewrite setup_pipeline_db_structure_shape. intros Hx.
  apply (commit_or_rollback setup_statements (fun a => a)) in Hx;
    [| apply keeps_setup_statements
     | intros a w1; apply setup_statements_ok ].
  destruct r as [u|e]; [| exact Hx].
  destruct Hx as ([] & Hx & _). exact Hx.
Qed.

Lemma create_pipeline_analytics_views_commits w r w' :
  create_pipeline_analytics_views w = (r, w') ->
  match r with
  | Ok _ => committed_work views_statements tt w w'
  | Raise _ => undone w w'
  end.
Proof.
  rewrite create_pipeline_analytics_views_shape. intros Hx.
  apply (commit_or_rollback views_statements (fun a => a)) in Hx;
    [| apply keeps_views_statements
     | intros a w1; apply views_statements_ok ].
  destruct r as [u|e]; [| exact Hx].
  destruct Hx as ([] & Hx & _). exact Hx.
Qed.

Lemma apply_pipeline_data_retention_commits settings w r w' :
  apply_pipeline_data_retention settings w = (r, w') ->
  if ENABLE_RETENTION_POLICY settings
  then match r with
       | Ok _ => committed_work (retention_statements settings) tt w w'
       | Raise _ => undone w w'
       end
  else r = Ok tt /\ w' = w.
Proof.
  unfold apply_pipeline_data_retention.
  destruct (ENABLE_RETENTION_POLICY settings); cbn [negb].
  - fold (retention_statements settings). rewrite retention_shape. intros Hx.
    apply (commit_or_rollback (retention_statements settings) (fun a => a))
      in Hx;
      [| apply keeps_log_and_run_sql
       | intros a w1; apply log_and_run_sql_ok ].
    destruct r as [u|e]; [| exact Hx].
    destruct Hx as ([] & Hx & _). exact Hx.
  - intros [= <- <-]. auto.
Qed.

Lemma merge_buffer_commits name buffer w n w' :
  merge_buffer name buffer w = (Ok n, w') ->
  exists inserted,
    committed_work (merge_statements name buffer) inserted w w' /\
    n = rowcount inserted.
Proof.
  rewrite merge_buffer_shape. intros Hx.
  assert (Hsame : except_reraise
                    (inserted <~ merge_statements name buffer ;;
                     commit ;;; ret (rowcount inserted)) rollback w
                  = (Ok n, w')).
  { unfold except_reraise. rewrite Hx. reflexivity. }
  apply (commit_or_rollback (merge_statements name buffer) rowcount)
    in Hsame;
    [ exact Hsame
    | apply keeps_merge_statements
    | intros a w1; apply merge_statements_ok ].
Qed.

(** What a load that returned has done: it created its staging table
    and read the file to its end, logging one warning for each row of
    another width; then, with no row accepted, it returned 0 and
    committed nothing, and otherwise it committed the merge of the
    accepted rows and returned the number of rows inserted. *)
Lemma load_telco_data_commits fs path stamp w r w' :
  load_telco_data fs path stamp w = (r, w') ->
  match r with
  | Ok n =>
      exists rows r1 w1,
        fs !! path = Some (Readable rows None) /\
        execute (CreateTempTable (staging_name stamp)) w = (Ok r1, w1) /\
        let w2 := log_all (skip_warnings path 0 rows) w1 in
        match accepted_rows rows with
        | [] => n = 0%Z /\ w' = w2 /\ committed w' = committed w
        | _ :: _ =>
            exists inserted,
              committed_work
                (merge_statements (staging_name stamp) (accepted_rows rows))
                inserted w2 w' /\
              n = rowcount inserted
        end
  | Raise _ => undone w w'
  end.
Proof.
  intros Hx. destruct r as [n|e];
    [| apply (load_telco_data_durable _ _ _ _ _ _ Hx)].
  destruct (fs !! path) as [[e|rows [e|]]|] eqn:Hfile.
  - rewrite load_telco_data_unfold in Hx.
    unfold except_reraise, bind, open_csv in Hx. rewrite Hfile in Hx.
    destruct (execute _ w) as [[r1|e1] w1]; discriminate.
  - rewrite (load_telco_data_read_error _ _ _ _ _ _ Hfile) in Hx.
    destruct (execute _ w) as [[r1|e1] w1]; discriminate.
  - rewrite (load_telco_data_file _ _ _ _ _ Hfile) in Hx.
    destruct (execute _ w) as [[r1|e1] w1] eqn:Htemp; [| discriminate].
    exists rows, r1, w1. split; [reflexivity |]. split; [reflexivity |].
    cbv zeta. unfold load_or_skip in Hx.
    destruct (accepted_rows rows) as [|row rest] eqn:Hacc; cbn [List.length Nat.eqb] in Hx.
    + injection Hx as <- <-. split; [reflexivity |]. split; [reflexivity |].
      destruct (log_all_frame (skip_warnings path 0 rows) w1) as (_ & -> & _).
      apply (execute_committed _ _ _ _ Htemp).
    + destruct (merge_buffer _ _ _) as [[n'|e] w2] eqn:Hmerge;
        [| discriminate].
      injection Hx as <- <-. apply (merge_buffer_commits _ _ _ _ _ Hmerge).
  - rewrite load_telco_data_unfold in Hx.
    unfold except_reraise, bind, open_csv in Hx. rewrite Hfile in Hx.
    destruct (execute _ w) as [[r1|e1] w1]; discriminate.
Qed.

(** A run ends with status 0 exactly when the validation, the
    connection and every stage returned normally, and with status 1
    otherwise. *)
Lemma run_etl_process_status settings fs path stamp w :
  let out := run_etl_process settings fs path stamp w in
  (fst out = 0%Z /\ all_stages_returned settings fs path stamp w (snd out)) \/
  (fst out = 1%Z /\
   forall final, ~ all_stages_returned settings fs path stamp w final).
Proof.
  unfold run_etl_process, bind, lift, managed_db_connection.
  destruct (validate_csv_structure fs path) as [b|e] eqn:Hv.
  2: { right. split; [destruct e; reflexivity |].
       intros final (b' & wc' & ws' & n' & wl' & dq' & wq' & wv' & wr' &
                     Hv' & _). congruence. }
  destruct (connect w) as [[[]|e] wc] eqn:Hc.
  2: { right. split; [destruct e; reflexivity |].
       intros final (b' & wc' & ws' & n' & wl' & dq' & wq' & wv' & wr' &
                     _ & Hc' & _). congruence. }
  destruct (setup_pipeline_db_structure wc) as [[[]|e] ws] eqn:Hs.
  2: { right. split; [destruct e; reflexivity |].
       intros final (b' & wc' & ws' & n' & wl' & dq' & wq' & wv' & wr' &
                     _ & Hc' & Hs' & _).
       assert (wc' = wc) as -> by congruence. congruence. }
  destruct (load_telco_data fs path stamp ws) as [[n|e] wl] eqn:Hl.
  2: { right. split; [destruct e; reflexivity |].
       intros final (b' & wc' & ws' & n' & wl' & dq' & wq' & wv' & wr' &
                     _ & Hc' & Hs' & Hl' & _).
       assert (wc' = wc) as -> by congruence.
       assert (ws' = ws) as -> by congruence. congruence. }
  destruct (run_data_quality_checks psycopg2_cursor wl) as [[dq|e] wq] eqn:Hq.
  2: { right. split; [destruct e; reflexivity |].
       intros final (b' & wc' & ws' & n' & wl' & dq' & wq' & wv' & wr' &
                     _ & Hc' & Hs' & Hl' & Hq' & _).
       assert (wc' = wc) as -> by congruence.
       assert (ws' = ws) as -> by congruence.
       assert (wl' = wl) as -> by congruence. congruence. }
  assert (Halert :
            (if negb (fst dq)
             then send_alert "Telco DWH ETL: Data Quality Issues Found" (snd dq)
             else ret tt) wq
            = (Ok tt,
               if negb (fst dq)
               then alerted "Telco DWH ETL: Data Quality Issues Found" (snd dq) wq
               else wq)).
  { destruct (negb (fst dq)); reflexivity. }
  rewrite Halert.
  destruct (create_pipeline_analytics_views _) as [[[]|e] wv] eqn:Hvw.
  2: { right. split; [destruct e; reflexivity |].
       intros final (b' & wc' & ws' & n' & wl' & dq' & wq' & wv' & wr' &
                     _ & Hc' & Hs' & Hl' & Hq' & Hvw' & _).
       assert (wc' = wc) as -> by congruence.
       assert (ws' = ws) as -> by congruence.
       assert (wl' = wl) as -> by congruence.
       assert (dq' = dq /\ wq' = wq) as [-> ->]
           by (split; congruence).
       congruence. }
  destruct (apply_pipeline_data_retention settings wv) as [[[]|e] wr] eqn:Hr.
  2: { right. split; [destruct e; reflexivity |].
       intros final (b' & wc' & ws' & n' & wl' & dq' & wq' & wv' & wr' &
                     _ & Hc' & Hs' & Hl' & Hq' & Hvw' & Hr' & _).
       assert (wc' = wc) as -> by congruence.
       assert (ws' = ws) as -> by congruence.
       assert (wl' = wl) as -> by congruence.
       assert (dq' = dq /\ wq' = wq) as [-> ->]
           by (split; congruence).
       assert (wv' = wv) as -> by congruence.
       congruence. }
  simpl. left. split; [reflexivity |].
  exists b, wc, ws, n, wl, dq, wq, wv, wr. repeat split; assumption.
Qed.

(** C1, as the code has it. The run is not one transaction. Each stage
    that writes (DDL setup, load, view refresh, retention when it is
    enabled) ends with a commit of its own: when such a stage returns,
    all its statements have succeeded and the store they left is the
    durable store; when it raises, the transaction has been rolled back
    to the durable store as the stage found it, so what earlier stages
    committed stays. A load that returns has created its staging table
    and read the file to its end; if no row was accepted it returns 0
    and commits nothing, otherwise it commits the merge of the accepted
    rows and returns the number of rows inserted. Retention, when it is
    disabled, does nothing. The quality checks never change the durable
    store. The run ends with status 0 when the validation, the
    connection and every stage returned normally, and with status 1 in
    every other case. *)
Theorem stages_commit_separately :
  forall (settings : Settings) (fs : FileSystem) (path : string)
         (stamp : Z) (w : World),
    (forall r w',
        setup_pipeline_db_structure w = (r, w') ->
        match r with
        | Ok _ => committed_work setup_statements tt w w'
        | Raise _ => undone w w'
        end) /\
    (forall r w',
        load_telco_data fs path stamp w = (r, w') ->
        match r with
        | Ok n =>
            exists rows r1 w1,
              fs !! path = Some (Readable rows None) /\
              execute (CreateTempTable (staging_name stamp)) w = (Ok r1, w1) /\
              let w2 := log_all (skip_warnings path 0 rows) w1 in
              match accepted_rows rows with
              | [] => n = 0%Z /\ w' = w2 /\ committed w' = committed w
              | _ :: _ =>
                  exists inserted,
                    committed_work
                      (merge_statements (staging_name stamp)
                         (accepted_rows rows))
                      inserted w2 w' /\
                    n = rowcount inserted
              end
        | Raise _ => undone w w'
        end) /\
    (forall r w',
        run_data_quality_checks psycopg2_cursor w = (r, w') ->
        committed w' = committed w) /\
    (forall r w',
        create_pipeline_analytics_views w = (r, w') ->
        match r with
        | Ok _ => committed_work views_statements tt w w'
        | Raise _ => undone w w'
        end) /\
    (forall r w',
        apply_pipeline_data_retention settings w = (r, w') ->
        if ENABLE_RETENTION_POLICY settings
        then match r with
             | Ok _ => committed_work (retention_statements settings) tt w w'
             | Raise _ => undone w w'
             end
        else r = Ok tt /\ w' = w) /\
    (let out := run_etl_process settings fs path stamp w in
     (fst out = 0%Z /\
      all_stages_returned settings fs path stamp w (snd out)) \/
     (fst out = 1%Z /\
      forall final, ~ all_stages_returned settings fs path stamp w final)).
Proof.
  intros settings fs path stamp w.
  split; [intros r w'; apply setup_pipeline_db_structure_commits |].
  split; [intros r w'; apply load_telco_data_commits |].
  split; [intros r w'; apply run_data_quality_checks_durable |].
  split; [intros r w'; apply create_pipeline_analytics_views_commits |].
  split; [intros r w'; apply apply_pipeline_data_retention_commits |].
  apply run_etl_process_status.
Qed.

End Transactions.

(** ** The merge *)

Section Merge.

Context `{Server}.

Lemma uuid_present_In u rows :
  uuid_present u rows = true <-> In u (map event_uuid rows).
Proof.
  unfold uuid_present. rewrite existsb_exists. split.
  - intros (x & Hin & Heq). apply String.eqb_eq in Heq. subst x. exact Hin.
  - intros Hin. exists u. split; [exact Hin | apply String.eqb_refl].
Qed.

(** A staged row with a null identity fails the whole statement. *)
Lemma insert_null_identity staging :
  (exists s, In s staging /\ row_uuid s = None) ->
  forall rows k,
    insert_on_conflict_do_nothing staging rows k = inl ("23502", "event_uuid").
Proof.
  induction staging as [|s rest IH]; intros (s0 & Hin & Hnull) rows k.
  - destruct Hin.
  - cbn [insert_on_conflict_do_nothing].
    destruct (row_uuid s) as [u|] eqn:Hu; [| reflexivity].
    assert (Hrest : exists s1, In s1 rest /\ row_uuid s1 = None).
    { destruct Hin as [-> | Hin]; [congruence | eauto]. }
    destruct (uuid_present u rows); apply IH; exact Hrest.
Qed.

(** When every staged identity is already in the table, nothing is
    inserted. *)
Lemma insert_all_present staging :
  forall rows k,
    (forall s, In s staging ->
               exists u, row_uuid s = Some u /\ uuid_present u rows = true) ->
    insert_on_conflict_do_nothing staging rows k = inr (rows, k).
Proof.
  induction staging as [|s rest IH]; intros rows k Hall; [reflexivity |].
  cbn [insert_on_conflict_do_nothing].
  destruct (Hall s (or_introl eq_refl)) as (u & -> & ->).
  apply IH. intros s' Hs'. apply Hall. right. exact Hs'.
Qed.

(** What a merge that succeeds leaves: the former rows followed by the
    inserted ones, as many as counted; every staged identity present;
    every new row built from a staged row; no identity twice. *)
Lemma insert_on_conflict_do_nothing_spec staging :
  forall rows k rows' n,
    insert_on_conflict_do_nothing staging rows k = inr (rows', n) ->
    exists added,
      rows' = (rows ++ added)%list /\
      n = (k + Z.of_nat (List.length added))%Z /\
      (forall s, In s staging ->
                 exists u, row_uuid s = Some u /\ uuid_present u rows' = true) /\
      (forall r, In r added ->
                 In (staged r) staging /\ row_uuid (staged r) = Some (event_uuid r)) /\
      (NoDup (map event_uuid rows) -> NoDup (map event_uuid rows')).
Proof.
  induction staging as [|s rest IH]; intros rows k rows' n Hrun.
  - injection Hrun as <- <-. exists [].
    split; [symmetry; apply app_nil_r |].
    split; [simpl; lia |].
    split; [intros s [] |].
    split; [intros r [] | auto].
  - cbn [insert_on_conflict_do_nothing] in Hrun.
    destruct (row_uuid s) as [u|] eqn:Hu; [| discriminate].
    destruct (uuid_present u rows) eqn:Hpresent.
    + destruct (IH _ _ _ _ Hrun) as (added & -> & -> & Hall & Hnew & Hnodup).
      exists added.
      split; [reflexivity |]. split; [reflexivity |].
      split; [| split; [| exact Hnodup]].
      * intros s' [<- | Hs']; [| apply Hall; exact Hs'].
        exists u. split; [exact Hu |].
        apply uuid_present_In. rewrite map_app. apply in_or_app. left.
        apply uuid_present_In. exact Hpresent.
      * intros r Hr. destruct (Hnew r Hr) as [Hin Hid].
        split; [right; exact Hin | exact Hid].
    + destruct (IH _ _ _ _ Hrun) as (added & -> & -> & Hall & Hnew & Hnodup).
      exists ({| staged := s; event_uuid := u |} :: added).
      split; [rewrite <- app_assoc; reflexivity |].
      split; [cbn [List.length]; lia |].
      split; [| split].
      * intros s' [<- | Hs']; [| apply Hall; exact Hs'].
        exists u. split; [exact Hu |].
        apply uuid_present_In. rewrite !map_app.
        apply in_or_app. left. apply in_or_app. right. left. reflexivity.
      * intros r [<- | Hr].
        -- split; [left; reflexivity | exact Hu].
        -- destruct (Hnew r Hr) as [Hin Hid].
           split; [right; exact Hin | exact Hid].
      * intros Hnd. apply Hnodup. rewrite map_app.
        apply NoDup_app. split; [exact Hnd |]. split.
        -- intros x Hx Hx'. apply list_elem_of_In in Hx, Hx'.
           destruct Hx' as [<- | []].
           apply uuid_present_In in Hx. simpl in Hx. congruence.
        -- apply NoDup_singleton.
Qed.

(** Record-level idempotence of the merge, for staged rows whose
    identity is not null: staging the same rows again inserts nothing. *)
Lemma insert_on_conflict_do_nothing_idempotent staging rows k rows' n k' :
  insert_on_conflict_do_nothing staging rows k = inr (rows', n) ->
  insert_on_conflict_do_nothing staging rows' k' = inr (rows', k').
Proof.
  intros Hrun.
  destruct (insert_on_conflict_do_nothing_spec _ _ _ _ _ Hrun)
    as (added & _ & _ & Hall & _).
  apply insert_all_present. exact Hall.
Qed.

(** The merge statement itself: sent again on the state it left, it
    inserts nothing and changes nothing. *)
Lemma insert_from_staging_idempotent now name st tmp r st' tmp' :
  run_statement now (InsertFromStaging name) (st, tmp) = inr (r, (st', tmp')) ->
  run_statement now (InsertFromStaging name) (st', tmp')
  = inr (command 0, (st', tmp')).
Proof.
  unfold run_statement. intros Hrun.
  destruct (table st) as [rows|] eqn:Htable; [| discriminate].
  destruct (tmp !! name) as [staging|] eqn:Hstaging; [| discriminate].
  destruct (uuid_function st) eqn:Hfun; [| discriminate].
  destruct (insert_on_conflict_do_nothing staging rows 0)
    as [err | [rows' n]] eqn:Hins; [discriminate |].
  injection Hrun as _ <- <-. cbn [table set_table uuid_function].
  rewrite Hstaging, Hfun.
  rewrite (insert_on_conflict_do_nothing_idempotent _ _ _ _ _ 0%Z Hins).
  reflexivity.
Qed.

End Merge.

(** ** Loading the same file again *)

Section Idempotence.

Context `{Server}.

Lemma quiet_script_tl (l : list (option string)) :
  Forall (fun f => f = None) l -> Forall (fun f => f = None) (tl l).
Proof. intros Hl. destruct l; [constructor | inversion Hl; assumption]. Qed.

Lemma calm_bind {A B} (m : M A) (k : A -> M B) :
  calm m -> (forall a, calm (k a)) -> calm (bind m k).
Proof.
  intros Hm Hk w r w'. unfold bind.
  destruct (m w) as [[a|e] w1] eqn:Hmw; intros Hr Hf.
  - apply (Hk a _ _ _ Hr). apply (Hm _ _ _ Hmw Hf).
  - injection Hr as _ <-. apply (Hm _ _ _ Hmw Hf).
Qed.

Lemma calm_ret {A} (a : A) : calm (ret a).
Proof. intros w r w' [= _ <-] Hf. exact Hf. Qed.

Lemma execute_faults s w r w' :
  execute s w = (r, w') ->
  faults w' = faults w \/ faults w' = tl (faults w).
Proof.
  unfold execute, round_trip. simpl.
  destruct (aborted w); [intros [= _ <-]; left; reflexivity |].
  destruct (match faults w with [] => None | f :: _ => f end).
  - intros [= _ <-]. right. reflexivity.
  - simpl. destruct (run_statement _ s _) as [err | [r0 [st tmp]]];
      intros [= _ <-]; right; reflexivity.
Qed.

Lemma calm_execute s : calm (execute s).
Proof.
  intros w r w' Hx Hf.
  destruct (execute_faults _ _ _ _ Hx) as [-> | ->];
    [exact Hf | apply quiet_script_tl, Hf].
Qed.

Lemma calm_commit : calm commit.
Proof.
  intros w r w'. unfold commit, round_trip.
  destruct (match faults w with [] => None | f :: _ => f end).
  - intros [= _ <-] Hf. simpl. apply quiet_script_tl, Hf.
  - simpl. destruct (aborted w); intros [= _ <-] Hf; simpl;
      apply quiet_script_tl, Hf.
Qed.

Lemma calm_for_each {A} (l : list A) (f : A -> M unit) :
  (forall x, calm (f x)) -> calm (for_each l f).
Proof.
  intros Hf. induction l as [|x rest IH]; simpl.
  - apply calm_ret.
  - apply calm_bind; [apply Hf | intros _; exact IH].
Qed.

Lemma calm_merge_buffer name buffer : calm (merge_buffer name buffer).
Proof.
  unfold merge_buffer, drop_existing_indexes, recreate_indexes,
    log_and_run_sql.
  repeat first
    [ apply calm_execute | apply calm_commit | apply calm_ret
    | apply calm_for_each; intros ?
    | match goal with
      | |- calm (if ?c then _ else _) => destruct c
      end
    | apply calm_bind; [| intros ?] ].
Qed.

Lemma quiet_merge_buffer name buffer : quiet (merge_buffer name buffer).
Proof.
  unfold merge_buffer.
  repeat first
    [ apply quiet_execute | apply quiet_commit | apply quiet_ret
    | apply quiet_drop_existing_indexes | apply quiet_recreate_indexes
    | apply quiet_bind; [| intros ?] ].
Qed.

Lemma log_all_session msgs :
  forall w,
    temp_tables (log_all msgs w) = temp_tables w /\
    aborted (log_all msgs w) = aborted w /\
    faults (log_all msgs w) = faults w /\
    current_timestamp (log_all msgs w) = current_timestamp w.
Proof.
  induction msgs as [|m rest IH]; intros w; [simpl; tauto |].
  change (log_all (m :: rest) w) with (log_all rest (warned m w)).
  destruct (IH (warned m w)) as (-> & -> & -> & ->). simpl. tauto.
Qed.

Lemma healthy_log_all msgs w : healthy w -> healthy (log_all msgs w).
Proof.
  unfold healthy.
  destruct (log_all_session msgs w) as (_ & -> & -> & _). tauto.
Qed.

(** One statement on a healthy connection. *)
Lemma execute_step s w r st tmp :
  healthy w ->
  run_statement (current_timestamp w) s (working w, temp_tables w)
  = inr (r, (st, tmp)) ->
  exists w',
    execute s w = (Ok r, w') /\ healthy w' /\
    working w' = st /\ temp_tables w' = tmp /\
    current_timestamp w' = current_timestamp w.
Proof.
  intros Hw Hrun. rewrite (execute_healthy s w Hw), Hrun.
  eexists. split; [reflexivity |].
  split; [apply healthy_after_statement; exact Hw |]. simpl. tauto.
Qed.

Lemma execute_ok_healthy s w r w' :
  healthy w -> execute s w = (Ok r, w') -> healthy w'.
Proof.
  intros [_ Hf] Hx.
  apply execute_ok in Hx as (st & tmp & _ & _ & _ & _ & _ & Hab & Hfl & _).
  split; [exact Hab | rewrite Hfl; apply quiet_script_tl, Hf].
Qed.

(** What the statements of the merge require and change. *)
Lemma execute_temp_ok name w r w' :
  execute (CreateTempTable name) w = (Ok r, w') ->
  temp_tables w !! name = None /\
  working w' = working w /\
  temp_tables w' = <[name := []]> (temp_tables w).
Proof.
  intros Hx. apply execute_ok in Hx as (st & tmp & Hrun & <- & <- & _).
  unfold run_statement in Hrun.
  destruct (temp_tables w !! name) as [old|] eqn:Hold; [discriminate |].
  injection Hrun as _ <- <-. auto.
Qed.

Lemma execute_copy_ok name buffer w r w' :
  execute (CopyFrom name buffer) w = (Ok r, w') ->
  exists old rs,
    temp_tables w !! name = Some old /\ copy_rows buffer = Accepted rs /\
    working w' = working w /\
    temp_tables w' = <[name := (old ++ rs)%list]> (temp_tables w).
Proof.
  intros Hx. apply execute_ok in Hx as (st & tmp & Hrun & <- & <- & _).
  unfold run_statement in Hrun.
  destruct (temp_tables w !! name) as [old|] eqn:Hold; [| discriminate].
  destruct (copy_rows buffer) as [rs|c] eqn:Hcopy; [| discriminate].
  injection Hrun as _ <- <-. exists old, rs. auto.
Qed.

Lemma execute_count_ok name w r w' :
  execute (SelectCount name) w = (Ok r, w') ->
  working w' = working w /\ temp_tables w' = temp_tables w.
Proof.
  intros Hx. apply execute_ok in Hx as (st & tmp & Hrun & <- & <- & _).
  unfold run_statement in Hrun.
  destruct (temp_tables w !! name); [| discriminate].
  injection Hrun as _ <- <-. auto.
Qed.

Lemma execute_insert_ok name w r w' :
  execute (InsertFromStaging name) w = (Ok r, w') ->
  exists rows staging rows',
    table (working w) = Some rows /\
    temp_tables w !! name = Some staging /\
    uuid_function (working w) = true /\
    insert_on_conflict_do_nothing staging rows 0 = inr (rows', rowcount r) /\
    working w' = set_table (Some rows') (working w) /\
    temp_tables w' = temp_tables w.
Proof.
  intros Hx. apply execute_ok in Hx as (st & tmp & Hrun & <- & <- & _).
  unfold run_statement in Hrun.
  destruct (table (working w)) as [rows|] eqn:Htable; [| discriminate].
  destruct (temp_tables w !! name) as [staging|] eqn:Hst; [| discriminate].
  destruct (uuid_function (working w)) eqn:Hfun; [| discriminate].
  destruct (insert_on_conflict_do_nothing staging rows 0)
    as [err | [rows' n]] eqn:Hins; [discriminate |].
  injection Hrun as <- <- <-. exists rows, staging, rows'.
  repeat split; try reflexivity. exact Hins.
Qed.

(** Looking up, dropping or creating an index changes the catalogue of
    indexes only; a creation that succeeds found no relation of that
    name. *)
Lemma execute_index_statement_ok s w r w' :
  match s with
  | SelectPgClass _ | DropIndexIfExists _ | CreateIndex _ _ => True
  | _ => False
  end ->
  execute s w = (Ok r, w') ->
  same_relations (working w) (working w') /\
  temp_tables w' = temp_tables w /\
  match s with
  | CreateIndex name _ => views (working w) !! name = None
  | _ => True
  end.
Proof.
  intros Hkind Hx.
  apply execute_ok in Hx as (st & tmp & Hrun & <- & <- & _).
  unfold run_statement in Hrun. unfold same_relations.
  destruct s; try contradiction.
  - destruct (table (working w)) eqn:Htable; [| discriminate].
    destruct (relation_exists (working w) name) eqn:Hrel; [discriminate |].
    injection Hrun as _ <- <-. simpl.
    split; [repeat split; assumption |]. split; [reflexivity |].
    unfold relation_exists in Hrel.
    destruct (indexes (working w) !! name); [discriminate |].
    destruct (views (working w) !! name); [discriminate | reflexivity].
  - destruct (relation_exists (working w) relname);
      injection Hrun as _ <- <-; auto.
  - destruct (indexes (working w) !! name) eqn:Hix.
    + injection Hrun as _ <- <-. simpl. auto.
    + destruct (relation_exists (working w) name); [discriminate |].
      injection Hrun as _ <- <-. auto.
Qed.

Lemma same_relations_trans a b c :
  same_relations a b -> same_relations b c -> same_relations a c.
Proof.
  unfold same_relations. intros (H1 & H2 & H3) (H4 & H5 & H6).
  repeat split; congruence.
Qed.

Lemma drop_existing_indexes_frame w u w' :
  drop_existing_indexes w = (Ok u, w') ->
  same_relations (working w) (working w') /\ temp_tables w' = temp_tables w.
Proof.
  unfold drop_existing_indexes.
  generalize NON_PK_INDEXES_TO_CREATE as l. intros l. revert w.
  induction l as [|entry rest IH]; intros w; cbn [for_each].
  - intros [= _ <-]. unfold same_relations. auto.
  - intros Hx. apply bind_ok in Hx as (u1 & w1 & Hstep & Hrest).
    apply IH in Hrest as [Hrel Htmp].
    apply bind_ok in Hstep as (found & w0 & Hsel & Hk).
    apply execute_index_statement_ok in Hsel as (Hrel0 & Htmp0 & _);
      [| exact I].
    destruct (truthy (fetchone found)).
    + unfold log_and_run_sql in Hk.
      apply bind_ok in Hk as (r1 & w2 & Hdrop & [= _ <-]).
      apply execute_index_statement_ok in Hdrop as (Hrel1 & Htmp1 & _);
        [| exact I].
      split; [| congruence].
      eapply same_relations_trans; [| exact Hrel].
      eapply same_relations_trans; eassumption.
    + injection Hk as _ <-. split; [| congruence].
      eapply same_relations_trans; eassumption.
Qed.

Lemma create_index_frame name column w u w' :
  log_and_run_sql (CreateIndex name column) w = (Ok u, w') ->
  same_relations (working w) (working w') /\
  temp_tables w' = temp_tables w /\
  views (working w) !! name = None.
Proof.
  unfold log_and_run_sql. intros Hx.
  apply bind_ok in Hx as (r & w1 & Hx & [= _ <-]).
  apply (execute_index_statement_ok (CreateIndex name column) _ _ _ I Hx).
Qed.

Lemma recreate_indexes_frame w u w' :
  recreate_indexes w = (Ok u, w') ->
  same_relations (working w) (working w') /\
  temp_tables w' = temp_tables w /\
  (forall name column,
      In (name, CreateIndex name column) NON_PK_INDEXES_TO_RECREATE ->
      views (working w) !! name = None).
Proof.
  unfold recreate_indexes, NON_PK_INDEXES_TO_RECREATE.
  cbn [for_each snd]. intros Hx.
  apply bind_ok in Hx as (u1 & w1 & H1 & Hx).
  apply bind_ok in Hx as (u2 & w2 & H2 & Hx).
  apply bind_ok in Hx as (u3 & w3 & H3 & Hx).
  apply bind_ok in Hx as (u4 & w4 & H4 & Hx).
  injection Hx as _ <-.
  apply create_index_frame in H1 as (R1 & T1 & V1).
  apply create_index_frame in H2 as (R2 & T2 & V2).
  apply create_index_frame in H3 as (R3 & T3 & V3).
  apply create_index_frame in H4 as (R4 & T4 & V4).
  pose proof (same_relations_trans _ _ _ R1 R2) as R12.
  pose proof (same_relations_trans _ _ _ R12 R3) as R13.
  pose proof (same_relations_trans _ _ _ R13 R4) as R14.
  split; [exact R14 |]. split; [congruence |].
  destruct R1 as (_ & E1 & _), R12 as (_ & E2 & _), R13 as (_ & E3 & _).
  rewrite E1 in V2. rewrite E2 in V3. rewrite E3 in V4.
  intros name column Hin.
  destruct Hin as [Hin | [Hin | [Hin | [Hin | []]]]];
    inversion Hin; subst; assumption.
Qed.

(** A merge that returned, started on an empty staging table: what it
    read, what it inserted and the state it left. *)
Lemma merge_buffer_summary name buffer w n w1 :
  merge_buffer name buffer w = (Ok n, w1) ->
  temp_tables w !! name = Some [] ->
  exists rs rows rows',
    copy_rows buffer = Accepted rs /\
    table (working w) = Some rows /\
    insert_on_conflict_do_nothing rs rows 0 = inr (rows', n) /\
    table (working w1) = Some rows' /\
    uuid_function (working w1) = true /\
    (forall index_name column,
        In (index_name, CreateIndex index_name column)
           NON_PK_INDEXES_TO_RECREATE ->
        views (working w1) !! index_name = None) /\
    temp_tables w1 = ∅ /\ aborted w1 = false.
Proof.
  unfold merge_buffer. intros Hx Hfresh.
  apply bind_ok in Hx as (r1 & wa & Hcopy & Hx).
  apply bind_ok in Hx as (r2 & wb & Hcount & Hx).
  apply bind_ok in Hx as (u3 & wc & Hdrop & Hx).
  apply bind_ok in Hx as (r4 & wd & Hins & Hx).
  apply bind_ok in Hx as (u5 & we & Hrec & Hx).
  apply bind_ok in Hx as (u6 & wf & Hcommit & Hx).
  injection Hx as <- <-.
  apply execute_copy_ok in Hcopy as (old & rs & Hold & Hrs & Wa & Ta).
  rewrite Hfresh in Hold. injection Hold as <-. cbn [app] in Ta.
  apply execute_count_ok in Hcount as (Wb & Tb).
  apply drop_existing_indexes_frame in Hdrop as ((Rc1 & Rc2 & Rc3) & Tc).
  apply execute_insert_ok in Hins
    as (rows & staging & rows' & Htable & Hst & Hfun & Hmerge & Wd & Td).
  pose proof (recreate_indexes_ok _ _ _ Hrec) as [_ Hab].
  apply recreate_indexes_frame in Hrec as ((Re1 & Re2 & Re3) & Te & Hviews).
  apply commit_ok in Hcommit as (_ & Tf & Habf & Wf & _).
  specialize (Wf Hab).
  rewrite Tc, Tb, Ta, lookup_insert_eq in Hst. injection Hst as <-.
  exists rs, rows, rows'.
  split; [exact Hrs |].
  split; [rewrite <- Wa, <- Wb, <- Rc1; exact Htable |].
  split; [exact Hmerge |].
  split; [rewrite Wf, Re1, Wd; reflexivity |].
  split; [rewrite Wf, Re3, Wd; exact Hfun |].
  split; [| split; [exact Tf | exact Habf]].
  intros index_name column Hin. rewrite Wf, Re2. apply (Hviews _ _ Hin).
Qed.

(** The steps of the drop and recreate loops on a healthy connection. *)
Lemma drop_step_healthy name column w :
  lower name = name ->
  healthy w ->
  indexes (working w) !! name = Some column ->
  exists w',
    (found <~ execute (SelectPgClass (lower name)) ;;
     if truthy (fetchone found)
     then log_and_run_sql (DropIndexIfExists name)
     else ret tt) w = (Ok tt, w') /\
    healthy w'.
Proof.
  intros Hlow Hw Hix. rewrite Hlow. unfold bind.
  assert (Hrel : relation_exists (working w) name = true).
  { unfold relation_exists. rewrite Hix. reflexivity. }
  destruct (execute_step (SelectPgClass name) w (one_row 1 [Some 1%Z])
              (working w) (temp_tables w) Hw) as (w0 & -> & Hw0 & W0 & T0 & C0).
  { unfold run_statement. rewrite Hrel. reflexivity. }
  cbn [fetchone one_row truthy]. unfold log_and_run_sql, bind.
  destruct (execute_step (DropIndexIfExists name) w0 (command (-1))
              (set_indexes (delete name (indexes (working w0))) (working w0))
              (temp_tables w0) Hw0) as (w1 & -> & Hw1 & _).
  { unfold run_statement. rewrite W0, Hix. reflexivity. }
  exists w1. split; [reflexivity | exact Hw1].
Qed.

Lemma create_step_healthy name column w rows :
  String.eqb name main_table_name = false ->
  healthy w ->
  table (working w) = Some rows ->
  indexes (working w) !! name = None ->
  views (working w) !! name = None ->
  exists w',
    log_and_run_sql (CreateIndex name column) w = (Ok tt, w') /\
    healthy w'.
Proof.
  intros Hname Hw Htable Hix Hview. unfold log_and_run_sql, bind.
  destruct (execute_step (CreateIndex name column) w (command (-1))
              (set_indexes (<[name := column]> (indexes (working w))) (working w))
              (temp_tables w) Hw) as (w1 & -> & Hw1 & _).
  { unfold run_statement, relation_exists.
    rewrite Htable, Hix, Hview, Hname. reflexivity. }
  exists w1. split; [reflexivity | exact Hw1].
Qed.

Lemma drop_existing_indexes_healthy w :
  healthy w ->
  standard_indexes (indexes (working w)) ->
  exists w', drop_existing_indexes w = (Ok tt, w') /\ healthy w'.
Proof.
  intros Hw Hstd.
  unfold drop_existing_indexes, NON_PK_INDEXES_TO_CREATE.
  cbn [for_each fst].
  destruct (drop_step_healthy "idx_billing_customer_id" "customer_id" w
              eq_refl Hw) as (w1 & H1 & Hw1).
  { apply Hstd. simpl. tauto. }
  pose proof (drop_step _ _ _ _ eq_refl H1) as I1.
  destruct (drop_step_healthy "idx_billing_event_time" "event_start_time" w1
              eq_refl Hw1) as (w2 & H2 & Hw2).
  { rewrite I1, lookup_delete_ne by discriminate. apply Hstd. simpl. tauto. }
  pose proof (drop_step _ _ _ _ eq_refl H2) as I2.
  destruct (drop_step_healthy "idx_billing_event_type" "event_type" w2
              eq_refl Hw2) as (w3 & H3 & Hw3).
  { rewrite I2, I1, !lookup_delete_ne by discriminate.
    apply Hstd. simpl. tauto. }
  pose proof (drop_step _ _ _ _ eq_refl H3) as I3.
  destruct (drop_step_healthy "idx_billing_month" "month" w3
              eq_refl Hw3) as (w4 & H4 & Hw4).
  { rewrite I3, I2, I1, !lookup_delete_ne by discriminate.
    apply Hstd. simpl. tauto. }
  exists w4. split; [| exact Hw4].
  unfold bind at 1. rewrite H1.
  unfold bind at 1. rewrite H2.
  unfold bind at 1. rewrite H3.
  unfold bind at 1. rewrite H4. reflexivity.
Qed.

Lemma create_index_indexes name column w u w' :
  log_and_run_sql (CreateIndex name column) w = (Ok u, w') ->
  indexes (working w') = <[name := column]> (indexes (working w)).
Proof.
  unfold log_and_run_sql. intros Hx.
  apply bind_ok in Hx as (r & w1 & Hx & [= _ <-]).
  apply (execute_indexes _ _ _ _ Hx).
Qed.

Lemma recreate_indexes_healthy w rows :
  healthy w ->
  table (working w) = Some rows ->
  (forall name column,
      In (name, CreateIndex name column) NON_PK_INDEXES_TO_RECREATE ->
      indexes (working w) !! name = None /\
      views (working w) !! name = None) ->
  exists w', recreate_indexes w = (Ok tt, w') /\ healthy w'.
Proof.
  intros Hw Htable Hfree.
  unfold recreate_indexes, NON_PK_INDEXES_TO_RECREATE.
  cbn [for_each snd].
  destruct (Hfree "idx_billing_customer_id" "customer_id"
              ltac:(simpl; tauto)) as [F1 V1].
  destruct (Hfree "idx_billing_event_time" "event_start_time"
              ltac:(simpl; tauto)) as [F2 V2].
  destruct (Hfree "idx_billing_event_type" "event_type"
              ltac:(simpl; tauto)) as [F3 V3].
  destruct (Hfree "idx_billing_month" "month"
              ltac:(simpl; tauto)) as [F4 V4].
  destruct (create_step_healthy "idx_billing_customer_id" "customer_id" w rows
              eq_refl Hw Htable F1 V1) as (w1 & H1 & Hw1).
  pose proof (create_index_indexes _ _ _ _ _ H1) as I1.
  pose proof (create_index_frame _ _ _ _ _ H1) as ((T1 & E1 & _) & _).
  destruct (create_step_healthy "idx_billing_event_time" "event_start_time"
              w1 rows eq_refl Hw1) as (w2 & H2 & Hw2).
  { congruence. }
  { rewrite I1, lookup_insert_ne by discriminate. exact F2. }
  { rewrite E1. exact V2. }
  pose proof (create_index_indexes _ _ _ _ _ H2) as I2.
  pose proof (create_index_frame _ _ _ _ _ H2) as ((T2 & E2 & _) & _).
  destruct (create_step_healthy "idx_billing_event_type" "event_type"
              w2 rows eq_refl Hw2) as (w3 & H3 & Hw3).
  { congruence. }
  { rewrite I2, I1, !lookup_insert_ne by discriminate. exact F3. }
  { rewrite E2, E1. exact V3. }
  pose proof (create_index_indexes _ _ _ _ _ H3) as I3.
  pose proof (create_index_frame _ _ _ _ _ H3) as ((T3 & E3 & _) & _).
  destruct (create_step_healthy "idx_billing_month" "month"
              w3 rows eq_refl Hw3) as (w4 & H4 & Hw4).
  { congruence. }
  { rewrite I3, I2, I1, !lookup_insert_ne by discriminate. exact F4. }
  { rewrite E3, E2, E1. exact V4. }
  exists w4. split; [| exact Hw4].
  unfold bind at 1. rewrite H1.
  unfold bind at 1. rewrite H2.
  unfold bind at 1. rewrite H3.
  unfold bind at 1. rewrite H4. reflexivity.
Qed.

Lemma dropped_indexes_absent (ix : gmap string string) name column :
  In (name, CreateIndex name column) NON_PK_INDEXES_TO_RECREATE ->
  delete "idx_billing_month"
    (delete "idx_billing_event_type"
       (delete "idx_billing_event_time"
          (delete "idx_billing_customer_id" ix))) !! name = None.
Proof.
  intros Hin.
  destruct Hin as [Hin | [Hin | [Hin | [Hin | []]]]];
    inversion Hin; subst; clear;
    repeat (rewrite lookup_delete; case_decide; [reflexivity |]);
    congruence.
Qed.

(** The merge of rows whose identities are all in the table already, on
    a healthy connection with the standard indexes: it goes through and
    reports no row inserted. *)
Lemma merge_buffer_again name buffer w rs rows :
  healthy w ->
  temp_tables w !! name = Some [] ->
  copy_rows buffer = Accepted rs ->
  table (working w) = Some rows ->
  uuid_function (working w) = true ->
  (forall s, In s rs ->
             exists u, row_uuid s = Some u /\ uuid_present u rows = true) ->
  standard_indexes (indexes (working w)) ->
  (forall index_name column,
      In (index_name, CreateIndex index_name column)
         NON_PK_INDEXES_TO_RECREATE ->
      views (working w) !! index_name = None) ->
  exists w2, merge_buffer name buffer w = (Ok 0%Z, w2) /\ healthy w2.
Proof.
  intros Hw Hfresh Hrs Htable Hfun Hknown Hstd Hviews.
  unfold merge_buffer.
  destruct (execute_step (CopyFrom name buffer) w (command (sql_count rs))
              (working w) (<[name := rs]> (temp_tables w)) Hw)
    as (wa & Ha & Hwa & Wa & Ta & _).
  { unfold run_statement. rewrite Hfresh, Hrs. reflexivity. }
  destruct (execute_step (SelectCount name) wa (one_row 1 [Some (sql_count rs)])
              (working wa) (temp_tables wa) Hwa)
    as (wb & Hb & Hwb & Wb & Tb & _).
  { unfold run_statement. rewrite Ta, lookup_insert_eq. reflexivity. }
  destruct (drop_existing_indexes_healthy wb Hwb) as (wc & Hc & Hwc).
  { rewrite Wb, Wa. exact Hstd. }
  pose proof (drop_existing_indexes_ok _ _ _ Hc) as Ic.
  pose proof (drop_existing_indexes_frame _ _ _ Hc) as ((Rc1 & Rc2 & Rc3) & Tc).
  assert (Htc : table (working wc) = Some rows) by congruence.
  destruct (execute_step (InsertFromStaging name) wc (command 0)
              (set_table (Some rows) (working wc)) (temp_tables wc) Hwc)
    as (wd & Hd & Hwd & Wd & Td & _).
  { unfold run_statement.
    rewrite Htc, Tc, Tb, Ta, lookup_insert_eq, Rc3, Wb, Wa, Hfun.
    rewrite (insert_all_present rs rows 0%Z Hknown). reflexivity. }
  destruct (recreate_indexes_healthy wd rows Hwd) as (we & He & Hwe).
  { rewrite Wd. reflexivity. }
  { intros index_name column Hin. rewrite Wd. cbn [indexes views set_table].
    split.
    - rewrite Ic. apply (dropped_indexes_absent _ _ _ Hin).
    - rewrite Rc2, Wb, Wa. apply (Hviews _ _ Hin). }
  exists (set_db (working we) ∅
            (set_committed (working we) (set_faults (tl (faults we)) we))).
  split.
  - unfold bind. rewrite Ha, Hb, Hc, Hd, He, (commit_healthy we Hwe).
    reflexivity.
  - destruct Hwe as [Hab Hf]. split; simpl; [exact Hab |].
    apply quiet_script_tl, Hf.
Qed.

(** X1. Record-level idempotence of the load. On a healthy connection, when
    a load that accepted at least one row has returned, loading the same
    file again returns 0 and leaves the rows of the table as they were,
    in the transaction and in the durable store; and no identity occurs
    twice in the table if none did before the first load. *)
Theorem load_again_inserts_nothing :
  forall (fs : FileSystem) (path : string) (stamp stamp' : Z) (w : World)
         (rows : list (list string)) (failure : option exn) (n : Z)
         (w1 : World),
    healthy w ->
    fs !! path = Some (Readable rows failure) ->
    accepted_rows rows <> [] ->
    load_telco_data fs path stamp w = (Ok n, w1) ->
    exists w2,
      load_telco_data fs path stamp' w1 = (Ok 0%Z, w2) /\
      table (working w2) = table (working w1) /\
      table (committed w2) = table (working w1) /\
      (forall before after,
          table (working w) = Some before ->
          table (working w1) = Some after ->
          NoDup (map event_uuid before) ->
          NoDup (map event_uuid after) /\
          n = (Z.of_nat (List.length after) - Z.of_nat (List.length before))%Z).
Proof.
  intros fs path stamp stamp' w rows failure n w1 Hw Hfile Hne Hload.
  pose proof (load_telco_data_read_to_end _ _ _ _ _ _ _ _ Hfile Hload) as ->.
  assert (Hnonempty : (List.length (accepted_rows rows) =? 0)%nat = false).
  { destruct (accepted_rows rows); [contradiction | reflexivity]. }
  (* the first load *)
  rewrite (load_telco_data_file fs path stamp rows w Hfile) in Hload.
  destruct (execute _ w) as [[r|e] wa] eqn:Htemp; [| discriminate].
  pose proof (execute_ok_healthy _ _ _ _ Hw Htemp) as Hwa.
  apply execute_temp_ok in Htemp as (_ & Wa & Ta).
  unfold load_or_skip in Hload. rewrite Hnonempty in Hload.
  rewrite (quiet_log_all _ _ (quiet_merge_buffer _ _)) in Hload.
  destruct (merge_buffer _ _ wa) as [[n'|e] w1'] eqn:Hmerge;
    cbn [fst snd] in Hload; [| discriminate].
  injection Hload as <- <-.
  pose proof (merge_buffer_ok _ _ _ _ _ Hmerge) as [Hix Hdur].
  pose proof (calm_merge_buffer _ _ _ _ _ Hmerge (proj2 Hwa)) as Hcalm.
  apply merge_buffer_summary in Hmerge
    as (rs & before & after & Hrs & Hbefore & Hins & Hafter & Hfun &
        Hviews & Tempty & Hab);
    [| rewrite Ta; apply lookup_insert_eq].
  destruct (insert_on_conflict_do_nothing_spec _ _ _ _ _ Hins)
    as (added & Hadded & Hcount & Hknown & _ & Hnodup).
  set (ws := skip_warnings path 0 rows) in *.
  destruct (log_all_frame ws w1') as (_ & Hc1 & Hw1).
  destruct (log_all_session ws w1') as (Ht1 & Ha1 & Hf1 & _).
  assert (Hhealthy1 : healthy (log_all ws w1')).
  { split; [rewrite Ha1; exact Hab | rewrite Hf1; exact Hcalm]. }
  (* the second load *)
  rewrite (load_telco_data_file fs path stamp' rows _ Hfile).
  destruct (execute_step (CreateTempTable (staging_name stamp'))
              (log_all ws w1') (command (-1))
              (working (log_all ws w1'))
              (<[staging_name stamp' := []]> (temp_tables (log_all ws w1')))
              Hhealthy1) as (wb & -> & Hwb & Wb & Tb & _).
  { unfold run_statement. rewrite Ht1, Tempty, lookup_empty. reflexivity. }
  unfold load_or_skip. rewrite Hnonempty.
  rewrite (quiet_log_all _ _ (quiet_merge_buffer _ _)).
  destruct (merge_buffer_again (staging_name stamp') (accepted_rows rows)
              wb rs after Hwb) as (w2' & Hagain & Hw2').
  { rewrite Tb. apply lookup_insert_eq. }
  { exact Hrs. }
  { rewrite Wb, Hw1. exact Hafter. }
  { rewrite Wb, Hw1. exact Hfun. }
  { exact Hknown. }
  { rewrite Wb, Hw1, Hix. apply recreated_are_standard. }
  { intros index_name column Hin. rewrite Wb, Hw1. apply (Hviews _ _ Hin). }
  rewrite Hagain. cbn [fst snd].
  pose proof (merge_buffer_ok _ _ _ _ _ Hagain) as [_ Hdur2].
  apply merge_buffer_summary in Hagain
    as (rs2 & before2 & after2 & Hrs2 & Hbefore2 & Hins2 & Hafter2 & _);
    [| rewrite Tb; apply lookup_insert_eq].
  rewrite Hrs in Hrs2. injection Hrs2 as <-.
  rewrite Wb, Hw1, Hafter in Hbefore2. injection Hbefore2 as <-.
  rewrite (insert_all_present rs after 0%Z Hknown) in Hins2.
  injection Hins2 as <-.
  exists (log_all ws w2'). split; [reflexivity |].
  destruct (log_all_frame ws w2') as (_ & Hc2 & Hw2).
  rewrite Hw2, Hc2, Hdur2, Hw1, Hafter2, Hafter.
  split; [reflexivity |]. split; [reflexivity |].
  intros before0 after0 Hb0 Ha0 Hnd.
  rewrite <- Wa, Hbefore in Hb0. injection Hb0 as <-.
  injection Ha0 as <-.
  split; [apply Hnodup; exact Hnd |].
  rewrite Hcount, Hadded, length_app. lia.
Qed.

End Idempotence.

(** ** Runs on concrete files *)

(** C1 (the claim fails). A run on a file of two rows in which the
    server fails on the first view statement: the run ends with status
    1, and yet the table, its indexes and the two rows, committed by the
    setup and by the load, are in the durable store, which was empty
    when the run began. *)
Lemma failed_run_keeps_loaded_rows :
  let w0 := fresh_world july_first fails_at_views in
  let out := run_etl_process retention_off
               {[ usage_csv := Readable [call_row; sms_row] None ]} usage_csv 1719792000 w0 in
  committed w0 = empty_store /\
  fst out = 1%Z /\
  table (committed (snd out)) = Some [call_usage; sms_usage] /\
  last (trace (snd out))
  = Some (CreateView "analytics_usage_distribution" UsageDistribution) /\
  views (committed (snd out)) = ∅.
Proof. vm_compute. repeat split; reflexivity. Qed.

(** C5 (the claim fails). Two files with the same first five rows, each
    of nine fields: the validator accepts the one that ends there and
    raises on the one whose sixth line cannot be read, with the error
    of the read, which is not a validation error; the run then ends
    with status 1 under the subject of the unexpected errors. A path
    that exists and cannot be opened as a file is refused in the same
    way. *)
Lemma validator_fetches_a_sixth_row :
  let five := [call_row; sms_row; call_row; sms_row; call_row] in
  let out := run_etl_process retention_off
               {[ usage_csv := five_rows_then_error ]} usage_csv 1719792000
               (fresh_world july_first []) in
  five_rows_then_error = Readable five (Some field_limit_error) /\
  Forall (fun row => List.length row = EXPECTED_CSV_COLUMNS) five /\
  validate_csv_structure {[ usage_csv := Readable five None ]} usage_csv
  = Ok true /\
  validate_csv_structure {[ usage_csv := five_rows_then_error ]} usage_csv
  = Raise (OtherError "Error" "field larger than field limit (131072)") /\
  fst out = 1%Z /\
  alerts (snd out)
  = [("Telco ETL Critical Failure: Unexpected System Error",
      ["Error: Error"])] /\
  trace (snd out) = [] /\
  validate_csv_structure {[ "/app/data" := Unopenable is_a_directory ]}
    "/app/data"
  = Raise is_a_directory.
Proof. vm_compute. repeat split; repeat constructor. Qed.

(** C6 (the claim fails). A file with a short row, a good row and then
    a line that the reader cannot yield, loaded after the DDL setup:
    the warning for the short row is logged, then the load raises the
    error of the read and is rolled back, and the good row is not in
    the table. *)
Lemma unreadable_line_aborts_the_load :
  let out := load_telco_data {[ usage_csv := two_rows_then_error ]}
               usage_csv 1719792000 after_setup in
  two_rows_then_error = Readable [short_row; call_row] (Some field_limit_error) /\
  accepted_rows [short_row; call_row] = [call_row] /\
  table (committed after_setup) = Some [] /\
  fst out
  = Raise (OtherError "Error" "field larger than field limit (131072)") /\
  warnings (snd out)
  = ["Skipping malformed row 1 in '/app/data/usage_sample.csv'."] /\
  trace (snd out)
  = (trace after_setup ++ [CreateTempTable "telco_staging_1719792000"])%list /\
  table (committed (snd out)) = Some [] /\
  table (working (snd out)) = Some [].
Proof. vm_compute. repeat split; reflexivity. Qed.

(** C9 (the claim fails). A file whose only line the reader cannot
    yield, loaded after a first load: no row is accepted, and the load
    raises the error of the read instead of returning 0; the staging
    table is the only statement sent and the durable store is as
    before. *)
Lemma load_without_rows_can_raise :
  let out := load_telco_data {[ usage_csv := only_error ]}
               usage_csv 1719792001 after_first_load in
  only_error = Readable [] (Some field_limit_error) /\
  accepted_rows [] = [] /\
  fst out
  = Raise (OtherError "Error" "field larger than field limit (131072)") /\
  trace (snd out)
  = (trace after_first_load
       ++ [CreateTempTable "telco_staging_1719792001"])%list /\
  committed (snd out) = committed after_first_load /\
  working (snd out) = committed after_first_load.
Proof. vm_compute. repeat split; reflexivity. Qed.

(** C3 (the code departs from the claim). A file of two rows with two
    distinct business tuples, one of them without customer, loaded into
    the empty table that the setup created: the claim expects two rows
    inserted; the identity of the row without customer is null, the
    insert breaks the primary key's not-null constraint, the load raises
    and the table stays empty. *)
Theorem load_with_absent_field_raises :
  let out := load_telco_data {[ usage_csv := Readable [call_row; anonymous_row] None ]}
               usage_csv 1719792000 after_setup in
  table (committed after_setup) = Some [] /\
  copy_rows [call_row; anonymous_row]
  = Accepted [staged call_usage;
              {| customer_id := None;
                 event_start_time := Some 1704106800000000;
                 event_type := Some "sms"; rate_plan_id := Some 5;
                 billing_flag_one := Some 0; billing_flag_two := Some 0;
                 duration := Some 0;
                 charge := Some 10000000; month := Some "2024-01" |}] /\
  fst out = Raise (Psycopg2Error (Some "23502")
                     (server_message "23502" "event_uuid")) /\
  last (trace (snd out)) = Some (InsertFromStaging "telco_staging_1719792000") /\
  table (committed (snd out)) = Some [] /\
  table (working (snd out)) = Some [].
Proof. vm_compute. repeat split; reflexivity. Qed.

(** ** The theorems at work on concrete inputs *)

(** The separate commits, seen on an empty database: the setup succeeds
    and what its statements created is durable; a load that then hits a
    null identity is undone, back to what the setup committed. *)
Lemma stages_commit_separately_witness :
  let fs : FileSystem := {[ usage_csv := Readable [call_row; anonymous_row] None ]} in
  let w0 := fresh_world july_first [] in
  let out := load_telco_data fs usage_csv 1719792000 after_setup in
  (setup_pipeline_db_structure w0 = (Ok tt, after_setup) /\
   committed_work setup_statements tt w0 after_setup) /\
  (load_telco_data fs usage_csv 1719792000 after_setup
   = (Raise (Psycopg2Error (Some "23502")
               (server_message "23502" "event_uuid")), snd out) /\
   undone after_setup (snd out)).
Proof.
  intros fs w0 out. split.
  - assert (Hrun : setup_pipeline_db_structure w0 = (Ok tt, after_setup))
      by (vm_compute; reflexivity).
    split; [exact Hrun |].
    exact (proj1 (stages_commit_separately retention_off fs usage_csv
                    1719792000 w0) (Ok tt) after_setup Hrun).
  - assert (Hrun : load_telco_data fs usage_csv 1719792000 after_setup
                   = (Raise (Psycopg2Error (Some "23502")
                               (server_message "23502" "event_uuid")), snd out))
      by (vm_compute; reflexivity).
    split; [exact Hrun |].
    exact (proj1 (proj2 (stages_commit_separately retention_off fs usage_csv
                           1719792000 after_setup)) _ (snd out) Hrun).
Defined.

(** A second load of the same file inserts nothing, and the index
    catalogue is what it was. *)
Lemma indexes_restored_after_load_witness :
  let fs : FileSystem := {[ usage_csv := Readable [call_row; sms_row] None ]} in
  let out := load_telco_data fs usage_csv 1719792001 after_first_load in
  load_telco_data fs usage_csv 1719792001 after_first_load
  = (Ok 0%Z, snd out) /\
  standard_indexes (indexes (working after_first_load)) /\
  indexes (working (snd out)) = indexes (working after_first_load).
Proof.
  intros fs out.
  assert (Hrun : load_telco_data fs usage_csv 1719792001 after_first_load
                 = (Ok 0%Z, snd out)) by (vm_compute; reflexivity).
  assert (Hstd : standard_indexes (indexes (working after_first_load))).
  { intros name column Hin.
    destruct Hin as [Hin | [Hin | [Hin | [Hin | []]]]];
      inversion Hin; subst; vm_compute; reflexivity. }
  split; [exact Hrun |]. split; [exact Hstd |].
  exact (proj1 (indexes_restored_after_load fs usage_csv 1719792001
                  after_first_load 0%Z (snd out) Hrun) Hstd).
Defined.

(** A file whose second row has eight fields. *)
Lemma validate_csv_structure_witness :
  let fs : FileSystem := {[ usage_csv := Readable [call_row; short_row; sms_row] None ]} in
  fs !! usage_csv = Some (Readable [call_row; short_row; sms_row] None) /\
  List.length call_row = 9%nat /\
  List.length short_row = 8%nat /\
  validate_csv_structure fs usage_csv
  = Raise (ValueError
             "CSV Validation Error (Row 2): Expected 9, found 8 in '/app/data/usage_sample.csv'.").
Proof.
  intros fs.
  assert (Hfile : fs !! usage_csv = Some (Readable [call_row; short_row; sms_row] None))
    by (vm_compute; reflexivity).
  split; [exact Hfile |]. split; [reflexivity |]. split; [reflexivity |].
  exact (proj2 (proj2 (proj2 (validate_csv_structure_spec fs usage_csv)))
           call_row short_row [sms_row] None Hfile eq_refl eq_refl).
Defined.

Lemma run_data_quality_checks_outcome_witness :
  let w := fresh_world july_first [] in
  run_data_quality_checks broken_cursor w
  = (Ok (false, ["DQ Exception: connection already closed"]), w) /\
  run_data_quality_checks silent_cursor w
  = (Ok (true, []),
     warned "DQ (Future Dates): Query returned no row."
       (warned "DQ (Missing Values): Query returned no row." w)).
Proof.
  intros w. split.
  - exact (proj1 (proj2 (run_data_quality_checks_outcome broken_cursor w))
             (Psycopg2Error None "connection already closed") w eq_refl).
  - exact (proj2 (proj2 (proj2 (run_data_quality_checks_outcome silent_cursor w)))
             None w None
             (warned "DQ (Missing Values): Query returned no row." w)
             eq_refl eq_refl I I).
Defined.

Lemma apply_pipeline_data_retention_witness :
  let w := world_with [old_usage; edge_usage; timeless_usage] in
  ENABLE_RETENTION_POLICY retention_on = true /\
  healthy w /\
  minus_months (current_timestamp w) 6 = 1704067200000000%Z /\
  (exists w' kept,
      apply_pipeline_data_retention retention_on w = (Ok tt, w') /\
      table (committed w') = Some kept /\
      kept = [edge_usage; timeless_usage]) /\
  apply_pipeline_data_retention retention_off w = (Ok tt, w).
Proof.
  intros w.
  assert (Hw : healthy w) by (split; [reflexivity | constructor]).
  split; [reflexivity |]. split; [exact Hw |]. split; [reflexivity |]. split.
  - destruct (proj2 (apply_pipeline_data_retention_spec retention_on w)
                eq_refl [old_usage; edge_usage; timeless_usage] eq_refl Hw)
      as (w' & kept & Hrun & _ & Hdur & _ & Hkept & _).
    exists w', kept. split; [exact Hrun |]. split; [exact Hdur |].
    rewrite Hkept. vm_compute. reflexivity.
  - exact (proj1 (apply_pipeline_data_retention_spec retention_off w) eq_refl).
Defined.

(** A file whose only row is short. *)
Lemma empty_load_touches_nothing_witness :
  let fs : FileSystem := {[ usage_csv := Readable [short_row] None ]} in
  let out := load_telco_data fs usage_csv 1719792000 after_first_load in
  fs !! usage_csv = Some (Readable [short_row] None) /\
  accepted_rows [short_row] = [] /\
  trace (snd out)
  = (trace after_first_load ++ [CreateTempTable "telco_staging_1719792000"])%list /\
  committed (snd out) = committed after_first_load /\
  fst out = Ok 0%Z /\
  working (snd out) = working after_first_load.
Proof.
  intros fs out.
  assert (Hfile : fs !! usage_csv = Some (Readable [short_row] None))
    by (vm_compute; reflexivity).
  assert (Hw : healthy after_first_load)
    by (split; [reflexivity | constructor]).
  destruct (empty_load_touches_nothing fs usage_csv 1719792000
              after_first_load [short_row] None Hfile eq_refl)
    as (Htrace & Hdur & _ & Hok).
  split; [exact Hfile |]. split; [reflexivity |].
  split; [exact Htrace |]. split; [exact Hdur |].
  apply Hok; [exact Hw | vm_compute; reflexivity].
Defined.

Lemma missing_event_time_never_flagged_witness :
  let w := world_with [nameless_recent; timeless_usage] in
  let out := check_missing psycopg2_cursor (true, []) w in
  check_missing psycopg2_cursor (true, []) w
  = (Ok (false, ["Missing values (cust/time/type): 1/0/0 in 1 recent rows."]),
     snd out) /\
  ((false, ["Missing values (cust/time/type): 1/0/0 in 1 recent rows."])
   = (true, @nil string) \/
   exists m_cid m_etype total_chk,
     (false, ["Missing values (cust/time/type): 1/0/0 in 1 recent rows."])
     = (false, ([] ++ [missing_values_issue m_cid 0 m_etype total_chk])%list)
     /\ (0 < total_chk)%Z /\ ((0 < m_cid)%Z \/ (0 < m_etype)%Z)).
Proof.
  intros w out.
  assert (Hrun : check_missing psycopg2_cursor (true, []) w
                 = (Ok (false,
                        ["Missing values (cust/time/type): 1/0/0 in 1 recent rows."]),
                    snd out)) by (vm_compute; reflexivity).
  split; [exact Hrun |].
  exact (proj2 (missing_event_time_never_flagged july_first [])
           w (true, []) _ (snd out) Hrun).
Defined.

(** The identity of a complete row, as computed by the stored function
    in a UTC session: the MD5 of
    [1_2024-01-01 10:00:00+00_call_5_0.50000000]. *)
Example generate_event_uuid_call_row :
  generate_event_uuid (Some 1%Z) (Some 1704103200000000%Z) (Some "call")
    (Some 5%Z) (Some 50000000%Z)
  = Some "9024bc4ccdb05a2319ab737db48b5bdf".
Proof. vm_compute. reflexivity. Qed.

(** * Further properties of the code *)

(** ** What a load that returned has done *)

Section Loaded.

Context `{Server}.

(** A load that returned after accepting rows: the server took every
    accepted row, and the merge of the staged rows into the table as it
    was gave the table as it is, in the transaction and durably. *)
Lemma load_telco_data_returned fs path stamp w rows failure n w1 :
  fs !! path = Some (Readable rows failure) ->
  accepted_rows rows <> [] ->
  load_telco_data fs path stamp w = (Ok n, w1) ->
  exists rs before after,
    copy_rows (accepted_rows rows) = Accepted rs /\
    table (working w) = Some before /\
    insert_on_conflict_do_nothing rs before 0 = inr (after, n) /\
    table (working w1) = Some after /\
    table (committed w1) = Some after.
Proof.
  intros Hfile Hne Hload.
  pose proof (load_telco_data_read_to_end _ _ _ _ _ _ _ _ Hfile Hload) as ->.
  assert (Hnonempty : (List.length (accepted_rows rows) =? 0)%nat = false).
  { destruct (accepted_rows rows); [contradiction | reflexivity]. }
  rewrite (load_telco_data_file fs path stamp rows w Hfile) in Hload.
  destruct (execute _ w) as [[r|e] wa] eqn:Htemp; [| discriminate].
  apply execute_temp_ok in Htemp as (_ & Wa & Ta).
  unfold load_or_skip in Hload. rewrite Hnonempty in Hload.
  rewrite (quiet_log_all _ _ (quiet_merge_buffer _ _)) in Hload.
  destruct (merge_buffer _ _ wa) as [[n'|e] w1'] eqn:Hmerge;
    cbn [fst snd] in Hload; [| discriminate].
  injection Hload as <- <-.
  pose proof (merge_buffer_ok _ _ _ _ _ Hmerge) as [_ Hdur].
  apply merge_buffer_summary in Hmerge
    as (rs & before & after & Hrs & Hbefore & Hins & Hafter & _);
    [| rewrite Ta; apply lookup_insert_eq].
  destruct (log_all_frame (skip_warnings path 0 rows) w1') as (_ & Hc & Hw).
  exists rs, before, after.
  rewrite Hw, Hc, Hdur, Hafter, <- Wa. auto.
Qed.

(** The rows a merge adds are new to the table and pairwise distinct in
    identity. *)
Lemma insert_on_conflict_do_nothing_fresh staging :
  forall rows k rows' n,
    insert_on_conflict_do_nothing staging rows k = inr (rows', n) ->
    exists added,
      rows' = (rows ++ added)%list /\
      NoDup (map event_uuid added) /\
      (forall r, In r added -> ~ In (event_uuid r) (map event_uuid rows)).
Proof.
  induction staging as [|s rest IH]; intros rows k rows' n Hrun.
  - injection Hrun as <- <-. exists [].
    split; [symmetry; apply app_nil_r |].
    split; [constructor | intros r []].
  - cbn [insert_on_conflict_do_nothing] in Hrun.
    destruct (row_uuid s) as [u|] eqn:Hu; [| discriminate].
    destruct (uuid_present u rows) eqn:Hpresent.
    + apply (IH _ _ _ _ Hrun).
    + destruct (IH _ _ _ _ Hrun) as (added & -> & Hnd & Hfresh).
      exists ({| staged := s; event_uuid := u |} :: added).
      split; [rewrite <- app_assoc; reflexivity |].
      assert (Hnew : ~ In u (map event_uuid rows)).
      { intros Hin. apply uuid_present_In in Hin. congruence. }
      split.
      * cbn [map event_uuid]. apply NoDup_cons. split; [| exact Hnd].
        intros Hin. apply list_elem_of_In in Hin.
        apply in_map_iff in Hin as (r & Hr & Hin).
        apply (Hfresh r Hin). rewrite Hr, map_app.
        apply in_or_app. right. left. reflexivity.
      * intros r [<- | Hr]; [exact Hnew |].
        intros Hin. apply (Hfresh r Hr).
        rewrite map_app. apply in_or_app. left. exact Hin.
Qed.

Lemma row_uuid_complete s u :
  row_uuid s = Some u -> complete s /\ String.length u = 32%nat.
Proof.
  unfold row_uuid. intros Hu.
  apply generate_event_uuid_some in Hu. unfold complete. tauto.
Qed.

(** X2. First write wins. When a load that accepted rows returns, the
    table holds the rows it held before, unchanged and in the same
    order, followed by the rows inserted; the count returned is the
    number of rows inserted; the inserted rows have identities that
    were not in the table and that differ from one another; each is a
    staged row with the identity the stored function gives it. *)
Theorem load_appends_new_rows :
  forall (fs : FileSystem) (path : string) (stamp : Z) (w : World)
         (rows : list (list string)) (failure : option exn) (n : Z)
         (w1 : World),
    fs !! path = Some (Readable rows failure) ->
    accepted_rows rows <> [] ->
    load_telco_data fs path stamp w = (Ok n, w1) ->
    exists before added,
      table (working w) = Some before /\
      table (working w1) = Some (before ++ added)%list /\
      table (committed w1) = Some (before ++ added)%list /\
      n = Z.of_nat (List.length added) /\
      NoDup (map event_uuid added) /\
      (forall r, In r added ->
                 ~ In (event_uuid r) (map event_uuid before) /\
                 row_uuid (staged r) = Some (event_uuid r)).
Proof.
  intros fs path stamp w rows failure n w1 Hfile Hne Hload.
  destruct (load_telco_data_returned _ _ _ _ _ _ _ _ Hfile Hne Hload)
    as (rs & before & after & _ & Hbefore & Hins & Hafter & Hdur).
  destruct (insert_on_conflict_do_nothing_spec _ _ _ _ _ Hins)
    as (added & Hadded & Hcount & _ & Hfrom & _).
  destruct (insert_on_conflict_do_nothing_fresh _ _ _ _ _ Hins)
    as (added' & Hadded' & Hnd & Hfresh).
  assert (added' = added) as ->.
  { rewrite Hadded in Hadded'. apply app_inv_head in Hadded'. congruence. }
  exists before, added. rewrite Hafter, Hdur, Hadded.
  split; [exact Hbefore |]. split; [reflexivity |]. split; [reflexivity |].
  split; [rewrite Hcount; apply Z.add_0_l |]. split; [exact Hnd |].
  intros r Hr. split; [apply (Hfresh r Hr) | apply (Hfrom r Hr)].
Qed.

End Loaded.

(** ** Loads that cannot return *)

Section Refused.

Context `{Server}.

Lemma copy_rows_In buffer :
  forall rs,
    copy_rows buffer = Accepted rs ->
    forall cells, In cells buffer ->
                  exists s, copy_row cells = Accepted s /\ In s rs.
Proof.
  induction buffer as [|row rest IH]; intros rs Hcopy cells Hin.
  - destruct Hin.
  - cbn [copy_rows] in Hcopy. unfold parsed_bind in Hcopy.
    destruct (copy_row row) as [s|c] eqn:Hrow; [| discriminate].
    destruct (copy_rows rest) as [rs'|c] eqn:Hrest; [| discriminate].
    injection Hcopy as <-.
    destruct Hin as [<- | Hin].
    + exists s. split; [exact Hrow | left; reflexivity].
    + destruct (IH rs' eq_refl cells Hin) as (s' & Hs' & Hin').
      exists s'. split; [exact Hs' | right; exact Hin'].
Qed.

(** With [null=''], an empty business cell is staged as a null, and the
    identity of the staged row is null. *)
Lemma copy_row_lacking cells s :
  copy_row cells = Accepted s ->
  lacks_business_field cells ->
  row_uuid s = None.
Proof.
  intros Hrow (i & Hi & Hcell).
  destruct cells as [|c1 [|c2 [|c3 [|c4 [|c5 [|c6 [|c7 [|c8 [|c9 [|]]]]]]]]]];
    try discriminate.
  unfold copy_row, parsed_bind in Hrow.
  destruct (copy_field int4_in c1) as [v1|] eqn:E1; [| discriminate].
  destruct (copy_field timestamptz_in c2) as [v2|] eqn:E2; [| discriminate].
  destruct (copy_field (varchar_in 50) c3) as [v3|] eqn:E3; [| discriminate].
  destruct (copy_field int4_in c4) as [v4|] eqn:E4; [| discriminate].
  destruct (copy_field int4_in c5) as [v5|] eqn:E5; [| discriminate].
  destruct (copy_field int4_in c6) as [v6|] eqn:E6; [| discriminate].
  destruct (copy_field float8_in c7) as [v7|] eqn:E7; [| discriminate].
  destruct (copy_field numeric_in c8) as [v8|] eqn:E8; [| discriminate].
  destruct (copy_field (varchar_in 7) c9) as [v9|] eqn:E9; [| discriminate].
  injection Hrow as <-. unfold row_uuid. cbn.
  simpl in Hi.
  destruct Hi as [<- | [<- | [<- | [<- | [<- | []]]]]];
    injection Hcell as ->.
  - injection E1 as <-. reflexivity.
  - injection E2 as <-. destruct v1; reflexivity.
  - injection E3 as <-. destruct v1, v2; reflexivity.
  - injection E4 as <-. destruct v1, v2, v3; reflexivity.
  - injection E8 as <-. destruct v1, v2, v3, v4; reflexivity.
Qed.

Lemma accepted_rows_In rows cells :
  In cells rows -> List.length cells = EXPECTED_CSV_COLUMNS ->
  In cells (accepted_rows rows) /\ accepted_rows rows <> [].
Proof.
  intros Hin Hlen.
  assert (Hacc : In cells (accepted_rows rows)).
  { unfold accepted_rows. apply filter_In. split; [exact Hin |].
    apply Nat.eqb_eq. exact Hlen. }
  split; [exact Hacc |]. intros Hnil. rewrite Hnil in Hacc. destruct Hacc.
Qed.

(** A load returns only if the server took every accepted row and every
    staged row has its five business fields. *)
Lemma load_telco_data_needs fs path stamp w rows failure n w1 cells :
  fs !! path = Some (Readable rows failure) ->
  load_telco_data fs path stamp w = (Ok n, w1) ->
  In cells rows -> List.length cells = EXPECTED_CSV_COLUMNS ->
  exists s u, copy_row cells = Accepted s /\ row_uuid s = Some u.
Proof.
  intros Hfile Hload Hin Hlen.
  destruct (accepted_rows_In rows cells Hin Hlen) as [Hacc Hne].
  destruct (load_telco_data_returned _ _ _ _ _ _ _ _ Hfile Hne Hload)
    as (rs & before & after & Hrs & _ & Hins & _).
  destruct (copy_rows_In _ _ Hrs cells Hacc) as (s & Hs & Hin').
  destruct (insert_on_conflict_do_nothing_spec _ _ _ _ _ Hins)
    as (added & _ & _ & Hall & _).
  destruct (Hall s Hin') as (u & Hu & _).
  exists s, u. auto.
Qed.

(** X3. A file with a row of nine fields in which the customer, the
    event time, the event type, the rate plan or the charge is empty
    cannot be loaded: on every connection the load raises, and the
    transaction is rolled back to the durable store as the load found
    it, so none of the file's rows is inserted. *)
Theorem load_refuses_absent_business_field :
  forall (fs : FileSystem) (path : string) (stamp : Z) (w : World)
         (rows : list (list string)) (failure : option exn)
         (cells : list string),
    fs !! path = Some (Readable rows failure) ->
    In cells rows ->
    List.length cells = 9%nat ->
    lacks_business_field cells ->
    exists e w',
      load_telco_data fs path stamp w = (Raise e, w') /\ undone w w'.
Proof.
  intros fs path stamp w rows failure cells Hfile Hin Hlen Hlacks.
  destruct (load_telco_data fs path stamp w) as [[n|e] w'] eqn:Hload.
  - exfalso.
    destruct (load_telco_data_needs _ _ _ _ _ _ _ _ _ Hfile Hload Hin Hlen)
      as (s & u & Hs & Hu).
    rewrite (copy_row_lacking _ _ Hs Hlacks) in Hu. discriminate.
  - exists e, w'. split; [reflexivity |].
    apply (load_telco_data_durable _ _ _ _ _ _ Hload).
Qed.

(** X4. One field that the server refuses fails the whole file: when a
    row of nine fields is rejected by [COPY], the load raises on every
    connection and the transaction is rolled back to the durable store
    as the load found it. Rows of the wrong width are skipped; rows of
    the right width with a bad value are not. *)
Theorem load_refuses_rejected_row :
  forall (fs : FileSystem) (path : string) (stamp : Z) (w : World)
         (rows : list (list string)) (failure : option exn)
         (cells : list string) (sqlstate : string),
    fs !! path = Some (Readable rows failure) ->
    In cells rows ->
    List.length cells = 9%nat ->
    copy_row cells = Rejected sqlstate ->
    exists e w',
      load_telco_data fs path stamp w = (Raise e, w') /\ undone w w'.
Proof.
  intros fs path stamp w rows failure cells sqlstate Hfile Hin Hlen Hrej.
  destruct (load_telco_data fs path stamp w) as [[n|e] w'] eqn:Hload.
  - exfalso.
    destruct (load_telco_data_needs _ _ _ _ _ _ _ _ _ Hfile Hload Hin Hlen)
      as (s & u & Hs & _).
    congruence.
  - exists e, w'. split; [reflexivity |].
    apply (load_telco_data_durable _ _ _ _ _ _ Hload).
Qed.

End Refused.

(** ** The DDL setup *)

Section Setup.

Context `{Server}.

Lemma only_adds_refl st : only_adds st st.
Proof. unfold only_adds. repeat split; auto. Qed.

Lemma only_adds_trans a b c :
  only_adds a b -> only_adds b c -> only_adds a c.
Proof.
  unfold only_adds.
  intros (T1 & F1 & V1 & I1 & J1) (T2 & F2 & V2 & I2 & J2).
  repeat split; auto.
  - congruence.
  - intros name column Hc. destruct (J2 _ _ Hc) as [Hb | Hin]; auto.
Qed.

Lemma only_adds_relation a b name :
  only_adds a b ->
  relation_exists a name = true -> relation_exists b name = true.
Proof.
  unfold only_adds, relation_exists. intros (T & _ & V & I & _).
  rewrite V.
  destruct (indexes a !! name) as [c|] eqn:Ha.
  - rewrite (I _ _ Ha). reflexivity.
  - destruct (views a !! name); [destruct (indexes b !! name); reflexivity |].
    destruct (table a) as [rows|]; [| discriminate].
    rewrite (T rows eq_refl). destruct (indexes b !! name); auto.
Qed.

(** The statements of the setup, one by one. *)
Lemma execute_create_main_table w r w' :
  execute CreateMainTable w = (Ok r, w') ->
  only_adds (working w) (working w') /\
  (table (working w) = None ->
   table (working w') = Some [] \/ table (working w') = None).
Proof.
  intros Hx. apply execute_ok in Hx as (st & tmp & Hrun & <- & _).
  unfold run_statement in Hrun.
  destruct (relation_exists (working w) main_table_name) eqn:Hrel;
    injection Hrun as _ <- _.
  - split; [apply only_adds_refl | auto].
  - split; [| intros _; left; reflexivity].
    unfold relation_exists in Hrel.
    destruct (indexes (working w) !! main_table_name); [discriminate |].
    destruct (views (working w) !! main_table_name); [discriminate |].
    destruct (table (working w)) eqn:Ht; [discriminate |].
    unfold only_adds. cbn. rewrite Ht.
    repeat split; auto. discriminate.
Qed.

Lemma execute_create_uuid_function w r w' :
  execute CreateUuidFunction w = (Ok r, w') ->
  only_adds (working w) (working w') /\ uuid_function (working w') = true /\
  table (working w') = table (working w).
Proof.
  intros Hx. apply execute_ok in Hx as (st & tmp & Hrun & <- & _).
  unfold run_statement in Hrun. injection Hrun as _ <- _.
  split; [| split; reflexivity]. unfold only_adds. cbn. repeat split; auto.
Qed.

Lemma execute_create_index_if_not_exists name column w u w' :
  In (name, CreateIndexIfNotExists name column) NON_PK_INDEXES_TO_CREATE ->
  log_and_run_sql (CreateIndexIfNotExists name column) w = (Ok u, w') ->
  only_adds (working w) (working w') /\
  is_Some (table (working w)) /\
  relation_exists (working w') name = true /\
  aborted w' = false.
Proof.
  intros Hstd Hx. unfold log_and_run_sql in Hx.
  apply bind_ok in Hx as (r & w1 & Hx & [= _ <-]).
  apply execute_ok in Hx as (st & tmp & Hrun & Hst & _ & _ & _ & Hab & _).
  unfold run_statement in Hrun.
  destruct (table (working w)) as [rows|] eqn:Ht; [| discriminate].
  destruct (relation_exists (working w) name) eqn:Hrel;
    injection Hrun as _ Hrun _; rewrite Hst; subst st;
    (split; [| split; [eauto | split; [| exact Hab]]]).
  - apply only_adds_refl.
  - exact Hrel.
  - unfold only_adds. cbn. rewrite Ht.
    unfold relation_exists in Hrel.
    destruct (indexes (working w) !! name) eqn:Hix; [discriminate |].
    repeat split; auto.
    + intros n c Hn. rewrite lookup_insert_ne; [exact Hn | congruence].
    + intros n c Hn. rewrite lookup_insert in Hn.
      case_decide; [| left; exact Hn].
      subst n. injection Hn as <-. right. exact Hstd.
  - unfold relation_exists. cbn. rewrite lookup_insert_eq. reflexivity.
Qed.

(** What a setup that returned has done. *)
Lemma setup_pipeline_db_structure_ok w w' :
  setup_pipeline_db_structure w = (Ok tt, w') ->
  (committed w' = working w' /\
   only_adds (working w) (committed w') /\
   (exists rows,
       table (committed w') = Some rows /\
       (table (working w) = None -> rows = [])) /\
   uuid_function (committed w') = true /\
   (forall name column,
       In (name, CreateIndexIfNotExists name column)
          NON_PK_INDEXES_TO_CREATE ->
       relation_exists (committed w') name = true)) /\
  temp_tables w' = ∅ /\ aborted w' = false.
Proof.
  intros Hx.
  unfold setup_pipeline_db_structure, except_reraise in Hx.
  match type of Hx with
  | (let (_, _) := ?m w in _) = _ => destruct (m w) as [[u|e] wf] eqn:Hbody
  | match ?m w with _ => _ end = _ => destruct (m w) as [[u|e] wf] eqn:Hbody
  end; [| discriminate].
  assert (wf = w') by congruence. subst wf. clear Hx.
  apply bind_ok in Hbody as (u1 & w1 & H1 & Hbody).
  apply bind_ok in Hbody as (u2 & w2 & H2 & Hbody).
  apply bind_ok in Hbody as (u3 & w6 & H3 & Hcommit).
  unfold log_and_run_sql in H1, H2.
  apply bind_ok in H1 as (r1 & w1' & H1 & [= _ <-]).
  apply bind_ok in H2 as (r2 & w2' & H2 & [= _ <-]).
  unfold NON_PK_INDEXES_TO_CREATE in H3. cbn [for_each snd] in H3.
  apply bind_ok in H3 as (v3 & w3 & I1 & H3).
  apply bind_ok in H3 as (v4 & w4 & I2 & H3).
  apply bind_ok in H3 as (v5 & w5 & I3 & H3).
  apply bind_ok in H3 as (v6 & w6' & I4 & [= _ <-]).
  apply execute_create_main_table in H1 as (A1 & Hnew).
  apply execute_create_uuid_function in H2 as (A2 & Hfun & Hkeep).
  apply execute_create_index_if_not_exists in I1 as (A3 & Htable & R3 & _);
    [| simpl; tauto].
  apply execute_create_index_if_not_exists in I2 as (A4 & _ & R4 & _);
    [| simpl; tauto].
  apply execute_create_index_if_not_exists in I3 as (A5 & _ & R5 & _);
    [| simpl; tauto].
  apply execute_create_index_if_not_exists in I4 as (A6 & _ & R6 & Hab);
    [| simpl; tauto].
  apply commit_ok in Hcommit as (Hdur & Htmp & Hab' & Hsame & _).
  specialize (Hsame Hab).
  pose proof (only_adds_trans _ _ _ A1 A2) as B2.
  pose proof (only_adds_trans _ _ _ B2 A3) as B3.
  pose proof (only_adds_trans _ _ _ B3 A4) as B4.
  pose proof (only_adds_trans _ _ _ B4 A5) as B5.
  pose proof (only_adds_trans _ _ _ B5 A6) as B6.
  pose proof (only_adds_trans _ _ _ A2
                (only_adds_trans _ _ _ A3
                   (only_adds_trans _ _ _ A4
                      (only_adds_trans _ _ _ A5 A6)))) as C16.
  split; [| split; [exact Htmp | exact Hab']].
  rewrite Hdur, Hsame.
  split; [reflexivity |]. split; [exact B6 |]. split; [| split].
  - destruct Htable as [rows Hrows]. rewrite Hkeep in Hrows.
    destruct C16 as (T & _).
    exists rows. split.
    + apply T. exact Hrows.
    + intros Hnone. destruct (Hnew Hnone) as [Hempty | Hstill]; congruence.
  - destruct (only_adds_trans _ _ _ A3
                (only_adds_trans _ _ _ A4
                   (only_adds_trans _ _ _ A5 A6))) as (_ & F & _).
    apply F. exact Hfun.
  - intros name column Hin. simpl in Hin.
    destruct Hin as [Hin | [Hin | [Hin | [Hin | []]]]];
      inversion Hin; subst.
    + apply (only_adds_relation _ _ _
               (only_adds_trans _ _ _ A4 (only_adds_trans _ _ _ A5 A6)) R3).
    + apply (only_adds_relation _ _ _ (only_adds_trans _ _ _ A5 A6) R4).
    + apply (only_adds_relation _ _ _ A6 R5).
    + exact R6.
Qed.

(** X5. The DDL setup only adds. When it returns, the durable store is
    what the connection sees; the table exists, with the rows it had
    (none if it did not exist); the identity function is defined; the
    views are as before; every index that existed is still there with
    its column and the only new ones are among the four of the creation
    table; and each of the four index names designates a relation. *)
Theorem setup_pipeline_db_structure_only_adds :
  forall (w w' : World),
    setup_pipeline_db_structure w = (Ok tt, w') ->
    committed w' = working w' /\
    only_adds (working w) (committed w') /\
    (exists rows,
        table (committed w') = Some rows /\
        (table (working w) = None -> rows = [])) /\
    uuid_function (committed w') = true /\
    (forall name column,
        In (name, CreateIndexIfNotExists name column)
           NON_PK_INDEXES_TO_CREATE ->
        relation_exists (committed w') name = true).
Proof.
  intros w w' Hx. apply (setup_pipeline_db_structure_ok w w' Hx).
Qed.

End Setup.

(** ** The key of the table *)

Section KeyInvariant.

Context `{Server}.

Lemma NoDup_map_filter {A B} (f : A -> B) (p : A -> bool) (l : list A) :
  NoDup (map f l) -> NoDup (map f (List.filter p l)).
Proof.
  induction l as [|x l IH]; intros Hnd; [exact Hnd |].
  cbn [map] in Hnd. apply NoDup_cons in Hnd as [Hx Hl].
  cbn [List.filter]. destruct (p x); [| exact (IH Hl)].
  cbn [map]. apply NoDup_cons. split; [| exact (IH Hl)].
  intros Hin. apply Hx.
  apply list_elem_of_In in Hin. apply list_elem_of_In.
  apply in_map_iff in Hin as (y & Hy & Hin).
  apply filter_In in Hin as [Hin _].
  apply in_map_iff. exists y. auto.
Qed.

Lemma well_keyed_nil : well_keyed [].
Proof. split; [constructor | intros r []]. Qed.

Lemma well_keyed_filter p rows :
  well_keyed rows -> well_keyed (List.filter p rows).
Proof.
  intros [Hnd Hid]. split; [apply NoDup_map_filter, Hnd |].
  intros r Hr. apply filter_In in Hr as [Hr _]. apply Hid, Hr.
Qed.

Lemma well_keyed_insert staging rows k rows' n :
  insert_on_conflict_do_nothing staging rows k = inr (rows', n) ->
  well_keyed rows -> well_keyed rows'.
Proof.
  intros Hins [Hnd Hid].
  destruct (insert_on_conflict_do_nothing_spec _ _ _ _ _ Hins)
    as (added & -> & _ & _ & Hnew & Hkeep).
  split; [exact (Hkeep Hnd) |].
  intros r Hr. apply in_app_or in Hr as [Hr | Hr];
    [apply Hid, Hr | apply (Hnew r Hr)].
Qed.

(** No statement of the pipeline breaks the key. *)
Lemma run_statement_keeps_keys now s st tmp r st' tmp' :
  run_statement now s (st, tmp) = inr (r, (st', tmp')) ->
  keyed_store st -> keyed_store st'.
Proof.
  unfold run_statement, keyed_store. intros Hrun Hst rows' Hrows'.
  assert (Hold : match table st with
                 | Some rows => well_keyed rows
                 | None => True
                 end).
  { destruct (table st); [apply Hst; reflexivity | exact I]. }
  clear Hst.
  destruct (table st) as [rows|] eqn:Ht;
    destruct s;
    repeat match type of Hrun with
           | (if ?c then _ else _) = _ => destruct c eqn:?
           | match ?c with _ => _ end = _ => destruct c eqn:?
           end;
    try discriminate;
    injection Hrun as _ <- _; cbn in Hrows'; rewrite ?Ht in Hrows';
    try discriminate; injection Hrows' as <-;
    eauto using well_keyed_nil, well_keyed_filter, well_keyed_insert.
Qed.

Lemma keeps_keys_ret {A} (a : A) : keeps_keys (ret a).
Proof. intros w r w' [= <- <-] Hk. exact Hk. Qed.

Lemma keeps_keys_raise {A} (e : exn) : keeps_keys (@raise A e).
Proof. intros w r w' [= <- <-] Hk. exact Hk. Qed.

Lemma keeps_keys_lift {A} (o : outcome A) : keeps_keys (lift o).
Proof. intros w r w' [= <- <-] Hk. exact Hk. Qed.

Lemma keeps_keys_bind {A B} (m : M A) (k : A -> M B) :
  keeps_keys m -> (forall a, keeps_keys (k a)) -> keeps_keys (bind m k).
Proof.
  intros Hm Hk w r w' Hrun Hw. unfold bind in Hrun.
  destruct (m w) as [[a|e] w1] eqn:Hmw.
  - apply (Hk a w1 r w' Hrun). apply (Hm w _ w1 Hmw Hw).
  - injection Hrun as <- <-. apply (Hm w _ w1 Hmw Hw).
Qed.

Lemma keyed_rollback w : keyed w -> keyed (rollback w).
Proof. intros [Hc _]. split; exact Hc. Qed.

Lemma keeps_keys_except_reraise {A} (m : M A) :
  keeps_keys m -> keeps_keys (except_reraise m rollback).
Proof.
  intros Hm w r w' Hrun Hw. unfold except_reraise in Hrun.
  destruct (m w) as [[a|e] w1] eqn:Hmw; injection Hrun as <- <-.
  - apply (Hm w _ w1 Hmw Hw).
  - apply keyed_rollback. apply (Hm w _ w1 Hmw Hw).
Qed.

Lemma keeps_keys_for_each {A} (l : list A) (f : A -> M unit) :
  (forall x, keeps_keys (f x)) -> keeps_keys (for_each l f).
Proof.
  intros Hf. induction l as [|x l IH]; cbn [for_each].
  - apply keeps_keys_ret.
  - apply keeps_keys_bind; [apply Hf | intros _; exact IH].
Qed.

Lemma keeps_keys_logger_warning msg : keeps_keys (logger_warning msg).
Proof. intros w r w' [= <- <-] Hk. exact Hk. Qed.

Lemma keeps_keys_send_alert subject issues :
  keeps_keys (send_alert subject issues).
Proof. intros w r w' [= <- <-] Hk. exact Hk. Qed.

Lemma keeps_keys_execute s : keeps_keys (execute s).
Proof.
  intros w [r|e] w' Hrun [Hc Hw].
  - apply execute_ok in Hrun as (st & tmp & Hst & <- & _ & Hc' & _).
    split; [rewrite Hc'; exact Hc |].
    apply (run_statement_keeps_keys _ _ _ _ _ _ _ Hst Hw).
  - apply execute_raise in Hrun as (Hw' & _ & Hc' & _).
    split; [rewrite Hc'; exact Hc | rewrite Hw'; exact Hw].
Qed.

Lemma keeps_keys_commit : keeps_keys commit.
Proof.
  intros w r w' Hrun [Hc Hw]. unfold commit, round_trip in Hrun.
  destruct (match faults w with [] => None | f :: _ => f end).
  - injection Hrun as <- <-. split; assumption.
  - cbn in Hrun. destruct (aborted w); injection Hrun as <- <-;
      split; assumption.
Qed.

Lemma keeps_keys_connect : keeps_keys connect.
Proof.
  intros w r w' Hrun [Hc Hw]. unfold connect, round_trip in Hrun.
  destruct (match faults w with [] => None | f :: _ => f end);
    injection Hrun as <- <-; split; assumption.
Qed.

Lemma keeps_keys_managed_db_connection {A} (block : M A) :
  keeps_keys block -> keeps_keys (managed_db_connection block).
Proof.
  intros Hb w r w' Hrun Hw. unfold managed_db_connection in Hrun.
  destruct (connect w) as [[u|e] w1] eqn:Hc.
  - destruct (block w1) as [r2 w2] eqn:Hblock. injection Hrun as <- <-.
    apply keyed_rollback. apply (Hb w1 _ w2 Hblock).
    apply (keeps_keys_connect w _ w1 Hc Hw).
  - injection Hrun as <- <-. apply (keeps_keys_connect w _ w1 Hc Hw).
Qed.

Lemma keeps_keys_log_and_run_sql s : keeps_keys (log_and_run_sql s).
Proof.
  apply keeps_keys_bind; [apply keeps_keys_execute |].
  intros _. apply keeps_keys_ret.
Qed.

Lemma keeps_keys_open_csv fs path : keeps_keys (open_csv fs path).
Proof.
  unfold open_csv. destruct (fs !! path) as [[e|rows failure]|];
    [apply keeps_keys_raise | apply keeps_keys_ret | apply keeps_keys_raise].
Qed.

Lemma keeps_keys_fill_buffer path rows failure :
  forall i, keeps_keys (fill_buffer path i rows failure).
Proof.
  induction rows as [|row rest IH]; intros i; cbn [fill_buffer].
  - destruct failure; [apply keeps_keys_raise | apply keeps_keys_ret].
  - destruct (negb _).
    + apply keeps_keys_bind; [apply keeps_keys_logger_warning | intros _; apply IH].
    + apply keeps_keys_bind; [apply IH | intros buffer; apply keeps_keys_ret].
Qed.

Lemma keeps_keys_drop_existing_indexes : keeps_keys drop_existing_indexes.
Proof.
  apply keeps_keys_for_each. intros entry.
  apply keeps_keys_bind; [apply keeps_keys_execute |].
  intros found. destruct (truthy _);
    [apply keeps_keys_log_and_run_sql | apply keeps_keys_ret].
Qed.

Lemma keeps_keys_recreate_indexes : keeps_keys recreate_indexes.
Proof.
  apply keeps_keys_for_each. intros entry. apply keeps_keys_log_and_run_sql.
Qed.

Lemma keeps_keys_setup_pipeline_db_structure :
  keeps_keys setup_pipeline_db_structure.
Proof.
  apply keeps_keys_except_reraise.
  apply keeps_keys_bind; [apply keeps_keys_log_and_run_sql | intros _].
  apply keeps_keys_bind; [apply keeps_keys_log_and_run_sql | intros _].
  apply keeps_keys_bind; [| intros _; apply keeps_keys_commit].
  apply keeps_keys_for_each. intros entry. apply keeps_keys_log_and_run_sql.
Qed.

Lemma keeps_keys_load_telco_data fs path stamp :
  keeps_keys (load_telco_data fs path stamp).
Proof.
  apply keeps_keys_except_reraise.
  apply keeps_keys_bind; [apply keeps_keys_execute | intros _].
  apply keeps_keys_bind; [apply keeps_keys_open_csv | intros rows].
  apply keeps_keys_bind; [apply keeps_keys_fill_buffer | intros buffer].
  cbv zeta.
  match goal with
  | |- context [if ?c then _ else _] => destruct c
  end; [apply keeps_keys_ret |].
  apply keeps_keys_bind; [apply keeps_keys_execute | intros _].
  apply keeps_keys_bind; [apply keeps_keys_execute | intros _].
  apply keeps_keys_bind; [apply keeps_keys_drop_existing_indexes | intros _].
  apply keeps_keys_bind; [apply keeps_keys_execute | intros inserted].
  apply keeps_keys_bind; [apply keeps_keys_recreate_indexes | intros _].
  apply keeps_keys_bind; [apply keeps_keys_commit | intros _].
  apply keeps_keys_ret.
Qed.

Lemma keeps_keys_check_missing state :
  keeps_keys (check_missing psycopg2_cursor state).
Proof.
  apply keeps_keys_bind.
  - apply keeps_keys_bind; [apply keeps_keys_execute |].
    intros r. apply keeps_keys_ret.
  - intros [[[[c t] e] n]|].
    + cbv zeta;
      match goal with
      | |- context [if ?c then _ else _] => destruct c
      end; apply keeps_keys_ret.
    + apply keeps_keys_bind; [apply keeps_keys_logger_warning |].
      intros _. apply keeps_keys_ret.
Qed.

Lemma keeps_keys_check_future state :
  keeps_keys (check_future psycopg2_cursor state).
Proof.
  apply keeps_keys_bind.
  - apply keeps_keys_bind; [apply keeps_keys_execute |].
    intros r. apply keeps_keys_ret.
  - intros [v|].
    + cbv zeta;
      match goal with
      | |- context [if ?c then _ else _] => destruct c
      end; apply keeps_keys_ret.
    + apply keeps_keys_bind; [apply keeps_keys_logger_warning |].
      intros _. apply keeps_keys_ret.
Qed.

Lemma keeps_keys_run_data_quality_checks :
  keeps_keys (run_data_quality_checks psycopg2_cursor).
Proof.
  intros w r w' Hrun Hw. unfold run_data_quality_checks in Hrun.
  match type of Hrun with
  | match ?m w with _ => _ end = _ =>
      assert (Hm : keeps_keys m); [| destruct (m w) as [[a|e] w1] eqn:Hmw]
  end.
  - apply keeps_keys_bind; [apply keeps_keys_check_missing | intros s1].
    apply keeps_keys_bind; [apply keeps_keys_check_future | intros s2].
    destruct (snd s2); [apply keeps_keys_ret |].
    apply keeps_keys_bind; [apply keeps_keys_logger_warning |].
    intros _. apply keeps_keys_ret.
  - injection Hrun as <- <-. apply (Hm w _ w1 Hmw Hw).
  - injection Hrun as <- <-. apply (Hm w _ w1 Hmw Hw).
Qed.

Lemma keeps_keys_create_pipeline_analytics_views :
  keeps_keys create_pipeline_analytics_views.
Proof.
  apply keeps_keys_except_reraise.
  apply keeps_keys_bind; [apply keeps_keys_log_and_run_sql | intros _].
  apply keeps_keys_bind; [apply keeps_keys_log_and_run_sql | intros _].
  apply keeps_keys_commit.
Qed.

Lemma keeps_keys_apply_pipeline_data_retention settings :
  keeps_keys (apply_pipeline_data_retention settings).
Proof.
  unfold apply_pipeline_data_retention.
  destruct (negb _); [apply keeps_keys_ret |].
  apply keeps_keys_except_reraise.
  apply keeps_keys_bind; [apply keeps_keys_log_and_run_sql | intros _].
  apply keeps_keys_commit.
Qed.

Lemma keeps_keys_snd {A} (m : M A) w :
  keeps_keys m -> keyed w -> keyed (snd (m w)).
Proof.
  intros Hm Hw. destruct (m w) as [r w'] eqn:Hmw. apply (Hm w r w' Hmw Hw).
Qed.

(** X6. The key of the table is an invariant of the pipeline. If no
    identity occurs twice in the table and every row carries the
    identity the stored function gives to its five business fields, in
    the durable store and in the open transaction, then the same holds
    after the DDL setup, after a load, after the quality checks, after
    the views stage and after the retention stage, and after a whole
    run, whether they return or raise, whatever the file holds and
    whatever fails on the way. *)
Theorem pipeline_keeps_keys :
  forall (settings : Settings) (fs : FileSystem) (path : string) (stamp : Z)
         (w : World),
    keyed w ->
    keyed (snd (setup_pipeline_db_structure w)) /\
    keyed (snd (load_telco_data fs path stamp w)) /\
    keyed (snd (run_data_quality_checks psycopg2_cursor w)) /\
    keyed (snd (create_pipeline_analytics_views w)) /\
    keyed (snd (apply_pipeline_data_retention settings w)) /\
    keyed (snd (run_etl_process settings fs path stamp w)).
Proof.
  intros settings fs path stamp w Hw.
  split; [apply keeps_keys_snd;
          [apply keeps_keys_setup_pipeline_db_structure | exact Hw] |].
  split; [apply keeps_keys_snd;
          [apply keeps_keys_load_telco_data | exact Hw] |].
  split; [apply keeps_keys_snd;
          [apply keeps_keys_run_data_quality_checks | exact Hw] |].
  split; [apply keeps_keys_snd;
          [apply keeps_keys_create_pipeline_analytics_views | exact Hw] |].
  split; [apply keeps_keys_snd;
          [apply keeps_keys_apply_pipeline_data_retention | exact Hw] |].
  unfold run_etl_process.
  match goal with
  | |- keyed (snd (match ?m w with _ => _ end)) =>
      assert (Hm : keeps_keys m); [| destruct (m w) as [[a|e] w1] eqn:Hmw]
  end.
  - apply keeps_keys_bind; [apply keeps_keys_lift | intros _].
    apply keeps_keys_managed_db_connection.
    apply keeps_keys_bind;
      [apply keeps_keys_setup_pipeline_db_structure | intros _].
    apply keeps_keys_bind; [apply keeps_keys_load_telco_data | intros _].
    apply keeps_keys_bind;
      [apply keeps_keys_run_data_quality_checks | intros dq].
    apply keeps_keys_bind.
    + destruct (negb _); [apply keeps_keys_send_alert | apply keeps_keys_ret].
    + intros _.
      apply keeps_keys_bind;
        [apply keeps_keys_create_pipeline_analytics_views | intros _].
      apply keeps_keys_apply_pipeline_data_retention.
  - apply (Hm w _ w1 Hmw Hw).
  - pose proof (Hm w _ w1 Hmw Hw) as Hk. destruct e; exact Hk.
Qed.

End KeyInvariant.

(** ** The verdict of the quality checker *)

Section Verdict.

Context `{Server}.

Lemma in_last_day_spec now r : in_last_day now r = true <-> recent now r.
Proof.
  unfold in_last_day, recent, sql_where, sql_and, sql_ge, sql_lt.
  destruct (event_start_time (staged r)) as [t|].
  - destruct (minus_days now 1 <=? t)%Z eqn:Hge;
      destruct (t <? now)%Z eqn:Hlt;
      try apply Z.leb_le in Hge; try apply Z.leb_gt in Hge;
      try apply Z.ltb_lt in Hlt; try apply Z.ltb_ge in Hlt;
      (split; [try discriminate; eauto |
               intros (t' & [= <-] & Hge' & Hlt'); try reflexivity; lia]).
  - split; [discriminate | intros (t' & Hn & _); discriminate].
Qed.

Lemma in_future_spec now r : in_future now r = true <-> future_dated now r.
Proof.
  unfold in_future, future_dated, sql_where, sql_gt, sql_lt.
  destruct (event_start_time (staged r)) as [t|].
  - destruct (now <? t)%Z eqn:Hlt.
    + apply Z.ltb_lt in Hlt. split; [eauto | reflexivity].
    + apply Z.ltb_ge in Hlt. split; [discriminate |].
      intros (t' & [= <-] & Hlt'). lia.
  - split; [discriminate | intros (t' & Hn & _); discriminate].
Qed.

(** The sum of [CASE WHEN v IS NULL THEN 1 ELSE 0 END] is positive
    exactly when some row has a null there. *)
Lemma fold_case_when_null {A B} (f : A -> option B) (l : list A) :
  (0 <= fold_right Z.add 0 (map (fun r => case_when_null (f r)) l))%Z /\
  ((0 < fold_right Z.add 0 (map (fun r => case_when_null (f r)) l))%Z <->
   exists r, In r l /\ f r = None).
Proof.
  induction l as [|x l [IHpos IH]]; cbn [map fold_right].
  - split; [lia |]. split; [lia | intros (r & [] & _)].
  - destruct (f x) eqn:Hx; cbn [case_when_null].
    + split; [lia |]. rewrite Z.add_0_l, IH. split.
      * intros (r & Hr & Hn). exists r. split; [right; exact Hr | exact Hn].
      * intros (r & [<- | Hr] & Hn); [congruence | eauto].
    + split; [lia |]. split; [| lia].
      intros _. exists x. split; [left; reflexivity | exact Hx].
Qed.

Lemma sum_case_when_null {A B} (f : A -> option B) (l : list A) :
  (0 <? coalesce (sql_sum (map (fun r => case_when_null (f r)) l)) 0)%Z = true
  <-> exists r, In r l /\ f r = None.
Proof.
  rewrite Z.ltb_lt.
  destruct l as [|x l].
  - cbn. split; [lia | intros (r & [] & _)].
  - change (coalesce (sql_sum (map (fun r => case_when_null (f r)) (x :: l))) 0%Z)
      with (fold_right Z.add 0%Z
              (map (fun r => case_when_null (f r)) (x :: l))).
    apply fold_case_when_null.
Qed.

Lemma count_positive {A} (l : list A) :
  (0 <? sql_count l)%Z = true <-> exists r, In r l.
Proof.
  rewrite Z.ltb_lt. unfold sql_count. destruct l as [|x l]; cbn [List.length].
  - split; [lia | intros (r & [])].
  - split; [intros _; exists x; left; reflexivity | lia].
Qed.

Lemma missing_flag_spec now rows :
  missing_flag now rows = true <->
  exists r, In r rows /\ recent now r /\
            (customer_id (staged r) = None \/ event_type (staged r) = None).
Proof.
  unfold missing_flag. cbv zeta.
  rewrite andb_true_iff, !orb_true_iff, count_positive.
  rewrite !sum_case_when_null. split.
  - intros (_ & [[(r & Hr & Hn) | (r & Hr & Hn)] | (r & Hr & Hn)]);
      apply filter_In in Hr as [Hr Hrec].
    + exists r. rewrite <- in_last_day_spec. auto.
    + apply in_last_day_has_time in Hrec as [t Ht]. congruence.
    + exists r. rewrite <- in_last_day_spec. auto.
  - intros (r & Hr & Hrec & Hn). apply in_last_day_spec in Hrec.
    assert (Hin : In r (List.filter (in_last_day now) rows))
      by (apply filter_In; auto).
    split; [eauto |]. destruct Hn as [Hn | Hn]; eauto.
Qed.

Lemma future_count_positive now rows :
  (0 <? sql_count (List.filter (in_future now) rows))%Z = true <->
  exists r, In r rows /\ future_dated now r.
Proof.
  rewrite count_positive. split.
  - intros (r & Hr). apply filter_In in Hr as [Hr Hf].
    exists r. split; [exact Hr | apply in_future_spec, Hf].
  - intros (r & Hr & Hf). exists r. apply filter_In.
    split; [exact Hr | apply in_future_spec, Hf].
Qed.

(** The two checks on a healthy connection: each query is answered
    from the table and nothing is written. *)
Lemma check_missing_healthy state w rows :
  healthy w ->
  table (working w) = Some rows ->
  let now := current_timestamp w in
  let recent_rows := List.filter (in_last_day now) rows in
  check_missing psycopg2_cursor state w
  = (Ok (if missing_flag now rows
         then (false,
               (snd state ++
                [missing_values_issue
                   (coalesce
                      (sql_sum (map (fun r => case_when_null (customer_id (staged r)))
                                    recent_rows)) 0%Z)
                   0
                   (coalesce
                      (sql_sum (map (fun r => case_when_null (event_type (staged r)))
                                    recent_rows)) 0%Z)
                   (sql_count recent_rows)])%list)
         else state),
     set_db (working w) (temp_tables w)
       (set_faults (tl (faults w)) (sent SQL_CHECK_MISSING_VALUES w))).
Proof.
  intros Hw Htable now recent_rows.
  unfold check_missing, psycopg2_cursor.
  cbn [execute_missing_values]. unfold bind.
  rewrite (execute_healthy _ w Hw).
  unfold run_statement, SQL_CHECK_MISSING_VALUES.
  rewrite Htable. unfold ret at 1.
  unfold fetch4, one_row, check_missing_values. cbn [fetchone].
  match goal with
  | |- (if ?c then _ else _) _ = _ =>
      change c with (missing_flag now rows)
  end.
  rewrite (missing_time_zero (current_timestamp w) rows).
  change (coalesce (Some (sql_count
            (List.filter (in_last_day (current_timestamp w)) rows))) 0%Z)
    with (sql_count recent_rows).
  fold now. fold recent_rows.
  destruct (missing_flag now rows); reflexivity.
Qed.

Lemma check_future_healthy state w rows :
  healthy w ->
  table (working w) = Some rows ->
  let future_count :=
    sql_count (List.filter (in_future (current_timestamp w)) rows) in
  check_future psycopg2_cursor state w
  = (Ok (if (0 <? future_count)%Z
         then (false, (snd state ++ [future_dates_issue future_count])%list)
         else state),
     set_db (working w) (temp_tables w)
       (set_faults (tl (faults w)) (sent SQL_CHECK_FUTURE_DATES w))).
Proof.
  intros Hw Htable future_count.
  unfold check_future, psycopg2_cursor.
  cbn [execute_future_dates]. unfold bind.
  rewrite (execute_healthy _ w Hw).
  unfold run_statement, SQL_CHECK_FUTURE_DATES.
  rewrite Htable. unfold ret at 1.
  unfold fetch1, one_row, check_future_dates. cbn [fetchone].
  change (coalesce (Some (sql_count
            (List.filter (in_future (current_timestamp w)) rows))) 0%Z)
    with future_count.
  destruct (0 <? future_count)%Z; reflexivity.
Qed.

(** The checker on a healthy connection, as a whole. *)
Lemma run_data_quality_checks_healthy w rows :
  healthy w ->
  table (working w) = Some rows ->
  let now := current_timestamp w in
  let recent_rows := List.filter (in_last_day now) rows in
  let m_cid :=
    coalesce (sql_sum (map (fun r => case_when_null (customer_id (staged r)))
                           recent_rows)) 0%Z in
  let m_etype :=
    coalesce (sql_sum (map (fun r => case_when_null (event_type (staged r)))
                           recent_rows)) 0%Z in
  let future_count := sql_count (List.filter (in_future now) rows) in
  let issues :=
    ((if missing_flag now rows
      then [missing_values_issue m_cid 0 m_etype (sql_count recent_rows)]
      else []) ++
     (if (0 <? future_count)%Z then [future_dates_issue future_count]
      else []))%list in
  exists w',
    run_data_quality_checks psycopg2_cursor w
    = (Ok (negb (missing_flag now rows) && negb (0 <? future_count)%Z, issues),
       w') /\
    working w' = working w /\ committed w' = committed w /\
    temp_tables w' = temp_tables w /\ healthy w' /\
    trace w' = (trace w ++ [SQL_CHECK_MISSING_VALUES; SQL_CHECK_FUTURE_DATES])%list /\
    current_timestamp w' = current_timestamp w /\
    alerts w' = alerts w /\
    warnings w'
    = match issues with
      | [] => warnings w
      | _ => (warnings w ++
              [("Telco Billings DQ Issues: " ++ join "; " issues)%string])%list
      end.
Proof.
  intros Hw Htable now recent_rows m_cid m_etype future_count issues.
  pose proof (healthy_after_statement SQL_CHECK_MISSING_VALUES
                (working w) (temp_tables w) w Hw) as Hw1.
  set (w1 := set_db (working w) (temp_tables w)
               (set_faults (tl (faults w)) (sent SQL_CHECK_MISSING_VALUES w)))
    in Hw1.
  pose proof (healthy_after_statement SQL_CHECK_FUTURE_DATES
                (working w1) (temp_tables w1) w1 Hw1) as Hw2.
  set (w2 := set_db (working w1) (temp_tables w1)
               (set_faults (tl (faults w1)) (sent SQL_CHECK_FUTURE_DATES w1)))
    in Hw2.
  assert (Hrun :
    run_data_quality_checks psycopg2_cursor w
    = (Ok (negb (missing_flag now rows) && negb (0 <? future_count)%Z, issues),
       match issues with
       | [] => w2
       | _ => warned ("Telco Billings DQ Issues: " ++ join "; " issues) w2
       end)).
  { unfold run_data_quality_checks, bind.
    rewrite (check_missing_healthy (true, []) w rows Hw Htable).
    fold w1. fold now. fold recent_rows. fold m_cid. fold m_etype.
    rewrite (check_future_healthy _ w1 rows Hw1 Htable).
    fold w2. change (current_timestamp w1) with now. fold future_count.
    subst issues.
    destruct (missing_flag now rows); destruct (0 <? future_count)%Z;
      reflexivity. }
  match type of Hrun with
  | _ = (_, ?x) => exists x
  end.
  split; [exact Hrun |]. clear Hrun.
  destruct issues as [|i rest]; cbn;
    (repeat split; try reflexivity; try apply Hw2;
     rewrite <- app_assoc; reflexivity).
Qed.

(** X7. The verdict of the quality checker. On a healthy connection to
    a database that has the table, the checker returns after sending
    its two queries and nothing else, and leaves the stores as they
    were. The verdict is good exactly when no issue is listed, and it is
    bad exactly when some row whose event time lies in the last day has
    no customer or no event type, or some row has an event time after
    the current time. *)
Theorem quality_verdict :
  forall (w : World) (rows : list UsageRow),
    healthy w ->
    table (working w) = Some rows ->
    exists verdict issues w',
      run_data_quality_checks psycopg2_cursor w = (Ok (verdict, issues), w') /\
      working w' = working w /\ committed w' = committed w /\
      trace w' = (trace w ++ [SQL_CHECK_MISSING_VALUES;
                              SQL_CHECK_FUTURE_DATES])%list /\
      (verdict = true <-> issues = []) /\
      (verdict = false <->
       (exists r, In r rows /\ recent (current_timestamp w) r /\
                  (customer_id (staged r) = None \/
                   event_type (staged r) = None)) \/
       (exists r, In r rows /\ future_dated (current_timestamp w) r)).
Proof.
  intros w rows Hw Htable.
  destruct (run_data_quality_checks_healthy w rows Hw Htable)
    as (w' & Hrun & Hwork & Hdur & _ & _ & Htrace & _).
  do 3 eexists. split; [exact Hrun |].
  split; [exact Hwork |]. split; [exact Hdur |]. split; [exact Htrace |].
  rewrite <- missing_flag_spec, <- future_count_positive.
  destruct (missing_flag (current_timestamp w) rows);
    destruct (0 <? sql_count _)%Z; cbn;
    (split; [split; intros; first [reflexivity | discriminate] |]);
    (split; [intros; first [discriminate | auto] |
             intros [? | ?]; first [reflexivity | discriminate]]).
Qed.

(** A row that carries the identity of its fields has a customer and
    an event type. *)
Lemma well_keyed_no_missing now rows :
  well_keyed rows -> missing_flag now rows = false.
Proof.
  intros [_ Hid]. destruct (missing_flag now rows) eqn:Hflag; [| reflexivity].
  apply missing_flag_spec in Hflag as (r & Hr & _ & Hnull).
  apply Hid, row_uuid_complete in Hr as [(Hc & _ & He & _) _].
  destruct Hc as [c Hc], He as [e He]. destruct Hnull; congruence.
Qed.

(** X8. The missing-values check cannot fire on a table filled by the
    pipeline. When every row of the table carries the identity of its
    five business fields, which the pipeline maintains, the checker on
    a healthy connection reports at most one issue, the count of
    future-dated events, and its verdict is bad exactly when some row
    has an event time after the current time. *)
Theorem keyed_table_passes_missing_check :
  forall (w : World) (rows : list UsageRow),
    healthy w ->
    table (working w) = Some rows ->
    well_keyed rows ->
    exists verdict issues w',
      run_data_quality_checks psycopg2_cursor w = (Ok (verdict, issues), w') /\
      (issues = [] \/
       issues = [future_dates_issue
                   (sql_count (List.filter (in_future (current_timestamp w))
                                           rows))]) /\
      (verdict = false <->
       exists r, In r rows /\ future_dated (current_timestamp w) r).
Proof.
  intros w rows Hw Htable Hkeys.
  destruct (run_data_quality_checks_healthy w rows Hw Htable)
    as (w' & Hrun & _).
  rewrite (well_keyed_no_missing _ _ Hkeys) in Hrun.
  do 3 eexists. split; [exact Hrun |].
  rewrite <- future_count_positive.
  destruct (0 <? sql_count _)%Z; cbn.
  - split; [right; reflexivity | tauto].
  - split; [left; reflexivity |]. split; discriminate.
Qed.

End Verdict.

(** ** A quality query that fails *)

Section FailedCheck.

Context `{Server}.

(** A statement that raises leaves the transaction in the failed
    state, and a statement sent in that state is refused. *)
Lemma execute_raise_aborted s w e w' :
  execute s w = (Raise e, w') -> aborted w' = true.
Proof.
  unfold execute, round_trip. cbn.
  destruct (aborted w) eqn:Hab.
  - intros [= <- <-]. exact Hab.
  - destruct (match faults w with [] => None | f :: _ => f end).
    + intros [= <- <-]. reflexivity.
    + cbn. destruct (run_statement _ s _) as [err | [r0 [st tmp]]];
        [intros [= <- <-]; reflexivity | discriminate].
Qed.

Lemma execute_aborted s w :
  aborted w = true ->
  execute s w = (Raise (server_error ("25P02", "")), sent s w).
Proof. intros Hab. unfold execute. cbn. rewrite Hab. reflexivity. Qed.

Lemma check_missing_cases state w r w' :
  check_missing psycopg2_cursor state w = (r, w') ->
  match r with
  | Ok s =>
      s = state \/
      exists a b c d,
        s = (false, (snd state ++ [missing_values_issue a b c d])%list)
  | Raise _ => aborted w' = true
  end.
Proof.
  unfold check_missing, psycopg2_cursor. cbn [execute_missing_values].
  unfold bind. destruct (execute _ w) as [[a|e] w1] eqn:Hx.
  - unfold ret at 1. destruct (fetch4 a) as [[[[c t] e] n]|].
    + cbv zeta.
      match goal with
      | |- context [if ?c then _ else _] => destruct c
      end; intros [= <- <-]; [right; eauto | left; reflexivity].
    + intros [= <- <-]. left. reflexivity.
  - intros [= <- <-]. apply (execute_raise_aborted _ _ _ _ Hx).
Qed.

Lemma check_future_cases state w r w' :
  check_future psycopg2_cursor state w = (r, w') ->
  match r with
  | Ok s =>
      s = state \/
      exists k, s = (false, (snd state ++ [future_dates_issue k])%list)
  | Raise _ => aborted w' = true
  end.
Proof.
  unfold check_future, psycopg2_cursor. cbn [execute_future_dates].
  unfold bind. destruct (execute _ w) as [[a|e] w1] eqn:Hx.
  - unfold ret at 1. destruct (fetch1 a) as [v|].
    + cbv zeta.
      match goal with
      | |- context [if ?c then _ else _] => destruct c
      end; intros [= <- <-]; [right; eauto | left; reflexivity].
    + intros [= <- <-]. left. reflexivity.
  - intros [= <- <-]. apply (execute_raise_aborted _ _ _ _ Hx).
Qed.

(** An issue that reports an exception is not one of the two anomaly
    reports: the checker lists it only when a query raised, and then the
    transaction is in the failed state. *)
Lemma exception_issue_aborted w v e w1 :
  run_data_quality_checks psycopg2_cursor w
  = (Ok (v, ["DQ Exception: " ++ str e]), w1) ->
  v = false /\ aborted w1 = true.
Proof.
  unfold run_data_quality_checks, bind.
  destruct (check_missing psycopg2_cursor (true, []) w)
    as [[s1|e1] wa] eqn:H1; apply check_missing_cases in H1.
  - destruct (check_future psycopg2_cursor s1 wa)
      as [[s2|e2] wb] eqn:H2; apply check_future_cases in H2.
    + assert (Hno : snd s2 <> ["DQ Exception: " ++ str e]).
      { destruct H1 as [-> | (a & b & c & d & ->)];
          destruct H2 as [-> | (k & ->)]; cbn; intros Heq;
          try discriminate;
          injection Heq as Heq; try discriminate Heq. }
      destruct (snd s2) as [|i rest] eqn:Hs2;
        unfold logger_warning, ret; intros [= Hs _];
        rewrite Hs in Hs2; cbn in Hs2;
        [discriminate | rewrite <- Hs2 in Hno; contradiction].
    + intros [= <- _ <-]. auto.
  - intros [= <- _ <-]. auto.
Qed.

(** X9. A failure inside the quality checks still ends the run. The
    checker swallows the exception of a query that fails and reports it
    as an issue, but it leaves the transaction in the failed state; so
    the first statement of the views stage is refused and the run exits
    with status 1, after two alerts: the quality alert carrying the
    exception, then the critical database alert. No view statement
    succeeds, the views stage sends only its first statement, and what
    the load committed stays. *)
Theorem failed_quality_query_ends_the_run :
  forall (settings : Settings) (fs : FileSystem) (path : string) (stamp : Z)
         (w wc ws wl wq : World) (b : bool) (n : Z) (v : bool) (e : exn),
    validate_csv_structure fs path = Ok b ->
    connect w = (Ok tt, wc) ->
    setup_pipeline_db_structure wc = (Ok tt, ws) ->
    load_telco_data fs path stamp ws = (Ok n, wl) ->
    run_data_quality_checks psycopg2_cursor wl
    = (Ok (v, ["DQ Exception: " ++ str e]), wq) ->
    exists code w',
      run_etl_process settings fs path stamp w = (1%Z, w') /\
      alerts w'
      = (alerts wq ++
         [("Telco DWH ETL: Data Quality Issues Found",
           [("DQ Exception: " ++ str e)%string]);
          ("Telco ETL Critical Failure: Database Error",
           [("DB Error: " ++ code ++ ". Check logs.")%string])])%list /\
      trace w' = (trace wq ++ [SQL_CREATE_USAGE_DISTRIBUTION_VIEW])%list /\
      committed w' = committed wl /\
      working w' = committed wl.
Proof.
  intros settings fs path stamp w wc ws wl wq b n v e Hv Hc Hs Hl Hq.
  destruct (exception_issue_aborted _ _ _ _ Hq) as [-> Hab].
  pose proof (run_data_quality_checks_durable _ _ _ Hq) as Hdur.
  exists "25P02".
  unfold run_etl_process, bind, lift, managed_db_connection.
  rewrite Hv, Hc, Hs, Hl, Hq. cbn [fst snd negb]. unfold send_alert.
  unfold create_pipeline_analytics_views, except_reraise, log_and_run_sql, bind.
  rewrite execute_aborted by exact Hab.
  unfold server_error. cbn [fst snd pgcode_text].
  eexists. split; [reflexivity |].
  cbn. rewrite <- app_assoc. auto.
Qed.

End FailedCheck.

(** ** A file that is refused *)

Section RefusedFile.

Context `{Server}.

(** X10. A file that fails the validation never reaches the database.
    When the validator raises, the run exits with status 1 and the only
    thing it does is one critical alert, under the subject of the
    handler that catches the error: the message of the validator under
    the subject for a missing input file or for a validation error
    ([ValueError], which a decoding error is too), the name of the class
    of the error under the subject for an unexpected error. No
    connection is opened and no statement is sent. The error is the
    validator's own when the path does not exist or a row among the
    first five has the wrong width, and otherwise the error of [open] or
    of the fetch that failed. *)
Theorem invalid_file_never_reaches_database :
  forall (settings : Settings) (fs : FileSystem) (path : string) (stamp : Z)
         (w : World) (e : exn),
    validate_csv_structure fs path = Raise e ->
    run_etl_process settings fs path stamp w
    = (1%Z,
       match e with
       | FileNotFoundError msg =>
           alerted "Telco ETL Critical Failure: Input File Missing" [msg] w
       | ValueError msg =>
           alerted "Telco ETL Critical Failure: Data Validation Error" [msg] w
       | Psycopg2Error pgcode _ =>
           alerted "Telco ETL Critical Failure: Database Error"
             ["DB Error: " ++ pgcode_text pgcode ++ ". Check logs."] w
       | OtherError type_name _ =>
           alerted "Telco ETL Critical Failure: Unexpected System Error"
             ["Error: " ++ type_name] w
       end) /\
    match fs !! path with
    | None =>
        e = FileNotFoundError
              ("CSV Validation Error: File '" ++ path ++ "' not found.")
    | Some (Unopenable e0) => e = e0
    | Some (Readable rows failure) =>
        (exists k row,
            rows !! k = Some row /\
            (k < 5)%nat /\
            List.length row <> EXPECTED_CSV_COLUMNS /\
            e = ValueError (validation_message path k row)) \/
        failure = Some e
    end.
Proof.
  intros settings fs path stamp w e Hv. split.
  - unfold run_etl_process, bind, lift. rewrite Hv.
    destruct e; reflexivity.
  - unfold validate_csv_structure in Hv.
    destruct (fs !! path) as [[e0|rows failure]|].
    + congruence.
    + apply (validate_rows_raises path rows failure 0 e Hv).
    + congruence.
Qed.

End RefusedFile.

(** ** The DDL setup on a database that is set up *)

Section SetupAgain.

Context `{Server}.

Lemma set_uuid_function_same st :
  uuid_function st = true -> set_uuid_function true st = st.
Proof. destruct st. cbn. intros ->. reflexivity. Qed.

Lemma create_index_if_not_exists_same name column w :
  healthy w ->
  is_Some (table (working w)) ->
  relation_exists (working w) name = true ->
  exists w',
    log_and_run_sql (CreateIndexIfNotExists name column) w = (Ok tt, w') /\
    healthy w' /\ working w' = working w.
Proof.
  intros Hw [rows Hrows] Hrel. unfold log_and_run_sql, bind.
  destruct (execute_step (CreateIndexIfNotExists name column) w (command (-1))
              (working w) (temp_tables w) Hw) as (w' & -> & Hw' & W & _).
  { unfold run_statement. rewrite Hrows, Hrel. reflexivity. }
  exists w'. auto.
Qed.

(** X11. The DDL setup is safe to repeat. On a healthy connection to a
    database in which the table exists, the identity function is
    defined and each of the four index names designates a relation
    (which is what a setup that returned leaves), the setup returns and
    the store is as it was: no relation is created, replaced or
    dropped, the rows of the table are untouched; the setup only
    commits. *)
Theorem setup_pipeline_db_structure_set_up :
  forall (w : World),
    healthy w ->
    set_up (working w) ->
    exists w',
      setup_pipeline_db_structure w = (Ok tt, w') /\
      working w' = working w /\ committed w' = working w /\
      healthy w'.
Proof.
  intros w Hw (Htable & Hfun & Hrel).
  unfold setup_pipeline_db_structure, except_reraise, bind.
  unfold log_and_run_sql at 1 2. unfold bind.
  destruct (execute_step SQL_CREATE_MAIN_TABLE w (command (-1))
              (working w) (temp_tables w) Hw) as (w1 & -> & Hw1 & W1 & _).
  { unfold run_statement, SQL_CREATE_MAIN_TABLE.
    assert (Hmain : relation_exists (working w) main_table_name = true).
    { unfold relation_exists. destruct Htable as [rows ->].
      destruct (indexes (working w) !! main_table_name);
        destruct (views (working w) !! main_table_name); reflexivity. }
    rewrite Hmain. reflexivity. }
  unfold ret at 1.
  destruct (execute_step SQL_GENERATE_UUID_FUNCTION w1 (command (-1))
              (working w) (temp_tables w1) Hw1) as (w2 & -> & Hw2 & W2 & _).
  { unfold run_statement, SQL_GENERATE_UUID_FUNCTION.
    rewrite W1, (set_uuid_function_same _ Hfun). reflexivity. }
  unfold ret at 1.
  unfold NON_PK_INDEXES_TO_CREATE.
  cbn [for_each snd]. unfold bind.
  destruct (create_index_if_not_exists_same
              "idx_billing_customer_id" "customer_id" w2 Hw2)
    as (w3 & -> & Hw3 & W3);
    [rewrite W2; exact Htable | rewrite W2; apply (Hrel _ "customer_id");
                                simpl; tauto |].
  destruct (create_index_if_not_exists_same
              "idx_billing_event_time" "event_start_time" w3 Hw3)
    as (w4 & -> & Hw4 & W4);
    [rewrite W3, W2; exact Htable
    | rewrite W3, W2; apply (Hrel _ "event_start_time"); simpl; tauto |].
  destruct (create_index_if_not_exists_same
              "idx_billing_event_type" "event_type" w4 Hw4)
    as (w5 & -> & Hw5 & W5);
    [rewrite W4, W3, W2; exact Htable
    | rewrite W4, W3, W2; apply (Hrel _ "event_type"); simpl; tauto |].
  destruct (create_index_if_not_exists_same
              "idx_billing_month" "month" w5 Hw5)
    as (w6 & -> & Hw6 & W6);
    [rewrite W5, W4, W3, W2; exact Htable
    | rewrite W5, W4, W3, W2; apply (Hrel _ "month"); simpl; tauto |].
  unfold ret at 1. rewrite (commit_healthy w6 Hw6).
  eexists. split; [reflexivity |]. cbn.
  rewrite W6, W5, W4, W3, W2.
  split; [reflexivity |]. split; [reflexivity |].
  destruct Hw6 as [Hab Hf]. split; cbn; [exact Hab |].
  apply quiet_script_tl, Hf.
Qed.

End SetupAgain.

(** ** The views stage *)

Section Views.

Context `{Server}.

Lemma columns_kept_refl columns : columns_kept columns columns = true.
Proof.
  induction columns as [|c rest IH]; [reflexivity |].
  cbn [columns_kept]. rewrite !String.eqb_refl, IH. reflexivity.
Qed.

Lemma create_view_healthy name definition w :
  healthy w ->
  is_Some (table (working w)) ->
  indexes (working w) !! name = None ->
  String.eqb name main_table_name = false ->
  replaceable (working w) name definition ->
  exists w',
    log_and_run_sql (CreateView name definition) w = (Ok tt, w') /\
    healthy w' /\
    working w'
    = set_views (<[name := definition]> (views (working w))) (working w).
Proof.
  intros Hw [rows Hrows] Hix Hname Hrep. unfold log_and_run_sql, bind.
  destruct (execute_step (CreateView name definition) w (command (-1))
              (set_views (<[name := definition]> (views (working w)))
                         (working w))
              (temp_tables w) Hw) as (w' & -> & Hw' & W & _).
  { unfold run_statement. rewrite Hrows.
    destruct (views (working w) !! name) as [old|] eqn:Hv.
    - rewrite (Hrep old Hv). reflexivity.
    - unfold relation_exists. rewrite Hix, Hv, Hrows, Hname. reflexivity. }
  exists w'. auto.
Qed.

(** A view statement that succeeds found no view it could not
    replace. *)
Lemma create_view_ok name definition w u w' :
  log_and_run_sql (CreateView name definition) w = (Ok u, w') ->
  replaceable (working w) name definition /\
  working w'
  = set_views (<[name := definition]> (views (working w))) (working w).
Proof.
  unfold log_and_run_sql. intros Hx.
  apply bind_ok in Hx as (r & w1 & Hx & [= _ <-]).
  apply execute_ok in Hx as (st & tmp & Hrun & <- & _).
  unfold run_statement in Hrun. unfold replaceable.
  destruct (table (working w)); [| discriminate].
  destruct (views (working w) !! name) as [old|].
  - destruct (columns_kept _ _) eqn:Hkept; [| discriminate].
    injection Hrun as _ <- _. split; [| reflexivity].
    intros old' [= <-]. exact Hkept.
  - destruct (relation_exists (working w) name); [discriminate |].
    injection Hrun as _ <- _. split; [| reflexivity].
    intros old' Hold. discriminate.
Qed.

(** The stage on a healthy connection. *)
Lemma create_pipeline_analytics_views_healthy w :
  healthy w ->
  is_Some (table (working w)) ->
  indexes (working w) !! "analytics_usage_distribution" = None ->
  indexes (working w) !! "analytics_monthly_trends" = None ->
  replaceable (working w) "analytics_usage_distribution" UsageDistribution ->
  replaceable (working w) "analytics_monthly_trends" MonthlyTrends ->
  exists w',
    create_pipeline_analytics_views w = (Ok tt, w') /\
    healthy w' /\ committed w' = working w' /\
    working w'
    = set_views
        (<["analytics_monthly_trends" := MonthlyTrends]>
           (<["analytics_usage_distribution" := UsageDistribution]>
              (views (working w))))
        (working w).
Proof.
  intros Hw Htable Hix1 Hix2 Hrep1 Hrep2.
  unfold create_pipeline_analytics_views, except_reraise, bind.
  destruct (create_view_healthy "analytics_usage_distribution"
              UsageDistribution w Hw Htable Hix1 eq_refl Hrep1)
    as (w1 & Hrun1 & Hw1 & W1).
  unfold SQL_CREATE_USAGE_DISTRIBUTION_VIEW. rewrite Hrun1.
  destruct (create_view_healthy "analytics_monthly_trends"
              MonthlyTrends w1 Hw1) as (w2 & Hrun2 & Hw2 & W2);
    [rewrite W1; exact Htable | rewrite W1; exact Hix2 | reflexivity | |].
  { unfold replaceable. rewrite W1. cbn [views set_views].
    rewrite lookup_insert_ne by discriminate. exact Hrep2. }
  unfold SQL_CREATE_MONTHLY_TRENDS_VIEW. rewrite Hrun2.
  rewrite (commit_healthy w2 Hw2).
  eexists. split; [reflexivity |].
  split; [| split; [reflexivity |]].
  - destruct Hw2 as [Hab Hf]. split; cbn; [exact Hab |].
    apply quiet_script_tl, Hf.
  - cbn. rewrite W2, W1. reflexivity.
Qed.

(** X12. The views stage creates or replaces exactly its two views.
    On a healthy connection to a database that has the table, no index
    under either view name and, under each of the two names, no view or
    one whose columns the new definition keeps (same names and types, in
    order, at the head of its own), the stage returns; afterwards the
    two names designate the usage-distribution and the monthly-trends
    view, every other view, the rows of the table, the function and the
    indexes are as before, and the result is durable; run again, the
    stage leaves the store as it is. On any connection, if a view under
    one of the two names has columns that the new definition does not
    keep (the monthly-trends view under the name of the other, say), the
    stage raises and the transaction is rolled back. *)
Theorem create_pipeline_analytics_views_spec :
  forall (w : World),
    (healthy w ->
     is_Some (table (working w)) ->
     indexes (working w) !! "analytics_usage_distribution" = None ->
     indexes (working w) !! "analytics_monthly_trends" = None ->
     replaceable (working w) "analytics_usage_distribution"
       UsageDistribution ->
     replaceable (working w) "analytics_monthly_trends" MonthlyTrends ->
     exists w',
       create_pipeline_analytics_views w = (Ok tt, w') /\
       views (working w')
       = <["analytics_monthly_trends" := MonthlyTrends]>
           (<["analytics_usage_distribution" := UsageDistribution]>
              (views (working w))) /\
       table (working w') = table (working w) /\
       indexes (working w') = indexes (working w) /\
       uuid_function (working w') = uuid_function (working w) /\
       committed w' = working w' /\
       exists w'',
         create_pipeline_analytics_views w' = (Ok tt, w'') /\
         working w'' = working w' /\ committed w'' = committed w') /\
    (forall old,
        (views (working w) !! "analytics_usage_distribution" = Some old /\
         columns_kept (view_columns old) (view_columns UsageDistribution)
         = false) \/
        (views (working w) !! "analytics_monthly_trends" = Some old /\
         columns_kept (view_columns old) (view_columns MonthlyTrends)
         = false) ->
        exists e w',
          create_pipeline_analytics_views w = (Raise e, w') /\ undone w w').
Proof.
  intros w. split.
  - intros Hw Htable Hix1 Hix2 Hrep1 Hrep2.
    destruct (create_pipeline_analytics_views_healthy w Hw Htable Hix1 Hix2
                Hrep1 Hrep2) as (w' & Hrun & Hw' & Hdur & W).
    exists w'. split; [exact Hrun |]. rewrite W. cbn.
    do 4 (split; [reflexivity |]). split; [rewrite Hdur, W; reflexivity |].
    destruct (create_pipeline_analytics_views_healthy w' Hw')
      as (w'' & Hrun' & _ & Hdur' & W');
      [rewrite W; exact Htable | rewrite W; exact Hix1 | rewrite W; exact Hix2
      | |
      |].
    { unfold replaceable. rewrite W. cbn [views set_views].
      rewrite lookup_insert_ne by discriminate. rewrite lookup_insert_eq.
      intros old [= <-]. apply columns_kept_refl. }
    { unfold replaceable. rewrite W. cbn [views set_views].
      rewrite lookup_insert_eq.
      intros old [= <-]. apply columns_kept_refl. }
    exists w''. split; [exact Hrun' |].
    assert (Hsame : working w'' = working w').
    { rewrite W', W. unfold set_views.
      cbn [table uuid_function indexes views].
      f_equal. apply map_eq. intros name.
      rewrite !lookup_insert. repeat case_decide; congruence. }
    split; [rewrite Hsame; exact W |].
    rewrite Hdur', Hsame, Hdur. reflexivity.
  - intros old Hold.
    destruct (create_pipeline_analytics_views w) as [[u|e] w'] eqn:Hrun.
    + exfalso. unfold create_pipeline_analytics_views, except_reraise in Hrun.
      match type of Hrun with
      | match ?m w with _ => _ end = _ =>
          destruct (m w) as [[u0|e0] w0] eqn:Hbody; [| discriminate]
      end.
      apply bind_ok in Hbody as (u1 & w1 & H1 & Hbody).
      apply bind_ok in Hbody as (u2 & w2 & H2 & _).
      apply create_view_ok in H1 as [Hrep1 W1].
      apply create_view_ok in H2 as [Hrep2 _].
      destruct Hold as [[Hv Hno] | [Hv Hno]].
      * rewrite (Hrep1 old Hv) in Hno. discriminate.
      * unfold replaceable in Hrep2. rewrite W1 in Hrep2.
        cbn [views set_views] in Hrep2.
        rewrite lookup_insert_ne in Hrep2 by discriminate.
        rewrite (Hrep2 old Hv) in Hno. discriminate.
    + exists e, w'. split; [reflexivity |].
      apply (create_pipeline_analytics_views_durable _ _ _ Hrun).
Qed.

End Views.

(** ** The alerts of a run *)

Section Alerts.

Context `{Server}.

Lemma silent_ret {A} (a : A) : silent (ret a).
Proof. intros w r w' [= <- <-]. reflexivity. Qed.

Lemma silent_raise {A} (e : exn) : silent (@raise A e).
Proof. intros w r w' [= <- <-]. reflexivity. Qed.

Lemma silent_lift {A} (o : outcome A) : silent (lift o).
Proof. intros w r w' [= <- <-]. reflexivity. Qed.

Lemma silent_logger_warning msg : silent (logger_warning msg).
Proof. intros w r w' [= <- <-]. reflexivity. Qed.

Lemma silent_bind {A B} (m : M A) (k : A -> M B) :
  silent m -> (forall a, silent (k a)) -> silent (bind m k).
Proof.
  intros Hm Hk w r w' Hrun. unfold bind in Hrun.
  destruct (m w) as [[a|e] w1] eqn:Hmw.
  - rewrite (Hk a w1 r w' Hrun). apply (Hm w _ w1 Hmw).
  - injection Hrun as <- <-. apply (Hm w _ w1 Hmw).
Qed.

Lemma silent_except_reraise {A} (m : M A) :
  silent m -> silent (except_reraise m rollback).
Proof.
  intros Hm w r w' Hrun. unfold except_reraise in Hrun.
  destruct (m w) as [[a|e] w1] eqn:Hmw; injection Hrun as <- <-;
    apply (Hm w _ w1 Hmw).
Qed.

Lemma silent_for_each {A} (l : list A) (f : A -> M unit) :
  (forall x, silent (f x)) -> silent (for_each l f).
Proof.
  intros Hf. induction l as [|x l IH]; cbn [for_each].
  - apply silent_ret.
  - apply silent_bind; [apply Hf | intros _; exact IH].
Qed.

Lemma silent_execute s : silent (execute s).
Proof.
  intros w [r|e] w' Hrun.
  - apply execute_ok in Hrun as (st & tmp & Hrun). tauto.
  - apply execute_raise in Hrun. tauto.
Qed.

Lemma silent_commit : silent commit.
Proof.
  intros w r w' Hrun. unfold commit, round_trip in Hrun.
  destruct (match faults w with [] => None | f :: _ => f end).
  - injection Hrun as <- <-. reflexivity.
  - cbn in Hrun. destruct (aborted w); injection Hrun as <- <-; reflexivity.
Qed.

Lemma silent_connect : silent connect.
Proof.
  intros w r w' Hrun. unfold connect, round_trip in Hrun.
  destruct (match faults w with [] => None | f :: _ => f end);
    injection Hrun as <- <-; reflexivity.
Qed.

Lemma silent_log_and_run_sql s : silent (log_and_run_sql s).
Proof.
  apply silent_bind; [apply silent_execute | intros _; apply silent_ret].
Qed.

Lemma silent_open_csv fs path : silent (open_csv fs path).
Proof.
  unfold open_csv. destruct (fs !! path) as [[e|rows failure]|];
    [apply silent_raise | apply silent_ret | apply silent_raise].
Qed.

Lemma silent_fill_buffer path rows failure :
  forall i, silent (fill_buffer path i rows failure).
Proof.
  induction rows as [|row rest IH]; intros i; cbn [fill_buffer].
  - destruct failure; [apply silent_raise | apply silent_ret].
  - destruct (negb _).
    + apply silent_bind; [apply silent_logger_warning | intros _; apply IH].
    + apply silent_bind; [apply IH | intros buffer; apply silent_ret].
Qed.

Ltac silence :=
  repeat first
    [ apply silent_execute | apply silent_commit | apply silent_ret
    | apply silent_raise | apply silent_logger_warning
    | apply silent_log_and_run_sql | apply silent_open_csv
    | apply silent_fill_buffer
    | apply silent_for_each; intros ?
    | apply silent_except_reraise
    | apply silent_bind; [| intros ?]
    | match goal with
      | |- silent (match ?x with _ => _ end) => destruct x
      | |- silent (if ?x then _ else _) => destruct x
      end ].

Lemma silent_setup_pipeline_db_structure : silent setup_pipeline_db_structure.
Proof. unfold setup_pipeline_db_structure. silence. Qed.

Lemma silent_load_telco_data fs path stamp :
  silent (load_telco_data fs path stamp).
Proof.
  unfold load_telco_data, drop_existing_indexes, recreate_indexes.
  cbv zeta. silence.
Qed.

Lemma silent_run_data_quality_checks :
  silent (run_data_quality_checks psycopg2_cursor).
Proof.
  intros w r w' Hrun. unfold run_data_quality_checks in Hrun.
  match type of Hrun with
  | match ?m w with _ => _ end = _ =>
      assert (Hm : silent m); [| destruct (m w) as [[a|e] w1] eqn:Hmw]
  end.
  - unfold check_missing, check_future, psycopg2_cursor.
    cbn [execute_missing_values execute_future_dates]. cbv zeta. silence.
  - injection Hrun as <- <-. apply (Hm w _ w1 Hmw).
  - injection Hrun as <- <-. apply (Hm w _ w1 Hmw).
Qed.

Lemma silent_create_pipeline_analytics_views :
  silent create_pipeline_analytics_views.
Proof. unfold create_pipeline_analytics_views. silence. Qed.

Lemma silent_apply_pipeline_data_retention settings :
  silent (apply_pipeline_data_retention settings).
Proof. unfold apply_pipeline_data_retention. silence. Qed.

(** X13. The alerts of a run. Whatever the file holds and whatever
    fails on the way, a run adds at most two alerts to those raised
    before it, in this order: at most one quality alert, then one
    critical alert with a single line of text, exactly when the run
    exits with status 1. A run that exits with status 0 adds no critical
    alert. *)
Theorem run_etl_process_alerts :
  forall (settings : Settings) (fs : FileSystem) (path : string) (stamp : Z)
         (w w' : World) (code : Z),
    run_etl_process settings fs path stamp w = (code, w') ->
    exists quality,
      (quality = [] \/ exists issues, quality = [(quality_subject, issues)]) /\
      ((code = 0%Z /\ alerts w' = (alerts w ++ quality)%list) \/
       (code = 1%Z /\
        exists subject body,
          In subject critical_subjects /\
          alerts w' = (alerts w ++ quality ++ [(subject, [body])])%list)).
Proof.
  intros settings fs path stamp w w' code Hrun.
  unfold run_etl_process in Hrun.
  match type of Hrun with
  | match ?m w with _ => _ end = _ =>
      assert (Hsteps : forall r w1,
                 m w = (r, w1) ->
                 exists quality,
                   (quality = [] \/
                    exists issues, quality = [(quality_subject, issues)]) /\
                   alerts w1 = (alerts w ++ quality)%list);
        [| destruct (m w) as [[a|e] w1] eqn:Hmw]
  end.
  - intros r w1. unfold bind at 1. unfold lift at 1.
    destruct (validate_csv_structure fs path) as [b|e].
    + unfold managed_db_connection.
      destruct (connect w) as [[u|e] wc] eqn:Hc.
      * apply silent_connect in Hc.
        unfold bind.
        destruct (setup_pipeline_db_structure wc) as [[u1|e] ws] eqn:Hs;
          apply silent_setup_pipeline_db_structure in Hs;
          [| intros [= _ <-]; exists []; split; [left; reflexivity |];
             cbn; rewrite app_nil_r; congruence].
        destruct (load_telco_data fs path stamp ws) as [[n|e] wl] eqn:Hl;
          apply silent_load_telco_data in Hl;
          [| intros [= _ <-]; exists []; split; [left; reflexivity |];
             cbn; rewrite app_nil_r; congruence].
        destruct (run_data_quality_checks psycopg2_cursor wl)
          as [[dq|e] wq] eqn:Hq;
          apply silent_run_data_quality_checks in Hq;
          [| intros [= _ <-]; exists []; split; [left; reflexivity |];
             cbn; rewrite app_nil_r; congruence].
        set (quality := if negb (fst dq)
                        then [(quality_subject, snd dq)] else []).
        set (wa := if negb (fst dq)
                   then alerted quality_subject (snd dq) wq else wq).
        assert (Ha : (if negb (fst dq)
                      then send_alert
                             "Telco DWH ETL: Data Quality Issues Found" (snd dq)
                      else ret tt) wq = (Ok tt, wa)).
        { subst wa. destruct (negb (fst dq)); reflexivity. }
        rewrite Ha.
        assert (Hwa : alerts wa = (alerts w ++ quality)%list).
        { subst wa quality. destruct (negb (fst dq)); cbn;
            [| rewrite app_nil_r]; congruence. }
        assert (Hq' : quality = [] \/
                      exists issues, quality = [(quality_subject, issues)]).
        { subst quality. destruct (negb (fst dq)); eauto. }
        destruct (create_pipeline_analytics_views wa) as [[u2|e] wv] eqn:Hv;
          apply silent_create_pipeline_analytics_views in Hv;
          [| intros [= _ <-]; exists quality; split; [exact Hq' |];
             cbn; congruence].
        destruct (apply_pipeline_data_retention settings wv)
          as [r2 wr] eqn:Hr;
          apply silent_apply_pipeline_data_retention in Hr.
        intros [= _ <-]. exists quality. split; [exact Hq' |].
        cbn. congruence.
      * apply silent_connect in Hc. intros [= _ <-].
        exists []. split; [left; reflexivity |].
        rewrite app_nil_r. exact Hc.
    + intros [= _ <-]. exists []. split; [left; reflexivity |].
      rewrite app_nil_r. reflexivity.
  - destruct (Hsteps _ _ eq_refl) as (quality & Hq & Ha).
    injection Hrun as <- <-. exists quality. split; [exact Hq |].
    left. auto.
  - destruct (Hsteps _ _ eq_refl) as (quality & Hq & Ha).
    exists quality. split; [exact Hq |]. right.
    destruct e; injection Hrun as <- <-;
      (split; [reflexivity |]); do 2 eexists;
      (split; [| cbn; rewrite Ha, <- app_assoc; reflexivity]);
      simpl; tauto.
Qed.

End Alerts.

(** ** When the load returns *)

Section LoadReturns.

Context `{Server}.

Lemma complete_row_uuid s : complete s -> is_Some (row_uuid s).
Proof.
  unfold complete, row_uuid.
  intros ([a ->] & [b ->] & [c ->] & [d ->] & [e ->]).
  rewrite generate_event_uuid_present. eauto.
Qed.

Lemma insert_on_conflict_do_nothing_total staging :
  (forall s, In s staging -> complete s) ->
  forall rows k,
    exists rows' n,
      insert_on_conflict_do_nothing staging rows k = inr (rows', n).
Proof.
  induction staging as [|s rest IH]; intros Hall rows k;
    cbn [insert_on_conflict_do_nothing].
  - eauto.
  - destruct (complete_row_uuid s (Hall s (or_introl eq_refl))) as [u ->].
    destruct (uuid_present u rows); apply IH;
      intros s' Hs'; apply Hall; right; exact Hs'.
Qed.

(** One turn of the drop loop on a healthy connection, whether the
    index exists or not. *)
Lemma drop_step_any name w :
  lower name = name ->
  String.eqb name main_table_name = false ->
  healthy w ->
  views (working w) !! name = None ->
  exists w',
    (found <~ execute (SelectPgClass (lower name)) ;;
     if truthy (fetchone found)
     then log_and_run_sql (DropIndexIfExists name)
     else ret tt) w = (Ok tt, w') /\
    healthy w' /\ views (working w') = views (working w).
Proof.
  intros Hlow Hname Hw Hview. rewrite Hlow. unfold bind.
  destruct (indexes (working w) !! name) as [column|] eqn:Hix.
  - assert (Hrel : relation_exists (working w) name = true).
    { unfold relation_exists. rewrite Hix. reflexivity. }
    destruct (execute_step (SelectPgClass name) w (one_row 1 [Some 1%Z])
                (working w) (temp_tables w) Hw)
      as (w0 & -> & Hw0 & W0 & T0 & C0).
    { unfold run_statement. rewrite Hrel. reflexivity. }
    cbn [fetchone one_row truthy]. unfold log_and_run_sql, bind.
    destruct (execute_step (DropIndexIfExists name) w0 (command (-1))
                (set_indexes (delete name (indexes (working w0))) (working w0))
                (temp_tables w0) Hw0) as (w1 & -> & Hw1 & W1 & _).
    { unfold run_statement. rewrite W0, Hix. reflexivity. }
    exists w1. split; [reflexivity |]. split; [exact Hw1 |].
    rewrite W1. cbn. rewrite W0. reflexivity.
  - assert (Hrel : relation_exists (working w) name = false).
    { unfold relation_exists. rewrite Hix, Hview, Hname.
      destruct (table (working w)); reflexivity. }
    destruct (execute_step (SelectPgClass name) w
                {| rowcount := 0; fetchone := None |}
                (working w) (temp_tables w) Hw)
      as (w0 & -> & Hw0 & W0 & T0 & C0).
    { unfold run_statement. rewrite Hrel. reflexivity. }
    cbn [fetchone truthy]. exists w0.
    split; [reflexivity |]. split; [exact Hw0 |]. rewrite W0. reflexivity.
Qed.

Lemma drop_existing_indexes_any w :
  healthy w ->
  (forall name column,
      In (name, CreateIndex name column) NON_PK_INDEXES_TO_RECREATE ->
      views (working w) !! name = None) ->
  exists w', drop_existing_indexes w = (Ok tt, w') /\ healthy w'.
Proof.
  intros Hw Hviews.
  unfold drop_existing_indexes, NON_PK_INDEXES_TO_CREATE.
  cbn [for_each fst].
  destruct (drop_step_any "idx_billing_customer_id" w eq_refl eq_refl Hw)
    as (w1 & H1 & Hw1 & V1).
  { apply (Hviews _ "customer_id"). simpl. tauto. }
  destruct (drop_step_any "idx_billing_event_time" w1 eq_refl eq_refl Hw1)
    as (w2 & H2 & Hw2 & V2).
  { rewrite V1. apply (Hviews _ "event_start_time"). simpl. tauto. }
  destruct (drop_step_any "idx_billing_event_type" w2 eq_refl eq_refl Hw2)
    as (w3 & H3 & Hw3 & V3).
  { rewrite V2, V1. apply (Hviews _ "event_type"). simpl. tauto. }
  destruct (drop_step_any "idx_billing_month" w3 eq_refl eq_refl Hw3)
    as (w4 & H4 & Hw4 & V4).
  { rewrite V3, V2, V1. apply (Hviews _ "month"). simpl. tauto. }
  exists w4. split; [| exact Hw4].
  unfold bind at 1. rewrite H1.
  unfold bind at 1. rewrite H2.
  unfold bind at 1. rewrite H3.
  unfold bind at 1. rewrite H4. reflexivity.
Qed.

(** The merge on a healthy connection, when the server takes every row
    and no staged row lacks a business field. *)
Lemma merge_buffer_healthy name buffer w rs rows :
  healthy w ->
  temp_tables w !! name = Some [] ->
  copy_rows buffer = Accepted rs ->
  (forall s, In s rs -> complete s) ->
  table (working w) = Some rows ->
  uuid_function (working w) = true ->
  (forall index_name column,
      In (index_name, CreateIndex index_name column)
         NON_PK_INDEXES_TO_RECREATE ->
      views (working w) !! index_name = None) ->
  exists n w2,
    merge_buffer name buffer w = (Ok n, w2) /\ healthy w2 /\
    is_Some (table (working w2)) /\
    views (working w2) = views (working w) /\
    indexes (working w2) = rebuilt (indexes (working w)).
Proof.
  intros Hw Hfresh Hrs Hall Htable Hfun Hviews.
  unfold merge_buffer.
  destruct (execute_step (CopyFrom name buffer) w (command (sql_count rs))
              (working w) (<[name := rs]> (temp_tables w)) Hw)
    as (wa & Ha & Hwa & Wa & Ta & _).
  { unfold run_statement. rewrite Hfresh, Hrs. reflexivity. }
  destruct (execute_step (SelectCount name) wa (one_row 1 [Some (sql_count rs)])
              (working wa) (temp_tables wa) Hwa)
    as (wb & Hb & Hwb & Wb & Tb & _).
  { unfold run_statement. rewrite Ta, lookup_insert_eq. reflexivity. }
  destruct (drop_existing_indexes_any wb Hwb) as (wc & Hc & Hwc).
  { intros index_name column Hin. rewrite Wb, Wa. apply (Hviews _ _ Hin). }
  pose proof (drop_existing_indexes_ok _ _ _ Hc) as Ic.
  pose proof (drop_existing_indexes_frame _ _ _ Hc) as ((Rc1 & Rc2 & Rc3) & Tc).
  assert (Htc : table (working wc) = Some rows) by congruence.
  destruct (insert_on_conflict_do_nothing_total rs Hall rows 0%Z)
    as (rows' & n & Hins).
  destruct (execute_step (InsertFromStaging name) wc (command n)
              (set_table (Some rows') (working wc)) (temp_tables wc) Hwc)
    as (wd & Hd & Hwd & Wd & Td & _).
  { unfold run_statement.
    rewrite Htc, Tc, Tb, Ta, lookup_insert_eq, Rc3, Wb, Wa, Hfun, Hins.
    reflexivity. }
  destruct (recreate_indexes_healthy wd rows' Hwd) as (we & He & Hwe).
  { rewrite Wd. reflexivity. }
  { intros index_name column Hin. rewrite Wd. cbn [indexes views set_table].
    split.
    - rewrite Ic. apply (dropped_indexes_absent _ _ _ Hin).
    - rewrite Rc2, Wb, Wa. apply (Hviews _ _ Hin). }
  exists n, (set_db (working we) ∅
               (set_committed (working we) (set_faults (tl (faults we)) we))).
  pose proof (recreate_indexes_frame _ _ _ He) as ((Re1 & Re2 & Re3) & _).
  pose proof (recreate_indexes_ok _ _ _ He) as [Ie _].
  split; [| split; [| split; [| split]]].
  - unfold bind. rewrite Ha, Hb, Hc, Hd, He, (commit_healthy we Hwe).
    reflexivity.
  - destruct Hwe as [Hab Hf]. split; simpl; [exact Hab |].
    apply quiet_script_tl, Hf.
  - cbn. rewrite Re1, Wd. cbn. eauto.
  - cbn. rewrite Re2, Wd. cbn. rewrite Rc2, Wb, Wa. reflexivity.
  - cbn. rewrite Ie, Wd. cbn. rewrite Ic, Wb, Wa. reflexivity.
Qed.

(** The load on a healthy connection. *)
Lemma load_telco_data_healthy fs path stamp w rows rs :
  healthy w ->
  temp_tables w !! staging_name stamp = None ->
  is_Some (table (working w)) ->
  uuid_function (working w) = true ->
  (forall name column,
      In (name, CreateIndex name column) NON_PK_INDEXES_TO_RECREATE ->
      views (working w) !! name = None) ->
  fs !! path = Some (Readable rows None) ->
  copy_rows (accepted_rows rows) = Accepted rs ->
  (forall s, In s rs -> complete s) ->
  exists n w1,
    load_telco_data fs path stamp w = (Ok n, w1) /\ healthy w1 /\
    is_Some (table (working w1)) /\
    views (working w1) = views (working w) /\
    (indexes (working w1) = indexes (working w) \/
     indexes (working w1) = rebuilt (indexes (working w))).
Proof.
  intros Hw Hfree [before Htable] Hfun Hviews Hfile Hrs Hall.
  rewrite (load_telco_data_file fs path stamp rows w Hfile).
  destruct (execute_step (CreateTempTable (staging_name stamp)) w
              (command (-1)) (working w)
              (<[staging_name stamp := []]> (temp_tables w)) Hw)
    as (wa & -> & Hwa & Wa & Ta & _).
  { unfold run_statement. rewrite Hfree. reflexivity. }
  set (ws := skip_warnings path 0 rows).
  unfold load_or_skip.
  destruct (List.length (accepted_rows rows) =? 0)%nat.
  - unfold ret. exists 0%Z, (log_all ws wa).
    destruct (log_all_frame ws wa) as (_ & _ & Hsame).
    split; [reflexivity |]. split; [apply healthy_log_all, Hwa |].
    rewrite Hsame, Wa. eauto.
  - rewrite (quiet_log_all _ _ (quiet_merge_buffer _ _)).
    destruct (merge_buffer_healthy (staging_name stamp) (accepted_rows rows)
                wa rs before Hwa)
      as (n & w2 & Hmerge & Hw2 & Ht2 & Hv2 & Hi2).
    { rewrite Ta. apply lookup_insert_eq. }
    { exact Hrs. }
    { exact Hall. }
    { rewrite Wa. exact Htable. }
    { rewrite Wa. exact Hfun. }
    { intros name column Hin. rewrite Wa. apply (Hviews _ _ Hin). }
    rewrite Hmerge. cbn [fst snd].
    exists n, (log_all ws w2).
    destruct (log_all_frame ws w2) as (_ & _ & Hsame).
    split; [reflexivity |]. split; [apply healthy_log_all, Hw2 |].
    rewrite Hsame, Hv2, Hi2, Wa. auto.
Qed.

(** X14. When the load returns. On a healthy connection to a database
    that has the table and the identity function and no view under an
    index name, with no temporary table under the staging name, the
    load of a file that is read to its end returns as soon as the
    server takes every row of the expected width and none of them lacks
    a business field (customer, event time, event type, rate plan or
    charge); whatever the rows of other widths and whatever indexes
    exist. A load that returns has read its file to the end: when a
    fetch fails the load raises. *)
Theorem load_telco_data_returns :
  forall (fs : FileSystem) (path : string) (stamp : Z) (w : World)
         (rows : list (list string)) (failure : option exn)
         (rs : list StagingRow),
    healthy w ->
    temp_tables w !! staging_name stamp = None ->
    is_Some (table (working w)) ->
    uuid_function (working w) = true ->
    (forall name column,
        In (name, CreateIndex name column) NON_PK_INDEXES_TO_RECREATE ->
        views (working w) !! name = None) ->
    fs !! path = Some (Readable rows failure) ->
    copy_rows (accepted_rows rows) = Accepted rs ->
    (forall s, In s rs -> complete s) ->
    match failure with
    | None =>
        exists n w1,
          load_telco_data fs path stamp w = (Ok n, w1) /\ healthy w1
    | Some e =>
        exists w1,
          load_telco_data fs path stamp w = (Raise e, w1) /\ undone w w1
    end.
Proof.
  intros fs path stamp w rows failure rs Hw Hfree Htable Hfun Hviews Hfile
         Hrs Hall.
  destruct failure as [e|].
  - rewrite (load_telco_data_read_error fs path stamp rows e w Hfile).
    pose proof (execute_healthy (CreateTempTable (staging_name stamp)) w Hw)
      as Hx.
    unfold run_statement in Hx. rewrite Hfree in Hx. rewrite Hx.
    eexists. split; [reflexivity |].
    apply undone_rollback.
    destruct (log_all_frame (skip_warnings path 0 rows)
                (set_db (working w)
                   (<[staging_name stamp := []]> (temp_tables w))
                   (set_faults (tl (faults w))
                      (sent (CreateTempTable (staging_name stamp)) w))))
      as (_ & -> & _).
    reflexivity.
  - destruct (load_telco_data_healthy fs path stamp w rows rs
                Hw Hfree Htable Hfun Hviews Hfile Hrs Hall)
      as (n & w1 & Hload & Hw1 & _).
    exists n, w1. auto.
Qed.

End LoadReturns.

(** ** Rows of another width *)

Section Skipped.

Context `{Server}.

Lemma copy_rows_length buffer :
  forall rs, copy_rows buffer = Accepted rs ->
             List.length rs = List.length buffer.
Proof.
  induction buffer as [|cells rest IH]; intros rs Hrs.
  - injection Hrs as <-. reflexivity.
  - cbn [copy_rows] in Hrs. unfold parsed_bind in Hrs.
    destruct (copy_row cells) as [r|code]; [| discriminate].
    destruct (copy_rows rest) as [rs'|code]; [| discriminate].
    injection Hrs as <-. cbn [List.length]. rewrite (IH rs' eq_refl).
    reflexivity.
Qed.

(** C6, as the code has it. Take a file that can be opened, with the
    rows the reader yields and the failure, if any, that ends the
    reading. Every row of another width than 9 is skipped with a
    warning that names its line, and changes nothing else: the load has
    the outcome of the load of the same file without these rows, in a
    world that differs only by the warnings. When the load returns, the
    file has been read to its end, the warnings are in the log, the
    server has staged one row for each row of width 9, and the identity
    of each of them is in the durable table, which holds its former
    rows followed by the rows inserted, as many as the count returned.
    On a healthy connection to a database that is set up, the load of a
    file read to its end does return as soon as the server takes every
    row of width 9 and none lacks a business field. But a line that the
    reader cannot yield ends the load: it raises, the transaction is
    rolled back and no row of the file is loaded. *)
Theorem malformed_rows_are_skipped :
  forall (fs : FileSystem) (path : string) (stamp : Z) (w : World)
         (rows : list (list string)) (failure : option exn),
    fs !! path = Some (Readable rows failure) ->
    let name := staging_name stamp in
    let clean := <[path := Readable (accepted_rows rows) failure]> fs in
    let logged :=
      match fst (execute (CreateTempTable name) w) with
      | Ok _ => skip_warnings path 0 rows
      | Raise _ => []
      end in
    load_telco_data fs path stamp w
    = (fst (load_telco_data clean path stamp w),
       log_all logged (snd (load_telco_data clean path stamp w))) /\
    (forall msg,
        In msg (skip_warnings path 0 rows) <->
        exists k row, rows !! k = Some row /\
                      List.length row <> EXPECTED_CSV_COLUMNS /\
                      msg = skip_message path k) /\
    (forall n w1,
        load_telco_data fs path stamp w = (Ok n, w1) ->
        failure = None /\
        (forall msg, In msg (skip_warnings path 0 rows) ->
                     In msg (warnings w1)) /\
        (accepted_rows rows = [] -> n = 0%Z) /\
        (accepted_rows rows <> [] ->
         exists rs before added,
           copy_rows (accepted_rows rows) = Accepted rs /\
           List.length rs = List.length (accepted_rows rows) /\
           table (working w) = Some before /\
           table (committed w1) = Some (before ++ added)%list /\
           n = Z.of_nat (List.length added) /\
           (forall s, In s rs ->
                      exists u, row_uuid s = Some u /\
                                uuid_present u (before ++ added) = true))) /\
    (forall e,
        failure = Some e ->
        exists e' w1,
          load_telco_data fs path stamp w = (Raise e', w1) /\
          undone w w1 /\
          (healthy w -> temp_tables w !! name = None -> e' = e)) /\
    (forall rs,
        failure = None ->
        healthy w ->
        temp_tables w !! name = None ->
        is_Some (table (working w)) ->
        uuid_function (working w) = true ->
        (forall index_name column,
            In (index_name, CreateIndex index_name column)
               NON_PK_INDEXES_TO_RECREATE ->
            views (working w) !! index_name = None) ->
        copy_rows (accepted_rows rows) = Accepted rs ->
        (forall s, In s rs -> complete s) ->
        exists n w1, load_telco_data fs path stamp w = (Ok n, w1)).
Proof.
  intros fs path stamp w rows failure Hfile name clean logged.
  split; [apply (load_skips_malformed_rows _ _ _ _ _ _ Hfile) |].
  split.
  { intros msg. rewrite skip_warnings_In. reflexivity. }
  split; [| split].
  - intros n w1 Hload.
    pose proof (load_telco_data_read_to_end _ _ _ _ _ _ _ _ Hfile Hload)
      as ->.
    split; [reflexivity |]. split; [| split].
    + intros msg Hmsg.
      rewrite (load_telco_data_file fs path stamp rows w Hfile) in Hload.
      destruct (execute _ w) as [[r|e] wa]; [| discriminate].
      rewrite (quiet_log_all _ _ (quiet_load_or_skip _ _)) in Hload.
      destruct (load_or_skip _ _ wa) as [[n'|e] w2]; cbn [fst snd] in Hload;
        [| discriminate].
      injection Hload as _ <-. rewrite log_all_warnings.
      apply in_or_app. right. exact Hmsg.
    + intros Hnone.
      pose proof (load_telco_data_commits _ _ _ _ _ _ Hload)
        as (rows' & r1 & wa & Hfile' & _ & Hrest).
      rewrite Hfile in Hfile'. injection Hfile' as <-.
      cbv zeta in Hrest. rewrite Hnone in Hrest. tauto.
    + intros Hne.
      destruct (load_telco_data_returned _ _ _ _ _ _ _ _ Hfile Hne Hload)
        as (rs & before & after & Hrs & Hbefore & Hins & _ & Hdur).
      destruct (insert_on_conflict_do_nothing_spec _ _ _ _ _ Hins)
        as (added & -> & Hcount & Hall & _).
      exists rs, before, added.
      split; [exact Hrs |].
      split; [apply (copy_rows_length _ _ Hrs) |].
      split; [exact Hbefore |]. split; [exact Hdur |].
      split; [rewrite Hcount; apply Z.add_0_l | exact Hall].
  - intros e ->.
    rewrite (load_telco_data_read_error fs path stamp rows e w Hfile).
    destruct (execute _ w) as [[r|e'] wa] eqn:Htemp.
    + exists e, (rollback (log_all (skip_warnings path 0 rows) wa)).
      split; [reflexivity |]. split; [| reflexivity].
      apply undone_rollback.
      destruct (log_all_frame (skip_warnings path 0 rows) wa)
        as (_ & -> & _).
      apply (execute_committed _ _ _ _ Htemp).
    + exists e', (rollback wa).
      split; [reflexivity |]. split.
      * apply undone_rollback. apply (execute_committed _ _ _ _ Htemp).
      * intros Hw Hfree.
        pose proof (execute_healthy (CreateTempTable name) w Hw) as Hx.
        unfold run_statement in Hx. rewrite Hfree in Hx.
        subst name. rewrite Hx in Htemp. discriminate.
  - intros rs -> Hw Hfree Htable Hfun Hviews Hrs Hall.
    destruct (load_telco_data_healthy fs path stamp w rows rs
                Hw Hfree Htable Hfun Hviews Hfile Hrs Hall)
      as (n & w1 & Hload & _).
    exists n, w1. exact Hload.
Qed.

End Skipped.

(** ** A run that succeeds *)

Section HappyPath.

Context `{Server}.

Lemma create_index_if_not_exists_healthy name column w :
  healthy w ->
  is_Some (table (working w)) ->
  exists w',
    log_and_run_sql (CreateIndexIfNotExists name column) w = (Ok tt, w') /\
    healthy w' /\ is_Some (table (working w')).
Proof.
  intros Hw [rows Hrows]. unfold log_and_run_sql, bind.
  destruct (relation_exists (working w) name) eqn:Hrel.
  - destruct (execute_step (CreateIndexIfNotExists name column) w
                (command (-1)) (working w) (temp_tables w) Hw)
      as (w' & -> & Hw' & W & _).
    { unfold run_statement. rewrite Hrows, Hrel. reflexivity. }
    exists w'. rewrite W, Hrows. eauto.
  - destruct (execute_step (CreateIndexIfNotExists name column) w
                (command (-1))
                (set_indexes (<[name := column]> (indexes (working w)))
                             (working w))
                (temp_tables w) Hw) as (w' & -> & Hw' & W & _).
    { unfold run_statement. rewrite Hrows, Hrel. reflexivity. }
    exists w'. rewrite W. cbn. rewrite Hrows. eauto.
Qed.

(** The DDL setup on a healthy connection, when the name of the table
    is free or the table exists. *)
Lemma setup_pipeline_db_structure_healthy w :
  healthy w ->
  (table (working w) = None ->
   relation_exists (working w) main_table_name = false) ->
  exists w', setup_pipeline_db_structure w = (Ok tt, w') /\ healthy w'.
Proof.
  intros Hw Hfree.
  unfold setup_pipeline_db_structure, except_reraise, bind.
  unfold log_and_run_sql at 1 2. unfold bind.
  assert (Hmain : exists w1,
             execute SQL_CREATE_MAIN_TABLE w = (Ok (command (-1)), w1) /\
             healthy w1 /\ is_Some (table (working w1))).
  { destruct (relation_exists (working w) main_table_name) eqn:Hrel.
    - destruct (execute_step SQL_CREATE_MAIN_TABLE w (command (-1))
                  (working w) (temp_tables w) Hw) as (w1 & Hx & Hw1 & W1 & _).
      { unfold run_statement, SQL_CREATE_MAIN_TABLE. rewrite Hrel.
        reflexivity. }
      exists w1. split; [exact Hx |]. split; [exact Hw1 |]. rewrite W1.
      destruct (table (working w)) as [rows|]; [eauto |].
      pose proof (Hfree eq_refl) as Hno. congruence.
    - destruct (execute_step SQL_CREATE_MAIN_TABLE w (command (-1))
                  (set_table (Some []) (working w)) (temp_tables w) Hw)
        as (w1 & Hx & Hw1 & W1 & _).
      { unfold run_statement, SQL_CREATE_MAIN_TABLE. rewrite Hrel.
        reflexivity. }
      exists w1. split; [exact Hx |]. split; [exact Hw1 |]. rewrite W1.
      cbn. eauto. }
  destruct Hmain as (w1 & -> & Hw1 & Ht1). unfold ret at 1.
  destruct (execute_step SQL_GENERATE_UUID_FUNCTION w1 (command (-1))
              (set_uuid_function true (working w1)) (temp_tables w1) Hw1)
    as (w2 & -> & Hw2 & W2 & _); [reflexivity |].
  unfold ret at 1.
  assert (Ht2 : is_Some (table (working w2))) by (rewrite W2; exact Ht1).
  unfold NON_PK_INDEXES_TO_CREATE. cbn [for_each snd]. unfold bind.
  destruct (create_index_if_not_exists_healthy
              "idx_billing_customer_id" "customer_id" w2 Hw2 Ht2)
    as (w3 & -> & Hw3 & Ht3).
  destruct (create_index_if_not_exists_healthy
              "idx_billing_event_time" "event_start_time" w3 Hw3 Ht3)
    as (w4 & -> & Hw4 & Ht4).
  destruct (create_index_if_not_exists_healthy
              "idx_billing_event_type" "event_type" w4 Hw4 Ht4)
    as (w5 & -> & Hw5 & Ht5).
  destruct (create_index_if_not_exists_healthy
              "idx_billing_month" "month" w5 Hw5 Ht5)
    as (w6 & -> & Hw6 & Ht6).
  unfold ret at 1. rewrite (commit_healthy w6 Hw6).
  eexists. split; [reflexivity |].
  destruct Hw6 as [Hab Hf]. split; cbn; [exact Hab |].
  apply quiet_script_tl, Hf.
Qed.

(** The retention stage on a healthy connection. *)
Lemma apply_pipeline_data_retention_healthy settings w :
  healthy w ->
  is_Some (table (working w)) ->
  committed w = working w ->
  exists w',
    apply_pipeline_data_retention settings w = (Ok tt, w') /\
    committed w' = working w' /\
    is_Some (table (working w')) /\
    views (working w') = views (working w).
Proof.
  intros Hw [rows Hrows] Hdur. unfold apply_pipeline_data_retention.
  destruct (negb (ENABLE_RETENTION_POLICY settings)).
  - exists w. rewrite Hrows. unfold ret. eauto.
  - unfold except_reraise, log_and_run_sql, bind.
    set (months := RETENTION_PERIOD_MONTHS settings).
    destruct (execute_step (get_sql_delete_old_data months) w
                (command
                   (sql_count rows -
                    sql_count
                      (List.filter
                         (fun r => negb (older_than (current_timestamp w)
                                                    months r)) rows)))
                (set_table
                   (Some (List.filter
                            (fun r => negb (older_than (current_timestamp w)
                                                       months r)) rows))
                   (working w))
                (temp_tables w) Hw) as (w1 & -> & Hw1 & W1 & _).
    { unfold run_statement, get_sql_delete_old_data. rewrite Hrows.
      reflexivity. }
    unfold ret at 1. rewrite (commit_healthy w1 Hw1).
    eexists. split; [reflexivity |]. cbn. rewrite W1. cbn. eauto.
Qed.

Lemma rebuilt_other (ix : gmap string string) name :
  ix !! name = None ->
  (forall column,
      ~ In (name, CreateIndex name column) NON_PK_INDEXES_TO_RECREATE) ->
  rebuilt ix !! name = None.
Proof.
  intros Hix Hother. unfold rebuilt.
  rewrite !lookup_insert.
  repeat (case_decide;
          [subst name; exfalso;
           first [ apply (Hother "month"); simpl; tauto
                 | apply (Hother "event_type"); simpl; tauto
                 | apply (Hother "event_start_time"); simpl; tauto
                 | apply (Hother "customer_id"); simpl; tauto ] |]).
  rewrite !lookup_delete. repeat (case_decide; [reflexivity |]).
  exact Hix.
Qed.

Lemma connect_healthy w :
  healthy w ->
  exists wc,
    connect w = (Ok tt, wc) /\ healthy wc /\
    working wc = committed w /\ temp_tables wc = ∅.
Proof.
  intros Hw. unfold connect.
  destruct (healthy_round_trip w Hw) as [-> [Hab Hf]].
  eexists. split; [reflexivity |]. cbn.
  split; [split; [reflexivity | exact Hf] | auto].
Qed.

(** X15. A run that succeeds. On a healthy connection to a database on
    which the pipeline can work (the name of the table is free if the
    table does not exist, no view has the name of one of the four
    indexes, no index has the name of one of the two views, and a view
    under one of these two names has columns that the pipeline's view
    keeps), a run on a file that passes the validation and is read to
    its end by the validator and by the loader exits with status 0 as
    soon as the server takes every row of the expected width and none
    of them lacks a business field. When the run ends nothing is left
    uncommitted, the table exists and the two analytics views are
    defined. *)
Theorem run_etl_process_succeeds :
  forall (settings : Settings) (fs : FileSystem) (path : string) (stamp : Z)
         (w : World) (rows : list (list string)) (rs : list StagingRow)
         (b : bool),
    healthy w ->
    tidy (committed w) ->
    validate_csv_structure fs path = Ok b ->
    fs !! path = Some (Readable rows None) ->
    copy_rows (accepted_rows rows) = Accepted rs ->
    (forall s, In s rs -> complete s) ->
    exists w',
      run_etl_process settings fs path stamp w = (0%Z, w') /\
      working w' = committed w' /\
      is_Some (table (committed w')) /\
      views (committed w') !! "analytics_usage_distribution"
      = Some UsageDistribution /\
      views (committed w') !! "analytics_monthly_trends" = Some MonthlyTrends.
Proof.
  intros settings fs path stamp w rows rs b Hw
         (Hfree & Hviews & Hix1 & Hix2 & Hrep1 & Hrep2) Hv Hfile Hrs Hall.
  unfold run_etl_process, bind, lift, managed_db_connection. rewrite Hv.
  (* the connection *)
  destruct (connect_healthy w Hw) as (wc & -> & Hwc & Wc & Tc).
  (* the DDL setup *)
  destruct (setup_pipeline_db_structure_healthy wc Hwc) as (ws & Hs & Hws).
  { rewrite Wc. exact Hfree. }
  rewrite Hs.
  destruct (setup_pipeline_db_structure_ok wc ws Hs)
    as ((Hdur & (_ & _ & Hvs & _ & Hnew) & (rows0 & Hrows0 & _) & Hfun & _)
        & Ts & _).
  rewrite Hdur in Hvs, Hnew, Hrows0, Hfun. rewrite Wc in Hvs, Hnew.
  assert (Hother : forall name,
             indexes (committed w) !! name = None ->
             (forall column,
                 ~ In (name, CreateIndexIfNotExists name column)
                      NON_PK_INDEXES_TO_CREATE) ->
             indexes (working ws) !! name = None).
  { intros name Hnone Hnot.
    destruct (indexes (working ws) !! name) as [column|] eqn:Hsome;
      [| reflexivity].
    destruct (Hnew _ _ Hsome) as [Hold | Hin]; [congruence |].
    destruct (Hnot _ Hin). }
  assert (Hnot1 : forall column,
             ~ In ("analytics_usage_distribution",
                   CreateIndexIfNotExists "analytics_usage_distribution" column)
                  NON_PK_INDEXES_TO_CREATE).
  { intros column Hin. simpl in Hin. intuition discriminate. }
  assert (Hnot2 : forall column,
             ~ In ("analytics_monthly_trends",
                   CreateIndexIfNotExists "analytics_monthly_trends" column)
                  NON_PK_INDEXES_TO_CREATE).
  { intros column Hin. simpl in Hin. intuition discriminate. }
  pose proof (Hother _ Hix1 Hnot1) as Is1.
  pose proof (Hother _ Hix2 Hnot2) as Is2.
  (* the load *)
  destruct (load_telco_data_healthy fs path stamp ws rows rs Hws)
    as (n & wl & -> & Hwl & [rows1 Hrows1] & Hvl & Hil); try assumption.
  { rewrite Ts. apply lookup_empty. }
  { eauto. }
  { intros name column Hin. rewrite Hvs. apply (Hviews _ _ Hin). }
  assert (Il : indexes (working wl) !! "analytics_usage_distribution" = None
               /\ indexes (working wl) !! "analytics_monthly_trends" = None).
  { destruct Hil as [-> | ->]; [auto |].
    split; apply rebuilt_other; try assumption;
      intros column Hin; simpl in Hin; intuition discriminate. }
  destruct Il as [Il1 Il2].
  (* the quality checks *)
  destruct (run_data_quality_checks_healthy wl rows1 Hwl Hrows1)
    as (wq & -> & Wq & _ & _ & Hwq & _).
  match goal with
  | |- context [if negb (fst ?dq) then _ else _] =>
      assert (Halert : exists wa,
                 (if negb (fst dq)
                  then send_alert "Telco DWH ETL: Data Quality Issues Found"
                         (snd dq)
                  else ret tt) wq = (Ok tt, wa) /\
                 healthy wa /\ working wa = working wq)
  end.
  { match goal with
    | |- context [if ?c then _ else _] => destruct c
    end; eexists; (split; [reflexivity |]); split;
      first [exact Hwq | reflexivity]. }
  destruct Halert as (wa & -> & Hwa & Wa).
  (* the views *)
  destruct (create_pipeline_analytics_views_healthy wa Hwa)
    as (wv & -> & Hwv & Dv & Wv).
  { rewrite Wa, Wq, Hrows1. eauto. }
  { rewrite Wa, Wq. exact Il1. }
  { rewrite Wa, Wq. exact Il2. }
  { unfold replaceable. rewrite Wa, Wq, Hvl, Hvs. exact Hrep1. }
  { unfold replaceable. rewrite Wa, Wq, Hvl, Hvs. exact Hrep2. }
  (* the retention *)
  destruct (apply_pipeline_data_retention_healthy settings wv Hwv)
    as (wr & -> & Dr & Tr & Vr).
  { rewrite Wv. cbn. rewrite Wa, Wq, Hrows1. eauto. }
  { exact Dv. }
  exists (close wr). split; [reflexivity |].
  unfold close, rollback. cbn. rewrite Dr, Vr, Wv. cbn.
  split; [reflexivity |]. split; [exact Tr |].
  split; [rewrite lookup_insert_ne by discriminate |]; apply lookup_insert_eq.
Qed.

End HappyPath.

(** ** The identities in the table after a load *)

Section Identities.

Context `{Server}.

(** X16. Duplicates collapse. When a load that accepted rows returns,
    the identities in the table are those that were in it and those of
    the staged rows, and none occurs twice if none did before: a
    business tuple staged several times, or staged again after an
    earlier load, is in the table once. The count returned is the
    number of rows by which the table has grown. *)
Theorem load_identities :
  forall (fs : FileSystem) (path : string) (stamp : Z) (w : World)
         (rows : list (list string)) (failure : option exn)
         (rs : list StagingRow) (before : list UsageRow) (n : Z)
         (w1 : World),
    fs !! path = Some (Readable rows failure) ->
    accepted_rows rows <> [] ->
    copy_rows (accepted_rows rows) = Accepted rs ->
    table (working w) = Some before ->
    load_telco_data fs path stamp w = (Ok n, w1) ->
    exists after,
      table (committed w1) = Some after /\
      (forall u,
          In u (map event_uuid after) <->
          In u (map event_uuid before) \/
          exists s, In s rs /\ row_uuid s = Some u) /\
      (NoDup (map event_uuid before) -> NoDup (map event_uuid after)) /\
      n = (Z.of_nat (List.length after) - Z.of_nat (List.length before))%Z.
Proof.
  intros fs path stamp w rows failure rs before n w1 Hfile Hne Hrs Hbefore
         Hload.
  destruct (load_telco_data_returned _ _ _ _ _ _ _ _ Hfile Hne Hload)
    as (rs' & before' & after & Hrs' & Hbefore' & Hins & _ & Hdur).
  assert (rs' = rs) as -> by congruence.
  assert (before' = before) as -> by congruence.
  destruct (insert_on_conflict_do_nothing_spec _ _ _ _ _ Hins)
    as (added & Hadded & Hcount & Hknown & Hfrom & Hnodup).
  exists after. split; [exact Hdur |].
  split; [| split; [exact Hnodup |]].
  - intros u. split.
    + rewrite Hadded, map_app. intros Hin.
      apply in_app_or in Hin as [Hin | Hin]; [left; exact Hin | right].
      apply in_map_iff in Hin as (r & <- & Hr).
      destruct (Hfrom r Hr) as [Hs Hu]. eauto.
    + intros [Hin | (s & Hs & Hu)].
      * rewrite Hadded, map_app. apply in_or_app. left. exact Hin.
      * destruct (Hknown s Hs) as (u' & Hu' & Hpresent).
        assert (u' = u) as -> by congruence.
        apply uuid_present_In. exact Hpresent.
  - rewrite Hcount, Hadded, length_app. lia.
Qed.

End Identities.

(** * Runs of the further properties *)

(** A second load of the two-row file. *)
Lemma load_again_inserts_nothing_witness :
  let fs : FileSystem := {[ usage_csv := Readable [call_row; sms_row] None ]} in
  healthy after_setup /\
  load_telco_data fs usage_csv 1719792000 after_setup
  = (Ok 2%Z, after_first_load) /\
  exists w2,
    load_telco_data fs usage_csv 1719792001 after_first_load = (Ok 0%Z, w2) /\
    table (working w2) = Some [call_usage; sms_usage] /\
    table (committed w2) = Some [call_usage; sms_usage].
Proof.
  intros fs.
  assert (Hw : healthy after_setup).
  { split; [vm_compute; reflexivity | vm_compute; constructor]. }
  assert (Hfile : fs !! usage_csv = Some (Readable [call_row; sms_row] None))
    by apply lookup_insert_eq.
  assert (Hne : accepted_rows [call_row; sms_row] <> []) by discriminate.
  assert (Hrun : load_telco_data fs usage_csv 1719792000 after_setup
                 = (Ok 2%Z, after_first_load)) by (vm_compute; reflexivity).
  split; [exact Hw |]. split; [exact Hrun |].
  destruct (load_again_inserts_nothing fs usage_csv 1719792000 1719792001
              after_setup [call_row; sms_row] None 2%Z after_first_load
              Hw Hfile Hne Hrun) as (w2 & Hagain & Hwork & Hdur & _).
  exists w2. split; [exact Hagain |].
  split; [rewrite Hwork | rewrite Hdur]; vm_compute; reflexivity.
Defined.

(** A first load of the two-row file into the empty table. *)
Lemma load_appends_new_rows_witness :
  let fs : FileSystem := {[ usage_csv := Readable [call_row; sms_row] None ]} in
  load_telco_data fs usage_csv 1719792000 after_setup
  = (Ok 2%Z, after_first_load) /\
  exists before added,
    table (working after_setup) = Some before /\
    table (committed after_first_load) = Some (before ++ added)%list /\
    2%Z = Z.of_nat (List.length added) /\
    NoDup (map event_uuid added).
Proof.
  intros fs.
  assert (Hfile : fs !! usage_csv = Some (Readable [call_row; sms_row] None))
    by apply lookup_insert_eq.
  assert (Hne : accepted_rows [call_row; sms_row] <> []) by discriminate.
  assert (Hrun : load_telco_data fs usage_csv 1719792000 after_setup
                 = (Ok 2%Z, after_first_load)) by (vm_compute; reflexivity).
  split; [exact Hrun |].
  destruct (load_appends_new_rows fs usage_csv 1719792000 after_setup
              [call_row; sms_row] None 2%Z after_first_load Hfile Hne Hrun)
    as (before & added & Hb & _ & Hd & Hn & Hnd & _).
  exists before, added. auto.
Defined.

(** A file whose second row has no customer. *)
Lemma load_refuses_absent_business_field_witness :
  let fs : FileSystem := {[ usage_csv := Readable [call_row; anonymous_row] None ]} in
  In anonymous_row [call_row; anonymous_row] /\
  List.length anonymous_row = 9%nat /\
  lacks_business_field anonymous_row /\
  exists e w',
    load_telco_data fs usage_csv 1719792000 after_setup = (Raise e, w') /\
    undone after_setup w'.
Proof.
  intros fs.
  assert (Hfile : fs !! usage_csv = Some (Readable [call_row; anonymous_row] None))
    by apply lookup_insert_eq.
  assert (Hin : In anonymous_row [call_row; anonymous_row])
    by (simpl; tauto).
  assert (Hlen : List.length anonymous_row = 9%nat) by reflexivity.
  assert (Hlack : lacks_business_field anonymous_row).
  { exists 0%nat. split; [simpl; tauto | reflexivity]. }
  split; [exact Hin |]. split; [exact Hlen |]. split; [exact Hlack |].
  exact (load_refuses_absent_business_field fs usage_csv 1719792000
           after_setup [call_row; anonymous_row] None anonymous_row
           Hfile Hin Hlen Hlack).
Defined.

(** A file whose second row has a customer that is not a number. *)
Lemma load_refuses_rejected_row_witness :
  let fs : FileSystem := {[ usage_csv := Readable [call_row; garbled_row] None ]} in
  In garbled_row [call_row; garbled_row] /\
  List.length garbled_row = 9%nat /\
  copy_row garbled_row = Rejected "22P02" /\
  exists e w',
    load_telco_data fs usage_csv 1719792000 after_setup = (Raise e, w') /\
    undone after_setup w'.
Proof.
  intros fs.
  assert (Hfile : fs !! usage_csv = Some (Readable [call_row; garbled_row] None))
    by apply lookup_insert_eq.
  assert (Hin : In garbled_row [call_row; garbled_row]) by (simpl; tauto).
  assert (Hlen : List.length garbled_row = 9%nat) by reflexivity.
  assert (Hrej : copy_row garbled_row = Rejected "22P02")
    by (vm_compute; reflexivity).
  split; [exact Hin |]. split; [exact Hlen |]. split; [exact Hrej |].
  exact (load_refuses_rejected_row fs usage_csv 1719792000 after_setup
           [call_row; garbled_row] None garbled_row "22P02"
           Hfile Hin Hlen Hrej).
Defined.

(** The DDL setup on an empty database. *)
Lemma setup_pipeline_db_structure_only_adds_witness :
  setup_pipeline_db_structure (fresh_world july_first [])
  = (Ok tt, after_setup) /\
  table (committed after_setup) = Some [] /\
  uuid_function (committed after_setup) = true /\
  relation_exists (committed after_setup) "idx_billing_customer_id" = true.
Proof.
  assert (Hrun : setup_pipeline_db_structure (fresh_world july_first [])
                 = (Ok tt, after_setup)) by (vm_compute; reflexivity).
  split; [exact Hrun |].
  destruct (setup_pipeline_db_structure_only_adds _ _ Hrun)
    as (_ & _ & (rows & Hrows & Hnew) & Hfun & Hrel).
  split; [rewrite Hrows, (Hnew eq_refl); reflexivity |].
  split; [exact Hfun |].
  apply (Hrel _ "customer_id"). simpl. tauto.
Defined.

(** The run on the two-row file, from the empty database. *)
Lemma pipeline_keeps_keys_witness :
  let fs : FileSystem := {[ usage_csv := Readable [call_row; sms_row] None ]} in
  keyed after_first_load /\
  keyed (snd (load_telco_data fs usage_csv 1719792001 after_first_load)) /\
  keyed (snd (run_etl_process retention_on fs usage_csv 1719792001
                after_first_load)).
Proof.
  intros fs.
  assert (Hrows : well_keyed [call_usage; sms_usage]).
  { split.
    - apply NoDup_cons. split; [| apply NoDup_singleton].
      intros Hin. apply list_elem_of_In in Hin.
      destruct Hin as [Heq | []]. discriminate Heq.
    - intros r [<- | [<- | []]]; vm_compute; reflexivity. }
  assert (Hk : keyed after_first_load).
  { split; intros rows Htable; vm_compute in Htable;
      injection Htable as <-; exact Hrows. }
  split; [exact Hk |].
  destruct (pipeline_keeps_keys retention_on fs usage_csv 1719792001
              after_first_load Hk) as (_ & Hload & _ & _ & _ & Hrun).
  split; [exact Hload | exact Hrun].
Defined.

(** A table with one recent row that has no customer. *)
Lemma quality_verdict_witness :
  healthy (world_with [nameless_recent]) /\
  exists issues w',
    run_data_quality_checks psycopg2_cursor (world_with [nameless_recent])
    = (Ok (false, issues), w') /\
    working w' = working (world_with [nameless_recent]).
Proof.
  assert (Hw : healthy (world_with [nameless_recent])).
  { split; [reflexivity | constructor]. }
  split; [exact Hw |].
  destruct (quality_verdict (world_with [nameless_recent]) [nameless_recent]
              Hw eq_refl)
    as (verdict & issues & w' & Hrun & Hwork & _ & _ & _ & Hbad).
  assert (Hv : verdict = false).
  { apply Hbad. left. exists nameless_recent.
    split; [left; reflexivity |]. split; [| left; reflexivity].
    exists (july_first - 1)%Z. split; [reflexivity |].
    split; vm_compute; congruence. }
  subst verdict. exists issues, w'. auto.
Defined.

(** The table after the load of the two-row file. *)
Lemma keyed_table_passes_missing_check_witness :
  healthy after_first_load /\
  well_keyed [call_usage; sms_usage] /\
  exists verdict issues w',
    run_data_quality_checks psycopg2_cursor after_first_load
    = (Ok (verdict, issues), w') /\
    (issues = [] \/ issues = [future_dates_issue 0]).
Proof.
  assert (Hw : healthy after_first_load).
  { split; [vm_compute; reflexivity | vm_compute; constructor]. }
  assert (Hrows : well_keyed [call_usage; sms_usage]).
  { split.
    - apply NoDup_cons. split; [| apply NoDup_singleton].
      intros Hin. apply list_elem_of_In in Hin.
      destruct Hin as [Heq | []]. discriminate Heq.
    - intros r [<- | [<- | []]]; vm_compute; reflexivity. }
  assert (Htable : table (working after_first_load)
                   = Some [call_usage; sms_usage])
    by (vm_compute; reflexivity).
  split; [exact Hw |]. split; [exact Hrows |].
  destruct (keyed_table_passes_missing_check after_first_load
              [call_usage; sms_usage] Hw Htable Hrows)
    as (verdict & issues & w' & Hrun & Hissues & _).
  exists verdict, issues, w'. split; [exact Hrun |].
  destruct Hissues as [-> | ->]; [left; reflexivity | right].
  vm_compute. reflexivity.
Defined.

(** A run on the two-row file in which the first quality query is
    cancelled. *)
Lemma failed_quality_query_ends_the_run_witness :
  let fs : FileSystem := {[ usage_csv := Readable [call_row; sms_row] None ]} in
  let w := fresh_world july_first fails_at_quality in
  exists code w',
    run_etl_process retention_on fs usage_csv 1719792000 w = (1%Z, w') /\
    alerts w'
    = [("Telco DWH ETL: Data Quality Issues Found",
        ["DQ Exception: canceling statement due to statement timeout"]);
       ("Telco ETL Critical Failure: Database Error",
        ["DB Error: " ++ code ++ ". Check logs."])] /\
    table (committed w') = Some [call_usage; sms_usage] /\
    views (committed w') = ∅.
Proof.
  intros fs w.
  set (wc := snd (connect w)).
  set (ws := snd (setup_pipeline_db_structure wc)).
  set (wl := snd (load_telco_data fs usage_csv 1719792000 ws)).
  set (wq := snd (run_data_quality_checks psycopg2_cursor wl)).
  set (e := Psycopg2Error None "canceling statement due to statement timeout").
  assert (Hv : validate_csv_structure fs usage_csv = Ok true)
    by (vm_compute; reflexivity).
  assert (Hc : connect w = (Ok tt, wc)) by (vm_compute; reflexivity).
  assert (Hs : setup_pipeline_db_structure wc = (Ok tt, ws))
    by (vm_compute; reflexivity).
  assert (Hl : load_telco_data fs usage_csv 1719792000 ws = (Ok 2%Z, wl))
    by (vm_compute; reflexivity).
  assert (Hq : run_data_quality_checks psycopg2_cursor wl
               = (Ok (false, ["DQ Exception: " ++ str e]), wq))
    by (vm_compute; reflexivity).
  destruct (failed_quality_query_ends_the_run retention_on fs usage_csv
              1719792000 w wc ws wl wq true 2%Z false e Hv Hc Hs Hl Hq)
    as (code & w' & Hrun & Halerts & _ & Hdur & _).
  exists code, w'. split; [exact Hrun |].
  split; [rewrite Halerts; reflexivity |].
  rewrite Hdur. split; vm_compute; reflexivity.
Defined.

(** A file whose second row has eight fields, and a file whose sixth
    line cannot be read. *)
Lemma invalid_file_never_reaches_database_witness :
  let short : FileSystem :=
    {[ usage_csv := Readable [call_row; short_row; sms_row] None ]} in
  let unread : FileSystem := {[ usage_csv := five_rows_then_error ]} in
  let w := fresh_world july_first [] in
  run_etl_process retention_on short usage_csv 1719792000 w
  = (1%Z,
     alerted "Telco ETL Critical Failure: Data Validation Error"
       ["CSV Validation Error (Row 2): Expected 9, found 8 in '/app/data/usage_sample.csv'."]
       w) /\
  run_etl_process retention_on unread usage_csv 1719792000 w
  = (1%Z,
     alerted "Telco ETL Critical Failure: Unexpected System Error"
       ["Error: Error"] w).
Proof.
  intros short unread w.
  assert (Hshort : validate_csv_structure short usage_csv
                   = Raise (ValueError
                              "CSV Validation Error (Row 2): Expected 9, found 8 in '/app/data/usage_sample.csv'."))
    by (vm_compute; reflexivity).
  assert (Hunread : validate_csv_structure unread usage_csv
                    = Raise field_limit_error)
    by (vm_compute; reflexivity).
  split.
  - exact (proj1 (invalid_file_never_reaches_database retention_on short
                    usage_csv 1719792000 w _ Hshort)).
  - exact (proj1 (invalid_file_never_reaches_database retention_on unread
                    usage_csv 1719792000 w _ Hunread)).
Defined.

(** The DDL setup, run on what a first setup left. *)
Lemma setup_pipeline_db_structure_set_up_witness :
  healthy after_setup /\
  set_up (working after_setup) /\
  exists w',
    setup_pipeline_db_structure after_setup = (Ok tt, w') /\
    working w' = working after_setup /\
    committed w' = working after_setup.
Proof.
  assert (Hw : healthy after_setup).
  { split; [vm_compute; reflexivity | vm_compute; constructor]. }
  assert (Hset : set_up (working after_setup)).
  { split; [vm_compute; eauto |]. split; [vm_compute; reflexivity |].
    intros name column Hin.
    destruct Hin as [Hin | [Hin | [Hin | [Hin | []]]]];
      inversion Hin; subst; vm_compute; reflexivity. }
  split; [exact Hw |]. split; [exact Hset |].
  destruct (setup_pipeline_db_structure_set_up after_setup Hw Hset)
    as (w' & Hrun & Hwork & Hdur & _).
  exists w'. auto.
Defined.

(** The views stage after the load of the two-row file, and on a
    database where the name of one view is taken by the other. *)
Lemma create_pipeline_analytics_views_witness :
  healthy after_first_load /\
  (exists w',
      create_pipeline_analytics_views after_first_load = (Ok tt, w') /\
      views (working w')
      = <["analytics_monthly_trends" := MonthlyTrends]>
          (<["analytics_usage_distribution" := UsageDistribution]>
             (views (working after_first_load))) /\
      table (working w') = Some [call_usage; sms_usage]) /\
  views (working world_with_swapped_view) !! "analytics_usage_distribution"
  = Some MonthlyTrends /\
  exists e w',
    create_pipeline_analytics_views world_with_swapped_view = (Raise e, w') /\
    undone world_with_swapped_view w'.
Proof.
  assert (Hw : healthy after_first_load).
  { split; [vm_compute; reflexivity | vm_compute; constructor]. }
  assert (Htable : table (working after_first_load)
                   = Some [call_usage; sms_usage])
    by (vm_compute; reflexivity).
  assert (Hviews : views (working after_first_load) = ∅)
    by (vm_compute; reflexivity).
  assert (Hswapped : views (working world_with_swapped_view)
                       !! "analytics_usage_distribution" = Some MonthlyTrends)
    by (vm_compute; reflexivity).
  split; [exact Hw |]. split; [| split; [exact Hswapped |]].
  - destruct (proj1 (create_pipeline_analytics_views_spec after_first_load)
                Hw) as (w' & Hrun & Hvs & Hrows & _).
    { rewrite Htable. eauto. }
    { vm_compute. reflexivity. }
    { vm_compute. reflexivity. }
    { intros old Hold. rewrite Hviews, lookup_empty in Hold.
      discriminate Hold. }
    { intros old Hold. rewrite Hviews, lookup_empty in Hold.
      discriminate Hold. }
    exists w'. split; [exact Hrun |]. split; [exact Hvs |].
    rewrite Hrows. exact Htable.
  - apply (proj2 (create_pipeline_analytics_views_spec
                    world_with_swapped_view) MonthlyTrends).
    left. split; [exact Hswapped | reflexivity].
Defined.

(** The alerts of the run in which the first view statement fails. *)
Lemma run_etl_process_alerts_witness :
  let fs : FileSystem := {[ usage_csv := Readable [call_row; sms_row] None ]} in
  let w := fresh_world july_first fails_at_views in
  let out := run_etl_process retention_on fs usage_csv 1719792000 w in
  fst out = 1%Z /\
  exists subject body,
    In subject critical_subjects /\ alerts (snd out) = [(subject, [body])].
Proof.
  intros fs w out.
  assert (Hrun : run_etl_process retention_on fs usage_csv 1719792000 w
                 = (1%Z, snd out)) by (vm_compute; reflexivity).
  assert (Hcode : fst out = 1%Z) by (vm_compute; reflexivity).
  split; [exact Hcode |].
  destruct (run_etl_process_alerts retention_on fs usage_csv 1719792000
              w (snd out) 1%Z Hrun)
    as (quality & Hquality & [[Hzero _] | (_ & subject & body & Hin & Ha)]).
  - discriminate Hzero.
  - exists subject, body. split; [exact Hin |].
    destruct Hquality as [-> | (issues & ->)]; [exact Ha |].
    exfalso.
    assert (Hlen : List.length (alerts (snd out)) = 1%nat)
      by (vm_compute; reflexivity).
    rewrite Ha in Hlen. cbn in Hlen. discriminate Hlen.
Defined.

(** The load of the two-row file after the DDL setup. *)
Lemma load_telco_data_returns_witness :
  let fs : FileSystem := {[ usage_csv := Readable [call_row; sms_row] None ]} in
  healthy after_setup /\
  copy_rows (accepted_rows [call_row; sms_row])
  = Accepted [staged call_usage; staged sms_usage] /\
  complete (staged call_usage) /\ complete (staged sms_usage) /\
  exists n w1,
    load_telco_data fs usage_csv 1719792000 after_setup = (Ok n, w1) /\
    healthy w1.
Proof.
  intros fs.
  assert (Hw : healthy after_setup).
  { split; [vm_compute; reflexivity | vm_compute; constructor]. }
  assert (Hrs : copy_rows (accepted_rows [call_row; sms_row])
                = Accepted [staged call_usage; staged sms_usage])
    by (vm_compute; reflexivity).
  assert (Hc1 : complete (staged call_usage))
    by (unfold complete; cbn; eauto 10).
  assert (Hc2 : complete (staged sms_usage))
    by (unfold complete; cbn; eauto 10).
  assert (Hviews : views (working after_setup) = ∅)
    by (vm_compute; reflexivity).
  split; [exact Hw |]. split; [exact Hrs |].
  split; [exact Hc1 |]. split; [exact Hc2 |].
  apply (load_telco_data_returns fs usage_csv 1719792000 after_setup
           [call_row; sms_row] None
           [staged call_usage; staged sms_usage] Hw).
  - vm_compute. reflexivity.
  - vm_compute. eauto.
  - vm_compute. reflexivity.
  - intros name column _. rewrite Hviews. apply lookup_empty.
  - apply lookup_insert_eq.
  - exact Hrs.
  - intros s [<- | [<- | []]]; assumption.
Defined.

(** A whole run on the two-row file, from the empty database. *)
Lemma run_etl_process_succeeds_witness :
  let fs : FileSystem := {[ usage_csv := Readable [call_row; sms_row] None ]} in
  let w := fresh_world july_first [] in
  healthy w /\ tidy (committed w) /\
  exists w',
    run_etl_process retention_off fs usage_csv 1719792000 w = (0%Z, w') /\
    working w' = committed w' /\
    views (committed w') !! "analytics_monthly_trends" = Some MonthlyTrends.
Proof.
  intros fs w.
  assert (Hw : healthy w) by (split; [reflexivity | constructor]).
  assert (Htidy : tidy (committed w)).
  { split; [intros _; reflexivity |].
    split; [intros name column _; apply lookup_empty |].
    split; [apply lookup_empty |]. split; [apply lookup_empty |].
    split; intros old Hold; cbn in Hold; rewrite lookup_empty in Hold;
      discriminate Hold. }
  assert (Hv : validate_csv_structure fs usage_csv = Ok true)
    by (vm_compute; reflexivity).
  assert (Hrs : copy_rows (accepted_rows [call_row; sms_row])
                = Accepted [staged call_usage; staged sms_usage])
    by (vm_compute; reflexivity).
  split; [exact Hw |]. split; [exact Htidy |].
  destruct (run_etl_process_succeeds retention_off fs usage_csv 1719792000 w
              [call_row; sms_row] [staged call_usage; staged sms_usage] true
              Hw Htidy Hv (lookup_insert_eq _ _ _) Hrs)
    as (w' & Hrun & Hsame & _ & _ & Htrends).
  { intros s [<- | [<- | []]]; unfold complete; cbn; eauto 10. }
  exists w'. auto.
Defined.

(** The two-row file with its first row repeated, after the DDL
    setup. *)
Lemma load_identities_witness :
  let fs : FileSystem := {[ usage_csv := Readable [call_row; call_row; sms_row] None ]} in
  let out := load_telco_data fs usage_csv 1719792000 after_setup in
  out = (Ok 2%Z, snd out) /\
  exists after,
    table (committed (snd out)) = Some after /\
    NoDup (map event_uuid after) /\
    2%Z = (Z.of_nat (List.length after) - 0)%Z.
Proof.
  intros fs out.
  assert (Hrun : load_telco_data fs usage_csv 1719792000 after_setup
                 = (Ok 2%Z, snd out)) by (vm_compute; reflexivity).
  split; [exact Hrun |].
  destruct (load_identities fs usage_csv 1719792000 after_setup
              [call_row; call_row; sms_row] None
              [staged call_usage; staged call_usage; staged sms_usage]
              [] 2%Z (snd out))
    as (after & Hafter & _ & Hnodup & Hcount).
  - apply lookup_insert_eq.
  - discriminate.
  - vm_compute. reflexivity.
  - vm_compute. reflexivity.
  - exact Hrun.
  - exists after. split; [exact Hafter |].
    split; [apply Hnodup; constructor | exact Hcount].
Defined.

(** A file with a short row before two good ones, after the DDL setup:
    the load succeeds, the warning for row 1 is in the log and the two
    good rows are in the durable table. *)
Lemma malformed_rows_are_skipped_witness :
  let fs : FileSystem :=
    {[ usage_csv := Readable [short_row; call_row; sms_row] None ]} in
  let out := load_telco_data fs usage_csv 1719792000 after_setup in
  fs !! usage_csv = Some (Readable [short_row; call_row; sms_row] None) /\
  accepted_rows [short_row; call_row; sms_row] = [call_row; sms_row] /\
  out = (Ok 2%Z, snd out) /\
  In "Skipping malformed row 1 in '/app/data/usage_sample.csv'."
     (warnings (snd out)) /\
  exists rs before added,
    copy_rows [call_row; sms_row] = Accepted rs /\
    List.length rs = 2%nat /\
    table (working after_setup) = Some before /\
    table (committed (snd out)) = Some (before ++ added)%list /\
    2%Z = Z.of_nat (List.length added) /\
    (forall s, In s rs ->
               exists u, row_uuid s = Some u /\
                         uuid_present u (before ++ added) = true).
Proof.
  intros fs out.
  assert (Hfile : fs !! usage_csv
                  = Some (Readable [short_row; call_row; sms_row] None))
    by (vm_compute; reflexivity).
  assert (Hacc : accepted_rows [short_row; call_row; sms_row]
                 = [call_row; sms_row]) by reflexivity.
  assert (Hrun : load_telco_data fs usage_csv 1719792000 after_setup
                 = (Ok 2%Z, snd out)) by (vm_compute; reflexivity).
  destruct (malformed_rows_are_skipped fs usage_csv 1719792000 after_setup
              [short_row; call_row; sms_row] None Hfile)
    as (_ & _ & Hok & _).
  destruct (Hok 2%Z (snd out) Hrun) as (_ & Hlog & _ & Hloaded).
  split; [exact Hfile |]. split; [exact Hacc |]. split; [exact Hrun |].
  split; [apply Hlog; left; reflexivity |].
  rewrite Hacc in Hloaded. apply Hloaded. discriminate.
Defined.
